(** * Obsidian Timing plugin: section synchronisation and data transformation

  A shallow embedding of the units of the plugin that read and write the
  data of a day,

  - [DataTransformer] (data-transformer.ts): validation, normalisation and
    aggregation of the raw payload obtained from the Timing application, and
    the methods that format and group its result;
  - [TimingSectionManager] (daily-note-manager.ts): locating, replacing and
    inserting the "Timing Tracking" section of a daily note, and the
    renderers of the summary and of the timeline;
  - [DailyNoteManager] (daily-note-manager.ts): the names, paths, folders
    and the default template of daily notes;

  followed by the properties established about them.

  Texts are sequences of code units below 256 ([string]); documents are
  read and written as whole texts, so the vault is modelled by passing the
  content in and out. *)

From Stdlib Require Import String Ascii List ZArith QArith Qround Lia Bool.
From Stdlib Require Import Sorted Permutation.
From stdpp Require Import gmap strings.

(* ===================================================================== *)
(** * Part I: the model                                                   *)
(* ===================================================================== *)

(** ** Text primitives of the host language *)

Module Text.

Definition LF : ascii := "010"%char.
Definition hash : ascii := "#"%char.

(** White space as recognised by [\s] and [trim]: tab, line feed, vertical
    tab, form feed, carriage return, space and no-break space. *)
Definition isSpace (c : ascii) : bool :=
  existsb (Ascii.eqb c)
    ["009"; "010"; "011"; "012"; "013"; " "; "160"]%char.

Definition isDigit (c : ascii) : bool :=
  (48 <=? N_of_ascii c)%N && (N_of_ascii c <=? 57)%N.

Definition isHash (c : ascii) : bool := Ascii.eqb c hash.

(** Canonical form of a code unit under the [i] flag: simple upper case,
    for the letters that have one below 256. *)
Definition canonicalize (c : ascii) : N :=
  let n := N_of_ascii c in
  if (97 <=? n)%N && (n <=? 122)%N then (n - 32)%N
  else if (224 <=? n)%N && (n <=? 254)%N && negb (n =? 247)%N then (n - 32)%N
  else n.

Definition eqCI (p c : ascii) : bool := (canonicalize p =? canonicalize c)%N.

(** [s.split(sep)] for a one-character separator: never empty, a trailing
    separator yields a final empty piece. [split] is [s.split('\n')]. *)
Definition consHead (c : ascii) (ls : list string) : list string :=
  match ls with
  | [] => [String c ""]
  | l :: rest => String c l :: rest
  end.

Fixpoint splitOn (sep : ascii) (s : string) : list string :=
  match s with
  | EmptyString => [""]
  | String c s' =>
      if Ascii.eqb c sep then "" :: splitOn sep s'
      else consHead c (splitOn sep s')
  end.

Definition split (s : string) : list string := splitOn LF s.

(** [ls.join('\n')] *)
Fixpoint join (ls : list string) : string :=
  match ls with
  | [] => ""
  | [l] => l
  | l :: rest => l +:+ String LF (join rest)
  end.

(** [ls.slice(a, b)] for [0 <= a], [0 <= b]. *)
Definition slice {A} (a b : nat) (l : list A) : list A :=
  firstn (b - a) (skipn a l).

(** [s.substring(0, n)] and [s.substring(n)]; both clamp [n] to the
    length of [s]. *)
Fixpoint substringTo (n : nat) (s : string) : string :=
  match n, s with
  | S n', String c s' => String c (substringTo n' s')
  | _, _ => ""
  end.

Fixpoint substringFrom (n : nat) (s : string) : string :=
  match n, s with
  | S n', String c s' => substringFrom n' s'
  | _, _ => s
  end.

Definition startsWith (p s : string) : bool := String.prefix p s.

Fixpoint endsWith (p s : string) : bool :=
  String.eqb s p
  || match s with
     | EmptyString => false
     | String _ s' => endsWith p s'
     end.

Fixpoint trimStart (s : string) : string :=
  match s with
  | String c s' => if isSpace c then trimStart s' else s
  | EmptyString => ""
  end.

Fixpoint trimEnd (s : string) : string :=
  match s with
  | EmptyString => ""
  | String c s' =>
      match trimEnd s' with
      | EmptyString => if isSpace c then "" else String c ""
      | r => String c r
      end
  end.

Definition trim (s : string) : string := trimEnd (trimStart s).

Fixpoint repeat (c : ascii) (n : nat) : string :=
  match n with
  | 0 => ""
  | S n' => String c (repeat c n')
  end.

(** Length of the leading run of [#]; [line.match(/^#+/)] succeeds when it
    is positive and then [match[0].length] is that length. *)
Fixpoint leadingHashes (s : string) : nat :=
  match s with
  | String c s' => if isHash c then S (leadingHashes s') else 0
  | EmptyString => 0
  end.

Definition headerMatch (line : string) : option nat :=
  match leadingHashes line with
  | 0 => None
  | n => Some n
  end.

(** *** Regular expressions

    The expressions of the plugin are sequences of bounded or unbounded
    repetitions of a character class, anchored at the start of the text and
    possibly at its end. [matchRep cls lo hi k s] holds when [s] starts
    with between [lo] and [hi] characters of [cls] after which [k] accepts
    the rest: every way of dividing the text is tried, as backtracking
    does. *)
Record atom := Atom { cls : ascii -> bool; lo : nat; hi : option nat }.

Fixpoint matchRep (cls : ascii -> bool) (lo hi : nat)
         (k : string -> bool) (s : string) {struct s} : bool :=
  (match lo with 0 => k s | _ => false end)
  || match hi, s with
     | S hi', String c s' => cls c && matchRep cls (pred lo) hi' k s'
     | _, _ => false
     end.

Fixpoint matchSeq (re : list atom) (final : string -> bool) (s : string) : bool :=
  match re with
  | [] => final s
  | a :: rest =>
      matchRep (cls a) (lo a)
               (match hi a with Some h => h | None => String.length s end)
               (matchSeq rest final) s
  end.

(** [/^re/.test(s)] and [/^re$/.test(s)] *)
Definition testPrefix (re : list atom) (s : string) : bool :=
  matchSeq re (fun _ => true) s.
Definition testWhole (re : list atom) (s : string) : bool :=
  matchSeq re (fun r => String.eqb r "") s.

Definition chars (s : string) : list ascii := list_ascii_of_string s.

Definition hashes (a b : nat) : atom := Atom isHash a (Some b).
Definition spaces : atom := Atom isSpace 0 None.
Definition digits (a b : nat) : atom := Atom isDigit a (Some b).
Definition lit (s : string) : list atom :=
  map (fun c => Atom (Ascii.eqb c) 1 (Some 1)) (chars s).
Definition litCI (s : string) : list atom :=
  map (fun c => Atom (eqCI c) 1 (Some 1)) (chars s).

(** [parseInt(s, 10)]: leading white space, an optional sign, then the
    longest run of decimal digits; [None] stands for [NaN]. *)
Fixpoint digitsValue (acc : Z) (s : string) : Z :=
  match s with
  | String c s' =>
      if isDigit c
      then digitsValue (10 * acc + (Z.of_N (N_of_ascii c) - 48)) s'
      else acc
  | EmptyString => acc
  end.

Definition unsignedInt (s : string) : option Z :=
  match s with
  | String c _ => if isDigit c then Some (digitsValue 0 s) else None
  | EmptyString => None
  end.

Definition parseInt (s : string) : option Z :=
  match trimStart s with
  | String "-" r => Z.opp <$> unsignedInt r
  | String "+" r => unsignedInt r
  | r => unsignedInt r
  end.

(** First index at or after [i] (the index of the head of [l]) whose
    element satisfies [p]: the [for] loops that [break] or [return] at the
    first hit. *)
Fixpoint findFrom {A} (p : A -> bool) (l : list A) (i : nat) : option nat :=
  match l with
  | [] => None
  | x :: rest => if p x then Some i else findFrom p rest (S i)
  end.

End Text.

(** ** Values of the host language, as far as the raw payload needs them *)

Module Js.

(** A loosely typed value as [JSON.parse] or a caller can hand it over.
    Numbers are exact rationals: rounding error, [NaN] and the infinities
    of the floating-point format are outside the model. *)
#[warnings="-register-all"] Inductive value :=
| VUndefined
| VNull
| VBool (b : bool)
| VNum (q : Q)
| VStr (s : string)
| VArr (items : list value)
| VObj (fields : list (string * value)).

(** Completion of a call: a value or a thrown error. *)
Inductive result (A : Type) :=
| Ok (a : A)
| Throw (msg : string).
Arguments Ok {A} a.
Arguments Throw {A} msg.

#[global] Instance result_bind : MBind result :=
  fun A B (f : A -> result B) (r : result A) =>
    match r with
    | Ok a => f a
    | Throw m => Throw m
    end.

Definition truthy (v : value) : bool :=
  match v with
  | VUndefined | VNull => false
  | VBool b => b
  | VNum q => negb (Qeq_bool q 0)
  | VStr s => negb (String.eqb s "")
  | VArr _ | VObj _ => true
  end.

Fixpoint lookupField (name : string) (fields : list (string * value)) : value :=
  match fields with
  | [] => VUndefined
  | (k, v) :: rest => if String.eqb k name then v else lookupField name rest
  end.

(** [v.name] for the field names of the payload: reading a field of
    [null] or [undefined] throws, a value without the field gives
    [undefined]. *)
Definition prop (v : value) (name : string) : result value :=
  match v with
  | VUndefined | VNull => Throw "TypeError: cannot read properties"
  | VObj fields => Ok (lookupField name fields)
  | _ => Ok VUndefined
  end.

Definition isArray (v : value) : bool :=
  match v with VArr _ => true | _ => false end.

(** [Math.round]: to the nearest integer, halves upwards. *)
Definition round (q : Q) : Z := Qfloor (q + (1 # 2)).

End Js.

(** ** DataTransformer (data-transformer.ts) *)

Module DataTransformer.
Import Text Js.
#[local] Open Scope Z_scope.

Record TimeEntry := {
  startTime : string;
  endTime : string;
  duration : Z;
  application : string;
  category : option string;
  title : option string;
  productivity : option Z
}.

(** The three maps of the summary; the key [None] of [byHour] is the key
    [NaN], which [extractHour] yields for a start time without a leading
    number. *)
Record TimeSummary := {
  totalTime : Z;
  byApplication : gmap string Z;
  byCategory : gmap string Z;
  byHour : gmap (option Z) Z
}.

Record DailyTimeData := {
  date : value;
  entries : list TimeEntry;
  summary : TimeSummary
}.

Section Host.

(** Two conversions of the host that the transformer applies to values of
    any type: [String(v)], and whether [new Date(v)] is a valid date (the
    calendar check of [isValidDate], which differs between engines for days
    such as February 30th). *)
Variable toText : value -> string.
Variable dateIsValid : value -> bool.

(** [/^\d{4}-\d{2}-\d{2}$/] *)
Definition datePattern : list atom :=
  digits 4 4 :: lit "-" ++ digits 2 2 :: lit "-" ++ [digits 2 2].

(** [/^(\d{1,2}):(\d{2}):(\d{2})$/] *)
Definition timePattern : list atom :=
  digits 1 2 :: lit ":" ++ digits 2 2 :: lit ":" ++ [digits 2 2].

Definition isValidDate (dateString : value) : bool :=
  dateIsValid dateString && testWhole datePattern (toText dateString).

Definition validateRawData (rawData : value) : result unit :=
  if negb (truthy rawData) then Throw "Raw data is null or undefined" else
  d ← prop rawData "date";
  if negb (truthy d) then Throw "Raw data missing date field" else
  if negb (isValidDate d) then Throw ("Invalid date format: " +:+ toText d) else
  es ← prop rawData "entries";
  if negb (isArray es) then Throw "Raw data entries must be an array"
  else Ok tt.

Definition validateRawEntry (rawEntry : value) : result unit :=
  st ← prop rawEntry "startTime";
  en ← prop rawEntry "endTime";
  if negb (truthy st) || negb (truthy en)
  then Throw "Entry missing required time fields" else
  app ← prop rawEntry "application";
  if negb (truthy app) then Throw "Entry missing application field" else
  d ← prop rawEntry "duration";
  match d with
  | VNum q =>
      if negb (Qle_bool 0 q) then Throw "Entry has invalid duration" else Ok tt
  | _ => Throw "Entry has invalid duration"
  end.

(** [s.padStart(2, '0')] *)
Definition padStart2 (s : string) : string :=
  repeat "0" (2 - String.length s) +:+ s.

(** The three groups of a match of [timePattern] are the pieces of the text
    between its colons. A value that is not a text has no [match] method. *)
Definition normalizeTime (timeString : value) : result string :=
  match timeString with
  | VStr s =>
      if testWhole timePattern s then
        let parts := splitOn ":" s in
        Ok (padStart2 (nth 0 parts "") +:+ ":" +:+ nth 1 parts ""
            +:+ ":" +:+ nth 2 parts "")
      else Throw ("Invalid time format: " +:+ s)
  | _ => Throw "TypeError: timeString.match is not a function"
  end.

Definition parseDuration (d : value) : result Z :=
  match d with
  | VNum q => Ok (Z.max 0 (round q))
  | VStr s =>
      match parseInt s with
      | Some parsed => Ok (Z.max 0 parsed)
      | None => Throw ("Invalid duration: " +:+ s)
      end
  | _ => Throw ("Invalid duration: " +:+ toText d)
  end.

Definition parseProductivity (p : value) : option Z :=
  match p with
  | VNum q => Some (Z.max 0 (Z.min 5 (round q)))
  | VStr s => (fun parsed => Z.max 0 (Z.min 5 parsed)) <$> parseInt s
  | _ => None
  end.

(** [.replace(/[\r\n\t]/g, ' ')] and [.replace(/\s+/g, ' ')] *)
Fixpoint replaceControl (s : string) : string :=
  match s with
  | EmptyString => ""
  | String c s' =>
      String (if existsb (Ascii.eqb c) ["013"; "010"; "009"]%char
              then " "%char else c)
             (replaceControl s')
  end.

Fixpoint collapseSpaces (inRun : bool) (s : string) : string :=
  match s with
  | EmptyString => ""
  | String c s' =>
      if isSpace c
      then (if inRun then collapseSpaces true s'
            else String " " (collapseSpaces true s'))
      else String c (collapseSpaces false s')
  end.

Definition sanitizeString (input : value) : string :=
  match input with
  | VStr s => substringTo 200 (collapseSpaces false (replaceControl (trim s)))
  | _ => toText (if truthy input then input else VStr "")
  end.

Definition optional {A} (v : value) (f : value -> A) : option A :=
  if truthy v then Some (f v) else None.

(** The body of [transformEntry]'s [try] block. *)
Definition buildEntry (rawEntry : value) : result TimeEntry :=
  validateRawEntry rawEntry;;
  rawStart ← prop rawEntry "startTime";
  start ← normalizeTime rawStart;
  rawEnd ← prop rawEntry "endTime";
  end_ ← normalizeTime rawEnd;
  rawDuration ← prop rawEntry "duration";
  dur ← parseDuration rawDuration;
  rawApp ← prop rawEntry "application";
  rawCategory ← prop rawEntry "category";
  rawTitle ← prop rawEntry "title";
  rawProductivity ← prop rawEntry "productivity";
  Ok {| startTime := start;
        endTime := end_;
        duration := dur;
        application := sanitizeString rawApp;
        category := optional rawCategory sanitizeString;
        title := optional rawTitle sanitizeString;
        productivity :=
          if truthy rawProductivity then parseProductivity rawProductivity
          else None |}.

(** [null] is [None]: whatever is thrown while an entry is built is caught
    and the entry is given up. *)
Definition transformEntry (rawEntry : value) : option TimeEntry :=
  match buildEntry rawEntry with
  | Ok entry => Some entry
  | Throw _ => None
  end.

(** [Array.prototype.sort] is stable; on start times, which all have the
    shape [HH:MM:SS] here, [localeCompare] orders as the code units do. *)
Definition startsBefore (a b : TimeEntry) : bool :=
  String.leb (startTime a) (startTime b).

Fixpoint insertByStart (e : TimeEntry) (sorted : list TimeEntry) : list TimeEntry :=
  match sorted with
  | [] => [e]
  | x :: rest =>
      if startsBefore e x then e :: x :: rest else x :: insertByStart e rest
  end.

Definition sortByStart (es : list TimeEntry) : list TimeEntry :=
  foldr insertByStart [] es.

Definition transformEntries (rawEntries : list value) : list TimeEntry :=
  sortByStart (omap transformEntry rawEntries).

Definition extractHour (timeString : string) : option Z :=
  parseInt (hd "" (splitOn ":" timeString)).

(** [map.set(k, (map.get(k) || 0) + d)] *)
Definition accumulate `{Countable K} (m : gmap K Z) (k : K) (d : Z) : gmap K Z :=
  <[k := default 0 (m !! k) + d]> m.

Definition emptySummary : TimeSummary :=
  {| totalTime := 0; byApplication := ∅; byCategory := ∅; byHour := ∅ |}.

Definition addEntry (s : TimeSummary) (entry : TimeEntry) : TimeSummary :=
  {| totalTime := totalTime s + duration entry;
     byApplication := accumulate (byApplication s) (application entry) (duration entry);
     byCategory :=
       match category entry with
       | Some c =>
           if String.eqb c "" then byCategory s
           else accumulate (byCategory s) c (duration entry)
       | None => byCategory s
       end;
     byHour := accumulate (byHour s) (extractHour (startTime entry)) (duration entry) |}.

Definition calculateSummary (es : list TimeEntry) : TimeSummary :=
  fold_left addEntry es emptySummary.

Definition transformTimingData (rawData : value) : result DailyTimeData :=
  validateRawData rawData;;
  rawEntries ← prop rawData "entries";
  d ← prop rawData "date";
  match rawEntries with
  | VArr items =>
      let es := transformEntries items in
      Ok {| date := d; entries := es; summary := calculateSummary es |}
  | _ => Throw "TypeError: rawEntries.map is not a function"
  end.

End Host.

End DataTransformer.

(** ** TimingSectionManager (daily-note-manager.ts) *)

Module TimingSectionManager.
Import Text DataTransformer.

Inductive SectionLocation := Top | Bottom | AfterHeader | Custom.
Inductive GroupBy := ByApplication | ByCategory | Both.

(** The settings that the manager itself reads. *)
Record TimingPluginSettings := {
  timingSectionLocation : SectionLocation;
  afterHeaderName : option string;
  includeTimeline : bool;
  includeReflection : bool;
  groupBy : GroupBy
}.

Record TimingSectionInfo := {
  exists_ : bool;
  startLine : Z;
  endLine : Z;
  content : string;
  headerLevel : nat
}.

Definition NL : string := String LF "".

(** [/^#{1,6}\s*timing\s*tracking/i] *)
Definition timingHeaderRegex : list atom :=
  hashes 1 6 :: spaces :: litCI "timing" ++ spaces :: litCI "tracking".

(** [/^#{2,6}\s*reflection/i] *)
Definition reflectionRegex : list atom :=
  hashes 2 6 :: spaces :: litCI "reflection".

(** [new RegExp(`^#{1,6}\\s*${headerName}\\s*$`, 'i')], for a header name
    without characters that are special in a regular expression. *)
Definition afterHeaderRegex (headerName : string) : list atom :=
  hashes 1 6 :: spaces :: litCI headerName ++ [spaces].

(** The test that ends the scan of a section: the line starts with a run of
    [#] that is not longer than [level]. *)
Definition closesSection (level : nat) (line : string) : bool :=
  match headerMatch line with
  | Some n => n <=? level
  | None => false
  end.

(** Length of the matched run of [#], with the fallback of the source for a
    line without one. *)
Definition levelOf (line : string) : nat :=
  match headerMatch line with
  | Some n => n
  | None => 2
  end.

(** The end of the section whose header is line [start]: the first later
    line that closes it, or the number of lines. *)
Definition sectionEnd (level start : nat) (lines : list string) : nat :=
  match findFrom (closesSection level) (skipn (S start) lines) (S start) with
  | Some j => j
  | None => length lines
  end.

Definition findTimingSection (content : string) : TimingSectionInfo :=
  let lines := split content in
  match findFrom (testPrefix timingHeaderRegex) lines 0 with
  | None =>
      {| exists_ := false; startLine := -1; endLine := -1;
         content := ""; headerLevel := 0 |}
  | Some start =>
      let level := levelOf (nth start lines "") in
      let stop := sectionEnd level start lines in
      {| exists_ := true;
         startLine := Z.of_nat start;
         endLine := Z.of_nat stop;
         content := join (slice start stop lines);
         headerLevel := level |}
  end.

Definition extractReflectionContent (sectionContent : string) : option string :=
  let lines := split sectionContent in
  match findFrom (testPrefix reflectionRegex) lines 0 with
  | None => None
  | Some reflectionStart =>
      let reflectionHeaderLevel := levelOf (nth reflectionStart lines "") in
      let reflectionEnd := sectionEnd reflectionHeaderLevel reflectionStart lines in
      let reflectionLines := slice (S reflectionStart) reflectionEnd lines in
      let reflectionText := trim (join reflectionLines) in
      if String.eqb reflectionText "" then None else Some reflectionText
  end.

Definition placeholder : string :=
  "<!-- Add your daily time usage reflection here -->".

Definition generateReflectionSection (existingReflection : option string)
           (h2 : string) : string :=
  let heading := h2 +:+ " Reflection" +:+ NL +:+ NL in
  match existingReflection with
  | Some text =>
      if String.eqb text "" then heading +:+ placeholder +:+ NL +:+ NL
      else heading +:+ text +:+ NL +:+ NL
  | None => heading +:+ placeholder +:+ NL +:+ NL
  end.

(** [findAfterTitle] and [findAfterSpecificHeader] return the length of the
    first [n] lines joined, plus one. *)
Definition offsetAfter (n : nat) (lines : list string) : nat :=
  String.length (join (slice 0 n lines)) + 1.

Definition findAfterTitle (content : string) : nat :=
  let lines := split content in
  match findFrom (startsWith "# ") lines 0 with
  | Some i => offsetAfter (i + 1) lines
  | None => 0
  end.

Definition findAfterSpecificHeader (content headerName : string) : nat :=
  let lines := split content in
  match findFrom (testWhole (afterHeaderRegex headerName)) lines 0 with
  | Some i =>
      let level := levelOf (nth i lines "") in
      match findFrom (closesSection level) (skipn (i + 1) lines) (i + 1) with
      | Some j => offsetAfter j lines
      | None => offsetAfter (i + 1) lines
      end
  | None => String.length content
  end.

Definition insertAtPosition (content : string) (position : nat)
           (insertContent : string) : string :=
  let before := substringTo position content in
  let after := substringFrom position content in
  let spacing :=
    if endsWith (NL +:+ NL) before then ""
    else if endsWith NL before then NL else NL +:+ NL in
  let endSpacing := if startsWith NL after then "" else NL in
  before +:+ spacing +:+ insertContent +:+ endSpacing +:+ after.

Section Manager.

(** The state of a manager: its settings, and the four methods that render
    the statistics of a day under sub-headers [h2]. They format durations,
    percentages (in floating point) and clock times and are taken as they
    are; what the properties below need of their output is stated where it
    is used. *)
Variable settings : TimingPluginSettings.
Variable generateSummarySection : DailyTimeData -> string -> string.
Variable generateApplicationSection : DailyTimeData -> string -> string.
Variable generateCategorySection : DailyTimeData -> string -> string.
Variable generateTimelineSection : DailyTimeData -> string -> string.

Definition generateTimingContent (timingData : DailyTimeData)
           (existingReflection : option string) (headerLevel : nat) : string :=
  let h := repeat hash headerLevel in
  let h2 := repeat hash (headerLevel + 1) in
  let content := h +:+ " Timing Tracking" +:+ NL +:+ NL in
  let content := content +:+ generateSummarySection timingData h2 in
  let content :=
    match groupBy settings with
    | ByApplication | Both => content +:+ generateApplicationSection timingData h2
    | ByCategory => content
    end in
  let content :=
    match groupBy settings with
    | ByCategory | Both => content +:+ generateCategorySection timingData h2
    | ByApplication => content
    end in
  let content :=
    if includeTimeline settings
    then content +:+ generateTimelineSection timingData h2 else content in
  let content :=
    if includeReflection settings
    then content +:+ generateReflectionSection existingReflection h2
    else content in
  content.

Definition findInsertionPoint (content : string) : nat :=
  match timingSectionLocation settings with
  | Top => findAfterTitle content
  | Bottom => String.length content
  | AfterHeader =>
      findAfterSpecificHeader content
        match afterHeaderName settings with
        | Some name => if String.eqb name "" then "Tasks" else name
        | None => "Tasks"
        end
  | Custom => String.length content
  end.

(** The two writers return the text handed to [vault.modify]; [content] is
    what [vault.read] returned, to [updateTimingSection] and again to the
    writer. *)
Definition replaceExistingSection (content : string)
           (sectionInfo : TimingSectionInfo) (timingData : DailyTimeData) : string :=
  let lines := split content in
  let reflectionContent := extractReflectionContent (TimingSectionManager.content sectionInfo) in
  let newTimingContent :=
    generateTimingContent timingData reflectionContent (headerLevel sectionInfo) in
  join (slice 0 (Z.to_nat (startLine sectionInfo)) lines
        ++ split newTimingContent
        ++ skipn (Z.to_nat (endLine sectionInfo)) lines).

Definition insertNewSection (content : string) (timingData : DailyTimeData) : string :=
  let insertionPoint := findInsertionPoint content in
  let timingContent := generateTimingContent timingData None 2 in
  insertAtPosition content insertionPoint timingContent.

Definition updateTimingSection (content : string) (timingData : DailyTimeData) : string :=
  let sectionInfo := findTimingSection content in
  if exists_ sectionInfo
  then replaceExistingSection content sectionInfo timingData
  else insertNewSection content timingData.

End Manager.

End TimingSectionManager.

(** ** Notions used to state the properties *)

Module Spec.
Import Text Js DataTransformer TimingSectionManager.

(** [s.includes(x)] *)
Fixpoint includes (x s : string) : bool :=
  String.prefix x s
  || match s with
     | EmptyString => false
     | String _ s' => includes x s'
     end.

(** A text without line feed. *)
Definition noLF (s : string) : Prop := forall a b, s <> a +:+ String LF b.

(** A line of white space only. *)
Definition isBlank (s : string) : bool := forallb isSpace (chars s).

(** The header line that [generateTimingContent] writes at a level, and the
    sub-section that [generateReflectionSection] writes around a text. *)
Definition timingHeaderLine (level : nat) : string :=
  repeat hash level +:+ " Timing Tracking".

Definition reflectionBlock (level : nat) (text : string) : string :=
  repeat hash (level + 1) +:+ " Reflection" +:+ NL +:+ NL +:+ text +:+ NL +:+ NL.

(** The text around which the Reflection sub-section is generated, and the
    lines of that sub-section. *)
Definition reflectionText (existingReflection : option string) : string :=
  match existingReflection with
  | Some text => if String.eqb text "" then placeholder else text
  | None => placeholder
  end.

Definition reflectionHeaderLine (level : nat) : string :=
  repeat hash (level + 1) +:+ " Reflection".

Definition blockLines (level : nat) (text : string) : list string :=
  [reflectionHeaderLine level; ""] ++ split text ++ [""; ""].

Definition notTitle (line : string) : Prop :=
  testPrefix timingHeaderRegex line = false.

(** Line [i] is the first line satisfying [p]. *)
Definition firstLine (p : string -> bool) (lines : list string) (i : nat) : Prop :=
  i < length lines /\ p (nth i lines "") = true
  /\ forall m, m < i -> p (nth m lines "") = false.

(** A line is a header of depth at most [level]. *)
Definition headerUpTo (level : nat) (line : string) : Prop :=
  1 <= leadingHashes line <= level.

(** [stop] ends the section whose header, of depth [level], is line
    [start]: the first later line that is a header of depth at most
    [level], or the number of lines. *)
Definition endsSectionAt (level start stop : nat) (lines : list string) : Prop :=
  start < stop <= length lines
  /\ (forall j, start < j < stop -> ~ headerUpTo level (nth j lines ""))
  /\ (stop < length lines -> headerUpTo level (nth stop lines "")).

(** The separators that [insertAtPosition] puts before and after the
    inserted text. *)
Definition spacingBefore (before : string) : string :=
  if endsWith (NL +:+ NL) before then ""
  else if endsWith NL before then NL else NL +:+ NL.

Definition spacingAfter (after : string) : string :=
  if startsWith NL after then "" else NL.


Section Statistics.
Variable settings : TimingPluginSettings.
Variable generateSummarySection : DailyTimeData -> string -> string.
Variable generateApplicationSection : DailyTimeData -> string -> string.
Variable generateCategorySection : DailyTimeData -> string -> string.
Variable generateTimelineSection : DailyTimeData -> string -> string.

(** The statistics between the header line and the reflection. *)
Definition statistics (timingData : DailyTimeData) (level : nat) : string :=
  let h2 := repeat hash (level + 1) in
  generateSummarySection timingData h2
  +:+ match groupBy settings with
      | ByApplication | Both => generateApplicationSection timingData h2
      | ByCategory => ""
      end
  +:+ match groupBy settings with
      | ByCategory | Both => generateCategorySection timingData h2
      | ByApplication => ""
      end
  +:+ (if includeTimeline settings
       then generateTimelineSection timingData h2 else "").

End Statistics.

(** What the properties of the synchronisation ask of the rendered
    statistics: they end with a line feed, and none of their lines is a
    header of depth at most [level], a title line or a reflection header. *)
Definition plainLine (level : nat) (line : string) : Prop :=
  closesSection level line = false
  /\ testPrefix timingHeaderRegex line = false
  /\ testPrefix reflectionRegex line = false.

Definition plainLineb (level : nat) (line : string) : bool :=
  negb (closesSection level line
        || testPrefix timingHeaderRegex line
        || testPrefix reflectionRegex line).

Definition plainText (level : nat) (text : string) : Prop :=
  (exists body, text = body +:+ NL) /\ Forall (plainLine level) (split text).


(** The field of a raw value, [undefined] when there is none. *)
Definition field (v : value) (name : string) : value :=
  match v with
  | VObj fields => lookupField name fields
  | _ => VUndefined
  end.

(** A payload with a structural violation, and a malformed entry. *)
Definition structurallyInvalid (toText : value -> string) (dateIsValid : value -> bool)
           (payload : value) : Prop :=
  truthy payload = false
  \/ truthy (field payload "date") = false
  \/ isValidDate toText dateIsValid (field payload "date") = false
  \/ isArray (field payload "entries") = false.

Definition malformed (rawEntry : value) : Prop :=
  truthy (field rawEntry "startTime") = false
  \/ truthy (field rawEntry "endTime") = false
  \/ truthy (field rawEntry "application") = false
  \/ (forall q, field rawEntry "duration" <> VNum q)
  \/ (exists q, field rawEntry "duration" = VNum q /\ (q < 0)%Q).

(** Entries in the order of their start times. *)
Definition sortedByStart (es : list TimeEntry) : Prop :=
  Sorted (fun a b => String.leb (startTime a) (startTime b) = true) es.










End Spec.

(** ** Sample data *)

Module Examples.
Import Text Js DataTransformer TimingSectionManager.

(** A day without entries, and what the four rendering methods write for
    it under sub-headers [h2]. *)
Definition emptyDay : DailyTimeData :=
  {| date := VStr "2025-06-18"; entries := []; summary := emptySummary |}.

Definition summaryOfEmptyDay (_ : DailyTimeData) (h2 : string) : string :=
  h2 +:+ " Summary" +:+ NL +:+ NL
  +:+ "- **Total tracked time**: 0s" +:+ NL +:+ NL.

Definition applicationsOfEmptyDay (_ : DailyTimeData) (h2 : string) : string :=
  h2 +:+ " By Application" +:+ NL +:+ NL
  +:+ "*No application data available*" +:+ NL +:+ NL.

Definition categoriesOfEmptyDay (_ : DailyTimeData) (h2 : string) : string :=
  h2 +:+ " By Category" +:+ NL +:+ NL
  +:+ "*No category data available*" +:+ NL +:+ NL.

Definition timelineOfEmptyDay (_ : DailyTimeData) (h2 : string) : string :=
  h2 +:+ " Timeline" +:+ NL +:+ NL
  +:+ "*No timeline data available*" +:+ NL +:+ NL.

Definition settingsAt (location : SectionLocation) (reflection : bool)
  : TimingPluginSettings :=
  {| timingSectionLocation := location;
     afterHeaderName := Some "Tasks";
     includeTimeline := true;
     includeReflection := reflection;
     groupBy := Both |}.

(** Synchronisation of a document with the empty day. *)
Definition syncEmptyDay (settings : TimingPluginSettings) (doc : string) : string :=
  updateTimingSection settings summaryOfEmptyDay applicationsOfEmptyDay
    categoriesOfEmptyDay timelineOfEmptyDay doc emptyDay.

Definition renderEmptyDay (settings : TimingPluginSettings)
           (reflection : option string) (level : nat) : string :=
  generateTimingContent settings summaryOfEmptyDay applicationsOfEmptyDay
    categoriesOfEmptyDay timelineOfEmptyDay emptyDay reflection level.

(** Documents *)
Definition depthBoundaryDoc : string :=
  join ["## Timing Tracking"; "foo"; "## Other"; "bar"].

Definition notesDoc : string :=
  join ["## Timing Tracking"; "old statistics"; "### Reflection"; "";
        "  my notes "; "continued"; ""; "## Other"; "text"].

Definition blankReflectionDoc : string :=
  join ["## Timing Tracking"; "### Reflection"; "   "; ""; "## Other"].

Definition tasksDoc : string := join ["## Tasks"; "- a"; "- b"].



(** Raw payloads *)
Definition rawEntry (start finish : string) (dur : value) (app : string) : value :=
  VObj [("startTime", VStr start); ("endTime", VStr finish);
        ("duration", dur); ("application", VStr app)].

Definition rawDay (items : list value) : value :=
  VObj [("date", VStr "2025-06-18"); ("entries", VArr items)].

(** Three entries, the second with the duration "abc". *)
Definition badDurationEntries : list value :=
  [rawEntry "10:00:00" "10:10:00" (VNum (inject_Z 600)) "Mail";
   rawEntry "09:30:00" "09:45:00" (VStr "abc") "Safari";
   rawEntry "9:00:00" "9:30:00" (VNum (inject_Z 1800)) "Xcode"].

Definition entryOf (start finish : string) (dur : Z) (app : string) : TimeEntry :=
  {| startTime := start; endTime := finish; duration := dur; application := app;
     category := None; title := None; productivity := None |}.


(** A host for the examples: texts convert to themselves, and the date of
    the sample payloads is a valid one. *)
Definition sampleToText (v : value) : string :=
  match v with VStr s => s | _ => "" end.

Definition sampleDateIsValid (v : value) : bool :=
  match v with VStr s => String.eqb s "2025-06-18" | _ => false end.

End Examples.

(** ** Numbers as text *)

Module Numbers.

(** [String(n)] for an integer [n] (below 10^21, from where the host
    switches to the exponent notation); [NaN] is [None]. *)
Fixpoint digitsOf (fuel : nat) (n : N) (acc : string) : string :=
  match fuel with
  | 0 => acc
  | S fuel' =>
      let acc' := String (ascii_of_N (48 + n mod 10)) acc in
      if (n / 10 =? 0)%N then acc' else digitsOf fuel' (n / 10) acc'
  end.

Definition decimalN (n : N) : string := digitsOf (S (N.size_nat n)) n "".

Definition decimal (z : Z) : string :=
  match z with
  | Zneg p => "-" +:+ decimalN (Npos p)
  | _ => decimalN (Z.to_N z)
  end.

Definition numberToText (n : option Z) : string :=
  match n with
  | Some z => decimal z
  | None => "NaN"
  end.

End Numbers.

(** ** DataTransformer, the methods used by the views and the renderers *)

Module DataTransformerViews.
Import Text Js Numbers DataTransformer.
#[local] Open Scope Z_scope.

Inductive TimeFormat := H12 | H24.

(** For a whole number of seconds. *)
Definition formatDuration (seconds : Z) : string :=
  if seconds <? 60 then decimal seconds +:+ "s"
  else
    let minutes := seconds / 60 in
    if minutes <? 60 then decimal minutes +:+ "m"
    else
      let hours := minutes / 60 in
      let remainingMinutes := minutes mod 60 in
      if remainingMinutes =? 0 then decimal hours +:+ "h"
      else decimal hours +:+ "h " +:+ decimal remainingMinutes +:+ "m".

(** The second piece of the text is [undefined] when there is no colon;
    comparisons with [NaN] are false. *)
Definition formatTime (timeString : string) (format : TimeFormat) : string :=
  match format with
  | H24 => timeString
  | H12 =>
      let parts := splitOn ":" timeString in
      let minutes :=
        match parts with
        | _ :: m :: _ => m
        | _ => "undefined"
        end in
      let hour24 := parseInt (hd "" parts) in
      let hour12 :=
        match hour24 with
        | Some h => if h =? 0 then Some 12 else if h >? 12 then Some (h - 12) else Some h
        | None => None
        end in
      let ampm :=
        match hour24 with
        | Some h => if h <? 12 then "AM" else "PM"
        | None => "PM"
        end in
      numberToText hour12 +:+ ":" +:+ minutes +:+ " " +:+ ampm
  end.

(** One step of the loops of [getMostUsedApplication] and
    [getMostProductiveHour]: a strictly greater time takes over. *)
Definition pickMax {K} (best entry : K * Z) : K * Z :=
  if snd best <? snd entry then entry else best.

Section Order.

(** The order in which the host iterates over the entries of a map (the
    order of insertion). *)
Variable applicationOrder : gmap string Z -> list (string * Z).
Variable hourOrder : gmap (option Z) Z -> list (option Z * Z).

Definition getMostUsedApplication (summary : TimeSummary) : option (string * Z) :=
  if (size (byApplication summary) =? 0)%nat then None
  else Some (fold_left pickMax (applicationOrder (byApplication summary)) ("", 0)).

Definition getMostProductiveHour (summary : TimeSummary) : option (option Z * Z) :=
  if (size (byHour summary) =? 0)%nat then None
  else Some (fold_left pickMax (hourOrder (byHour summary)) (Some 0, 0)).

End Order.

Definition filterEntriesByMinimumDuration (es : list TimeEntry) (minimumSeconds : Z)
  : list TimeEntry :=
  List.filter (fun entry => minimumSeconds <=? duration entry) es.





Definition createEmptyDailyData (date : value) : DailyTimeData :=
  {| date := date; entries := []; summary := emptySummary |}.

End DataTransformerViews.

(** ** DailyNoteManager (daily-note-manager.ts) *)

Module DailyNoteManager.
Import Text Numbers DataTransformer TimingSectionManager.

(** [s.substring(a, b)] for [a <= b] *)
Definition substring (a b : nat) (s : string) : string :=
  substringTo (b - a) (substringFrom a s).

(** [s.lastIndexOf(c)], [None] for -1 *)
Fixpoint lastIndexOf (c : ascii) (s : string) : option nat :=
  match s with
  | EmptyString => None
  | String x s' =>
      match lastIndexOf c s' with
      | Some i => Some (S i)
      | None => if Ascii.eqb x c then Some 0 else None
      end
  end.

(** [s.replace(/pat/g, rep)] for a literal, non-empty [pat] and a
    replacement without [$]: the occurrences are taken from the left and do
    not overlap; [skip] counts the characters of a match still to pass. *)
Fixpoint replaceFrom (pat rep : string) (skip : nat) (s : string) : string :=
  match s with
  | EmptyString => ""
  | String c s' =>
      match skip with
      | S k => replaceFrom pat rep k s'
      | 0 =>
          if String.prefix pat s
          then rep +:+ replaceFrom pat rep (String.length pat - 1) s'
          else String c (replaceFrom pat rep 0 s')
      end
  end.

Definition replaceAll (pat rep s : string) : string := replaceFrom pat rep 0 s.

(** [s.replace(/\/$/, '')] *)
Fixpoint stripTrailingSlash (s : string) : string :=
  match s with
  | EmptyString => ""
  | String c s' =>
      match s' with
      | EmptyString => if Ascii.eqb c "/" then "" else s
      | _ => String c (stripTrailingSlash s')
      end
  end.

Definition getDirectoryPath (filePath : string) : string :=
  match lastIndexOf "/" filePath with
  | Some lastSlash => substring 0 lastSlash filePath
  | None => ""
  end.

(** A file of the vault, as far as the search reads it. *)
Record TFile := { path : string; basename : string }.

(** [ensureDirectoryExists] on the set of the paths that the vault holds:
    [getAbstractFileByPath] finds the paths of the set, [createFolder] adds
    one. *)
Definition createMissing (state : string * gset string) (part : string)
  : string * gset string :=
  let currentPath :=
    if String.eqb (fst state) "" then part else fst state +:+ "/" +:+ part in
  (currentPath,
   if decide (currentPath ∈ snd state) then snd state
   else {[currentPath]} ∪ snd state).

Definition ensureDirectoryExists (vault : gset string) (dirPath : string) : gset string :=
  if String.eqb dirPath "" then vault
  else if decide (dirPath ∈ vault) then vault
  else
    let pathParts :=
      List.filter (fun part => negb (String.length part =? 0)) (splitOn "/" dirPath) in
    snd (fold_left createMissing pathParts ("", vault)).

Section Host.

(** The dates of the host: the three getters of the local calendar date,
    the time value, and the constructor from year, month index and day. *)
Variable Date : Type.
Variable getFullYear : Date -> Z.
Variable getMonth : Date -> Z.
Variable getDate : Date -> Z.
Variable getTime : Date -> Z.
Variable newDate : Z -> Z -> Z -> Date.

Record DateFormat := {
  pattern : list atom;
  formatString : string;
  parser : string -> option Date;
  formatter : Date -> string
}.

Definition yearText (date : Date) : string := decimal (getFullYear date).
Definition monthText (date : Date) : string := padStart2 (decimal (getMonth date + 1)).
Definition dayText (date : Date) : string := padStart2 (decimal (getDate date)).

(** [new Date(parseInt(year), parseInt(month) - 1, parseInt(day))] for the
    three groups of a match. *)
Definition dateOfGroups (year month day : string) : option Date :=
  y ← parseInt year;
  m ← parseInt month;
  d ← parseInt day;
  Some (newDate y (m - 1) d).

(** The patterns of the parsers are those of the formats without the
    anchor at the end. *)
Definition ymd (sep : string) : list atom :=
  digits 4 4 :: lit sep ++ digits 2 2 :: lit sep ++ [digits 2 2].

Definition dmy (sep : string) : list atom :=
  digits 2 2 :: lit sep ++ digits 2 2 :: lit sep ++ [digits 4 4].

Definition supportedFormats : list DateFormat :=
  [ {| pattern := ymd "-";
       formatString := "YYYY-MM-DD";
       parser := fun filename =>
         if testPrefix (ymd "-") filename
         then dateOfGroups (substring 0 4 filename) (substring 5 7 filename)
                (substring 8 10 filename)
         else None;
       formatter := fun date =>
         yearText date +:+ "-" +:+ monthText date +:+ "-" +:+ dayText date |};
    {| pattern := ymd "/";
       formatString := "YYYY/MM/DD";
       parser := fun filename =>
         if testPrefix (ymd "/") filename
         then dateOfGroups (substring 0 4 filename) (substring 5 7 filename)
                (substring 8 10 filename)
         else None;
       formatter := fun date =>
         yearText date +:+ "/" +:+ monthText date +:+ "/" +:+ dayText date |};
    {| pattern := dmy "-";
       formatString := "DD-MM-YYYY";
       parser := fun filename =>
         if testPrefix (dmy "-") filename
         then dateOfGroups (substring 6 10 filename) (substring 3 5 filename)
                (substring 0 2 filename)
         else None;
       formatter := fun date =>
         dayText date +:+ "-" +:+ monthText date +:+ "-" +:+ yearText date |} ].

Definition normalizeDate (date : Date) : Date :=
  newDate (getFullYear date) (getMonth date) (getDate date).

Definition formatDate (date : Date) (format : string) : string :=
  if String.eqb format "YYYY/MM/DD"
  then yearText date +:+ "/" +:+ monthText date +:+ "/" +:+ dayText date
  else if String.eqb format "DD-MM-YYYY"
  then dayText date +:+ "-" +:+ monthText date +:+ "-" +:+ yearText date
  else yearText date +:+ "-" +:+ monthText date +:+ "-" +:+ dayText date.

Definition buildNestedPath (folderTemplate : string) (date : Date) (dateStr : string)
  : string :=
  let year := yearText date in
  let month := monthText date in
  let day := dayText date in
  let processedFolder :=
    replaceAll "{DD-MM-YYYY}" (day +:+ "-" +:+ month +:+ "-" +:+ year)
      (replaceAll "{YYYY/MM/DD}" (year +:+ "/" +:+ month +:+ "/" +:+ day)
         (replaceAll "{YYYY-MM-DD}" (year +:+ "-" +:+ month +:+ "-" +:+ day)
            (replaceAll "{DD}" day
               (replaceAll "{MM}" month
                  (replaceAll "{YYYY}" year folderTemplate))))) in
  stripTrailingSlash processedFolder +:+ "/" +:+ dateStr +:+ ".md".

Definition generateSearchPaths (date : Date) : list string :=
  let commonFolders := [""; "Daily"; "Notes"; "Journal"; "daily"; "notes"] in
  flat_map (fun format =>
    let dateStr := formatter format date in
    map (fun folder =>
           if String.eqb folder "" then dateStr +:+ ".md"
           else buildNestedPath folder date dateStr)
        commonFolders)
    supportedFormats.

(** The first file, in the order of [getMarkdownFiles], whose name one of
    the formats reads as the target date. *)
Definition matchesDate (targetDate : Date) (file : TFile) : bool :=
  existsb (fun format =>
             match parser format (basename file) with
             | Some parsedDate =>
                 (getTime (normalizeDate parsedDate) =? getTime targetDate)%Z
             | None => false
             end)
          supportedFormats.

Definition fuzzySearchDailyNote (allFiles : list TFile) (date : Date) : option TFile :=
  List.find (matchesDate (normalizeDate date)) allFiles.

Section Settings.
Variable settings : TimingPluginSettings.
Variable dateFormat : string.
Variable folder : string.

Definition getFormatForSettings : option DateFormat :=
  match List.find (fun f => String.eqb (formatString f) dateFormat) supportedFormats with
  | Some f => Some f
  | None => hd_error supportedFormats
  end.

Definition timingComment : string :=
  "## Timing Tracking" +:+ NL
  +:+ "<!-- Timing data will be automatically updated here -->" +:+ NL +:+ NL.

Definition generateDefaultTemplate (dateStr : string) : string :=
  let timingSection :=
    match timingSectionLocation settings with Top => timingComment | _ => "" end in
  let mainContent :=
    "# " +:+ dateStr +:+ NL +:+ NL +:+ timingSection
    +:+ "## Daily Overview" +:+ NL +:+ NL +:+ "## Tasks" +:+ NL +:+ NL in
  let bottomTimingSection :=
    match timingSectionLocation settings with Bottom => timingComment | _ => "" end in
  let reflection :=
    if includeReflection settings then "## Reflection" +:+ NL +:+ NL else "" in
  mainContent +:+ bottomTimingSection +:+ reflection.

End Settings.

End Host.

End DailyNoteManager.

(** ** The renderers of the summary and of the timeline
    (daily-note-manager.ts) *)

Module Renderers.
Import Text Js Numbers DataTransformer DataTransformerViews TimingSectionManager.
#[local] Open Scope Z_scope.

Section Render.

(** The two settings that the renderers read, and the order in which the
    host iterates over the entries of a map. *)
Variable timeFormat : TimeFormat.
Variable minimumDuration : Z.
Variable applicationOrder : gmap string Z -> list (string * Z).
Variable hourOrder : gmap (option Z) Z -> list (option Z * Z).

Definition generateSummarySection (timingData : DailyTimeData) (h2 : string) : string :=
  let totalTime := formatDuration (totalTime (summary timingData)) in
  let mostUsedApp := getMostUsedApplication applicationOrder (summary timingData) in
  let mostProductiveHour := getMostProductiveHour hourOrder (summary timingData) in
  let content := h2 +:+ " Summary" +:+ NL +:+ NL in
  let content := content +:+ "- **Total tracked time**: " +:+ totalTime +:+ NL in
  let content :=
    match mostUsedApp with
    | Some (name, time) =>
        let appTime := formatDuration time in
        content +:+ "- **Most used app**: " +:+ name +:+ " (" +:+ appTime +:+ ")" +:+ NL
    | None => content
    end in
  let content :=
    match mostProductiveHour with
    | Some (hour, time) =>
        let hourTime := formatDuration time in
        let hourStr :=
          formatTime (padStart2 (numberToText hour) +:+ ":00:00") timeFormat in
        content +:+ "- **Most productive hour**: " +:+ hourStr
        +:+ " (" +:+ hourTime +:+ ")" +:+ NL
    | None => content
    end in
  content +:+ NL.

(** The line of one entry of the timeline. *)
Definition timelineEntry (entry : TimeEntry) : string :=
  let startTime := formatTime (startTime entry) timeFormat in
  let endTime := formatTime (endTime entry) timeFormat in
  let duration := formatDuration (duration entry) in
  let timelineEntry :=
    "- **" +:+ startTime +:+ " - " +:+ endTime +:+ "** (" +:+ duration +:+ "): "
    +:+ application entry in
  let timelineEntry :=
    match category entry with
    | Some c => if String.eqb c "" then timelineEntry
                else timelineEntry +:+ " (" +:+ c +:+ ")"
    | None => timelineEntry
    end in
  match title entry with
  | Some t => if String.eqb t "" then timelineEntry else timelineEntry +:+ " - " +:+ t
  | None => timelineEntry
  end.

Definition generateTimelineSection (timingData : DailyTimeData) (h2 : string) : string :=
  let content := h2 +:+ " Timeline" +:+ NL +:+ NL in
  if (length (entries timingData) =? 0)%nat
  then content +:+ "*No timeline data available*" +:+ NL +:+ NL
  else
    let filteredEntries :=
      filterEntriesByMinimumDuration (entries timingData) minimumDuration in
    if (length filteredEntries =? 0)%nat
    then content +:+ "*No activities meet the minimum duration threshold*" +:+ NL +:+ NL
    else
      fold_left (fun content entry => content +:+ timelineEntry entry +:+ NL)
                filteredEntries content
      +:+ NL.

End Render.

End Renderers.

(** ** Shapes of texts and sums over maps *)

Module Shapes.
Import Text Numbers DataTransformer DataTransformerViews TimingSectionManager Renderers.

Definition allDigits (s : string) : bool := forallb isDigit (chars s).

(** The text [h:m:s]. *)
Definition clockText (h m s : string) : string :=
  h +:+ ":" +:+ m +:+ ":" +:+ s.

(** A text without [sep]. *)
Definition without (sep : ascii) (s : string) : bool :=
  forallb (fun c => negb (Ascii.eqb c sep)) (chars s).

(** The only white space of a text is the plain space, and no two spaces
    are adjacent. *)
Fixpoint singleSpaced (s : string) : bool :=
  match s with
  | EmptyString => true
  | String c s' =>
      (negb (isSpace c) || Ascii.eqb c " ")
      && match s' with
         | String d _ => negb (isSpace c && isSpace d)
         | EmptyString => true
         end
      && singleSpaced s'
  end.

(** A text that does not start with white space. *)
Definition startsPlain (s : string) : bool :=
  match s with
  | String c _ => negb (isSpace c)
  | EmptyString => true
  end.

(** [ls.join(sep)] *)
Fixpoint joinWith (sep : ascii) (ls : list string) : string :=
  match ls with
  | [] => ""
  | [l] => l
  | l :: rest => l +:+ String sep (joinWith sep rest)
  end.

(** [t] is the text of [n] in exactly four, or two, decimal digits, and
    [parseInt] reads [n] from it. *)
Definition reads (t : string) (n : Z) : bool :=
  match parseInt t with
  | Some v => (v =? n)%Z
  | None => false
  end.

Definition fourDigits (t : string) (n : Z) : bool :=
  match t with
  | String a (String b (String c (String d EmptyString))) =>
      isDigit a && isDigit b && isDigit c && isDigit d && reads t n
  | _ => false
  end.

Definition twoDigits (t : string) (n : Z) : bool :=
  match t with
  | String a (String b EmptyString) => isDigit a && isDigit b && reads t n
  | _ => false
  end.

(** The path of a folder [part] in the folder [current], the vault itself
    when [current] is empty, and the path of a chain of folders. *)
Definition extendPath (current part : string) : string :=
  if String.eqb current "" then part else current +:+ "/" +:+ part.

Definition pathOf (parts : list string) : string := fold_left extendPath parts "".

(** The pieces of a path that are not empty. *)
Definition folders (dirPath : string) : list string :=
  List.filter (fun part => negb (String.length part =? 0)) (splitOn "/" dirPath).

(** The lines of the default template: the title, the stub of the Timing
    section where the settings place it, the two fixed headers, and the
    Reflection header when the settings include it. *)
Definition sectionStub : list string :=
  ["## Timing Tracking"; "<!-- Timing data will be automatically updated here -->"; ""].

Definition templateHead (dateStr : string) : list string := ["# " +:+ dateStr; ""].

Definition templateBody : list string := ["## Daily Overview"; ""; "## Tasks"; ""].

Definition templateEnd (settings : TimingPluginSettings) : list string :=
  if includeReflection settings then ["## Reflection"; ""; ""] else [""].

Definition templateLines (settings : TimingPluginSettings) (dateStr : string)
  : list string :=
  templateHead dateStr
  ++ match timingSectionLocation settings with Top => sectionStub | _ => [] end
  ++ templateBody
  ++ match timingSectionLocation settings with Bottom => sectionStub | _ => [] end
  ++ templateEnd settings.

(** An entry whose texts have no line feed. *)
Definition plainEntry (e : TimeEntry) : bool :=
  without LF (startTime e) && without LF (endTime e) && without LF (application e)
  && from_option (without LF) true (category e)
  && from_option (without LF) true (title e).

(** The lines of the timeline and of the summary between the sub-header and
    the end of the sub-section. *)
Definition timelineLines (timeFormat : TimeFormat) (minimumDuration : Z)
           (timingData : DailyTimeData) : list string :=
  match entries timingData with
  | [] => ["*No timeline data available*"]
  | _ =>
      match filterEntriesByMinimumDuration (entries timingData) minimumDuration with
      | [] => ["*No activities meet the minimum duration threshold*"]
      | filtered => map (timelineEntry timeFormat) filtered
      end
  end.

Definition summaryLines (timeFormat : TimeFormat)
           (applicationOrder : gmap string Z -> list (string * Z))
           (hourOrder : gmap (option Z) Z -> list (option Z * Z))
           (timingData : DailyTimeData) : list string :=
  ["- **Total tracked time**: " +:+ formatDuration (totalTime (summary timingData))]
  ++ match getMostUsedApplication applicationOrder (summary timingData) with
     | Some (name, time) =>
         ["- **Most used app**: " +:+ name +:+ " (" +:+ formatDuration time +:+ ")"]
     | None => []
     end
  ++ match getMostProductiveHour hourOrder (summary timingData) with
     | Some (hour, time) =>
         ["- **Most productive hour**: "
          +:+ formatTime (padStart2 (numberToText hour) +:+ ":00:00") timeFormat
          +:+ " (" +:+ formatDuration time +:+ ")"]
     | None => []
     end.

(** The integers from [lo], [len] of them. *)
Definition zrange (lo len : Z) : list Z :=
  map (fun i => (lo + Z.of_nat i)%Z) (seq 0 (Z.to_nat len)).




End Shapes.

(** ** Further sample values *)

Module Samples.
Import Text Js DataTransformer TimingSectionManager Examples.

Definition titledDoc : string := join ["intro"; "# 2025-06-18"; "first"; "second"].

Definition titleOnlyDoc : string := join ["intro"; "# 2025-06-18"].

(** A raw entry with a productivity beyond the scale. *)
Definition ratedEntry : value :=
  VObj [("startTime", VStr "9:00:00"); ("endTime", VStr "9:30:00");
        ("duration", VNum (inject_Z 1800)); ("application", VStr "Xcode");
        ("productivity", VNum (inject_Z 7))].

(** A day with three entries. *)
Definition sampleEntries : list TimeEntry :=
  [ {| startTime := "00:10:00"; endTime := "01:15:00"; duration := 3900;
       application := "Safari"; category := Some ""; title := None;
       productivity := None |};
    {| startTime := "09:00:00"; endTime := "09:30:00"; duration := 1800;
       application := "Xcode"; category := Some "Dev"; title := Some "main.swift";
       productivity := Some 4%Z |};
    {| startTime := "13:05:00"; endTime := "13:06:00"; duration := 59;
       application := "Mail"; category := None; title := Some "";
       productivity := None |} ].

Definition sampleData : DailyTimeData :=
  {| date := VStr "2025-06-18"; entries := sampleEntries;
     summary := calculateSummary sampleEntries |}.

(** A host for dates: a date is its year, month index and day, and its
    time value orders the dates. *)
Definition SampleDate : Type := Z * Z * Z.
Definition sampleYear (d : SampleDate) : Z := fst (fst d).
Definition sampleMonth (d : SampleDate) : Z := snd (fst d).
Definition sampleDay (d : SampleDate) : Z := snd d.
Definition sampleTime (d : SampleDate) : Z :=
  (sampleYear d * 10000 + sampleMonth d * 100 + sampleDay d)%Z.
Definition sampleNewDate (y m d : Z) : SampleDate := (y, m, d).

Definition sampleFormats : list (DailyNoteManager.DateFormat SampleDate) :=
  DailyNoteManager.supportedFormats SampleDate sampleYear sampleMonth sampleDay
    sampleNewDate.

Definition noFormat : DailyNoteManager.DateFormat SampleDate :=
  DailyNoteManager.Build_DateFormat SampleDate [] "" (fun _ => None) (fun _ => "").

Definition ymdFormat : DailyNoteManager.DateFormat SampleDate := nth 0 sampleFormats noFormat.
Definition dmyFormat : DailyNoteManager.DateFormat SampleDate := nth 2 sampleFormats noFormat.

(** The 18th of June 2025. *)
Definition sampleDay18 : SampleDate := (2025, 5, 18)%Z.

Definition sampleFiles : list DailyNoteManager.TFile :=
  [ DailyNoteManager.Build_TFile "notes/ideas.md" "ideas";
    DailyNoteManager.Build_TFile "Journal/18-06-2025.md" "18-06-2025";
    DailyNoteManager.Build_TFile "2025-06-18.md" "2025-06-18" ].

End Samples.
(* ===================================================================== *)
(** * Part II: properties                                                 *)
(* ===================================================================== *)

(** ** Facts about texts and lines *)

Module TextFacts.
Import Text Spec.
#[local] Arguments String.append : simpl nomatch.

Lemma append_nil_r (s : string) : s +:+ "" = s.
Proof. induction s as [|c s IH]; simpl; [reflexivity | now rewrite IH]. Qed.

Lemma append_assoc (a b c : string) : (a +:+ b) +:+ c = a +:+ (b +:+ c).
Proof. induction a as [|x a IH]; simpl; [reflexivity | now rewrite IH]. Qed.

Lemma length_append (a b : string) :
  String.length (a +:+ b) = String.length a + String.length b.
Proof. induction a as [|x a IH]; simpl; [reflexivity | now rewrite IH]. Qed.

Lemma substringTo_append (a b : string) : substringTo (String.length a) (a +:+ b) = a.
Proof.
  induction a as [|x a IH]; simpl.
  - now destruct b.
  - now rewrite IH.
Qed.

Lemma substringFrom_append (a b : string) : substringFrom (String.length a) (a +:+ b) = b.
Proof.
  induction a as [|x a IH]; simpl.
  - now destruct b.
  - exact IH.
Qed.

Lemma substringTo_all (n : nat) (s : string) : String.length s <= n -> substringTo n s = s.
Proof.
  revert n; induction s as [|c s IH]; intros [|n] H; simpl in *; try reflexivity; try lia.
  rewrite IH; [reflexivity | lia].
Qed.

Lemma substringFrom_all (n : nat) (s : string) : String.length s <= n -> substringFrom n s = "".
Proof.
  revert n; induction s as [|c s IH]; intros [|n] H; simpl in *; try reflexivity; try lia.
  apply IH; lia.
Qed.


(** *** [endsWith] and [startsWith] *)

Lemma endsWith_append (p a : string) : endsWith p (a +:+ p) = true.
Proof.
  induction a as [|x a IH]; cbn [endsWith String.append].
  - destruct p; cbn [endsWith]; now rewrite String.eqb_refl.
  - rewrite IH. apply orb_true_r.
Qed.

Lemma endsWith_inv (p s : string) : endsWith p s = true -> exists a, s = a +:+ p.
Proof.
  induction s as [|c s IH]; cbn [endsWith]; intros H.
  - rewrite orb_false_r in H. apply String.eqb_eq in H. exists "". now subst.
  - apply orb_true_iff in H as [H|H].
    + apply String.eqb_eq in H. exists "". now subst.
    + destruct (IH H) as [a ->]. now exists (String c a).
Qed.



(** *** [split] and [join] *)

Lemma noLF_nil : noLF "".
Proof. intros [|x a] b; discriminate. Qed.

Lemma noLF_cons (c : ascii) (s : string) : c <> LF -> noLF s -> noLF (String c s).
Proof.
  intros Hc Hs [|x a] b; simpl; intros E; injection E as E1 E2.
  - congruence.
  - eapply Hs; eauto.
Qed.

Lemma noLF_cons_inv (c : ascii) (s : string) : noLF (String c s) -> c <> LF /\ noLF s.
Proof.
  intros H; split.
  - intros ->. now apply (H "" s).
  - intros a b ->. now apply (H (String c a) b).
Qed.

Lemma split_cons (s : string) : exists l ls, split s = l :: ls.
Proof.
  unfold split. induction s as [|c s (l & ls & IH)]; simpl; [eauto|].
  destruct (Ascii.eqb c LF); [eauto|]. rewrite IH; simpl; eauto.
Qed.

Lemma split_not_nil (s : string) : split s <> [].
Proof. destruct (split_cons s) as (l & ls & ->); discriminate. Qed.

Lemma split_length_pos (s : string) : 0 < length (split s).
Proof. destruct (split_cons s) as (l & ls & ->); simpl; lia. Qed.

Lemma split_String (c : ascii) (s : string) :
  split (String c s) = if Ascii.eqb c LF then "" :: split s else consHead c (split s).
Proof. reflexivity. Qed.

Lemma split_noLF (s : string) : Forall noLF (split s).
Proof.
  induction s as [|c s IH]; [repeat constructor; apply noLF_nil|].
  rewrite split_String. destruct (Ascii.eqb_spec c LF) as [->|Hc].
  - constructor; [apply noLF_nil | exact IH].
  - destruct (split_cons s) as (l & ls & E). rewrite E in *; simpl.
    inversion IH; subst. constructor; [now apply noLF_cons | assumption].
Qed.

Lemma join_cons (l : string) (ls : list string) :
  ls <> [] -> join (l :: ls) = l +:+ String LF (join ls).
Proof. destruct ls; [congruence | reflexivity]. Qed.

Lemma join_split (s : string) : join (split s) = s.
Proof.
  induction s as [|c s IH]; [reflexivity|].
  rewrite split_String. destruct (Ascii.eqb_spec c LF) as [->|Hc].
  - rewrite join_cons by apply split_not_nil. simpl. now rewrite IH.
  - destruct (split_cons s) as (l & ls & E). rewrite E in *; simpl.
    destruct ls; simpl in *; now rewrite IH.
Qed.

Lemma split_one (l : string) : noLF l -> split l = [l].
Proof.
  induction l as [|c l IH]; intros H; [reflexivity|].
  apply noLF_cons_inv in H as [Hc Hl]. rewrite split_String.
  destruct (Ascii.eqb_spec c LF); [contradiction|]. now rewrite IH.
Qed.

Lemma split_append_LF (a b : string) : split (a +:+ String LF b) = split a ++ split b.
Proof.
  induction a as [|c a IH]; simpl append.
  - rewrite split_String, Ascii.eqb_refl. reflexivity.
  - rewrite !split_String. destruct (Ascii.eqb c LF); [now rewrite IH|].
    rewrite IH. destruct (split_cons a) as (l & ls & ->). reflexivity.
Qed.

Lemma split_join (ls : list string) : ls <> [] -> Forall noLF ls -> split (join ls) = ls.
Proof.
  induction ls as [|l ls IH]; [congruence|]. intros _ H. inversion H; subst.
  destruct ls as [|l' ls].
  - now apply split_one.
  - rewrite join_cons by discriminate. rewrite split_append_LF.
    rewrite IH by (discriminate || assumption). now rewrite split_one.
Qed.

Lemma join_app (l1 l2 : list string) :
  l1 <> [] -> l2 <> [] -> join (l1 ++ l2) = join l1 +:+ String LF (join l2).
Proof.
  induction l1 as [|l l1 IH]; [congruence|]. intros _ H2.
  destruct l1 as [|l' l1].
  - simpl app. now rewrite join_cons.
  - change ((l :: l' :: l1) ++ l2) with (l :: (l' :: l1) ++ l2).
    rewrite join_cons by discriminate. rewrite IH by (discriminate || assumption).
    rewrite (join_cons l (l' :: l1)) by discriminate.
    rewrite append_assoc. reflexivity.
Qed.

(** The lines of a text that ends with a line feed. *)
Lemma split_ends_LF (a : string) : split (a +:+ String LF "") = split a ++ [""].
Proof. apply split_append_LF. Qed.

End TextFacts.

(** ** Facts about the scanning loops *)

Module ScanFacts.
Import Text.

Section FindFrom.
Context {A : Type} (p : A -> bool) (d : A).

Lemma findFrom_shift (l : list A) (i : nat) :
  findFrom p l i = (fun j => i + j) <$> findFrom p l 0.
Proof.
  revert i; induction l as [|x l IH]; intros i; simpl; [reflexivity|].
  destruct (p x); simpl; [f_equal; lia|].
  rewrite (IH (S i)), (IH 1). destruct (findFrom p l 0); simpl; [f_equal; lia | reflexivity].
Qed.

Lemma findFrom_Some (l : list A) (i j : nat) :
  findFrom p l i = Some j ->
  exists k, j = i + k /\ k < length l /\ p (nth k l d) = true
            /\ forall m, m < k -> p (nth m l d) = false.
Proof.
  revert i; induction l as [|x l IH]; intros i; simpl; [discriminate|].
  destruct (p x) eqn:Hx.
  - intros [= <-]. exists 0. repeat split; [lia | lia | exact Hx | intros; lia].
  - intros H. destruct (IH _ H) as (k & -> & Hk & Hp & Hm).
    exists (S k). repeat split; [lia | lia | exact Hp |].
    intros [|m] Hlt; [exact Hx | apply Hm; lia].
Qed.

Lemma findFrom_None (l : list A) (i : nat) :
  findFrom p l i = None <-> Forall (fun x => p x = false) l.
Proof.
  revert i; induction l as [|x l IH]; intros i; simpl.
  - split; [constructor | reflexivity].
  - destruct (p x) eqn:Hx.
    + split; [discriminate | intros H; inversion H; congruence].
    + rewrite IH. split; [now constructor | intros H; now inversion H].
Qed.

Lemma findFrom_app (l1 l2 : list A) (i : nat) :
  Forall (fun x => p x = false) l1 ->
  findFrom p (l1 ++ l2) i = findFrom p l2 (i + length l1).
Proof.
  revert i; induction l1 as [|x l1 IH]; intros i H; simpl.
  - f_equal; lia.
  - inversion H; subst. rewrite H2, IH by assumption. f_equal; lia.
Qed.

Lemma findFrom_hit (l1 l2 : list A) (x : A) (i : nat) :
  Forall (fun x => p x = false) l1 -> p x = true ->
  findFrom p (l1 ++ x :: l2) i = Some (i + length l1).
Proof. intros H Hx. rewrite findFrom_app by assumption. simpl. now rewrite Hx. Qed.

(** The elements before a hit, taken with [firstn], all miss. *)
Lemma findFrom_firstn_miss (l : list A) (j : nat) :
  findFrom p l 0 = Some j -> Forall (fun x => p x = false) (firstn j l).
Proof.
  intros H. destruct (findFrom_Some _ _ _ H) as (k & -> & Hk & _ & Hm). simpl.
  apply List.Forall_forall. intros x Hx. apply (In_nth _ _ d) in Hx as (m & Hlt & <-).
  rewrite length_firstn in Hlt. rewrite nth_firstn.
  destruct (Nat.ltb_spec m k); [apply Hm; lia | lia].
Qed.

End FindFrom.

End ScanFacts.

(** ** Facts about the header patterns *)

Module PatternFacts.
Import Text TimingSectionManager Spec.
#[local] Arguments String.append : simpl nomatch.

(** A pattern that starts with a run of [#] and continues with something
    that cannot start with [#] fixes the length of the leading run. *)
Lemma matchRep_hashes (k : string -> bool) (s : string) (lo hi : nat) :
  (forall r, k (String hash r) = false) ->
  matchRep isHash lo hi k s = true ->
  lo <= leadingHashes s <= hi.
Proof.
  intros Hk. revert lo hi; induction s as [|c s IH]; intros lo hi; cbn [matchRep leadingHashes].
  - destruct lo, hi; rewrite ?orb_false_r; try discriminate; lia.
  - intros H. apply orb_true_iff in H as [H|H].
    + destruct lo; [|discriminate]. destruct (isHash c) eqn:Hc; [|lia].
      unfold isHash in Hc. apply Ascii.eqb_eq in Hc. subst c. now rewrite Hk in H.
    + destruct hi as [|hi]; [discriminate|].
      apply andb_true_iff in H as [Hc H]. rewrite Hc.
      apply IH in H. lia.
Qed.

Lemma timingHeader_level (line : string) :
  testPrefix timingHeaderRegex line = true -> 1 <= leadingHashes line <= 6.
Proof.
  unfold testPrefix, timingHeaderRegex. cbn [matchSeq cls lo hi hashes].
  apply matchRep_hashes. intros r. reflexivity.
Qed.

Lemma reflectionHeader_level (line : string) :
  testPrefix reflectionRegex line = true -> 2 <= leadingHashes line <= 6.
Proof.
  unfold testPrefix, reflectionRegex. cbn [matchSeq cls lo hi hashes].
  apply matchRep_hashes. intros r. reflexivity.
Qed.

Lemma headerMatch_leading (line : string) (n : nat) :
  headerMatch line = Some n <-> leadingHashes line = n /\ 0 < n.
Proof.
  unfold headerMatch. destruct (leadingHashes line); split.
  - discriminate.
  - intros [<- H]; lia.
  - intros [= <-]; split; [reflexivity | lia].
  - intros [-> _]; reflexivity.
Qed.

Lemma levelOf_timingHeader (line : string) :
  testPrefix timingHeaderRegex line = true -> levelOf line = leadingHashes line.
Proof.
  intros H. apply timingHeader_level in H. unfold levelOf, headerMatch.
  destruct (leadingHashes line); [lia | reflexivity].
Qed.

Lemma levelOf_reflectionHeader (line : string) :
  testPrefix reflectionRegex line = true -> levelOf line = leadingHashes line.
Proof.
  intros H. apply reflectionHeader_level in H. unfold levelOf, headerMatch.
  destruct (leadingHashes line); [lia | reflexivity].
Qed.

Lemma timingHeaderLine_matches (level : nat) :
  1 <= level <= 6 ->
  testPrefix timingHeaderRegex (timingHeaderLine level) = true
  /\ leadingHashes (timingHeaderLine level) = level.
Proof.
  intros H.
  assert (level = 1 \/ level = 2 \/ level = 3 \/ level = 4 \/ level = 5 \/ level = 6)
    as [->|[->|[->|[->|[->| ->]]]]] by lia; split; vm_compute; reflexivity.
Qed.

Lemma leadingHashes_repeat (n : nat) (r : string) :
  (forall r', r <> String hash r') -> leadingHashes (repeat hash n +:+ r) = n.
Proof.
  intros Hr. induction n as [|n IH]; cbn [repeat String.append leadingHashes].
  - destruct r as [|c r]; [reflexivity|]. cbn [leadingHashes].
    destruct (isHash c) eqn:Hc; [|reflexivity].
    apply Ascii.eqb_eq in Hc. subst c. now destruct (Hr r).
  - unfold isHash at 1. rewrite Ascii.eqb_refl. now rewrite IH.
Qed.

Lemma empty_line_plain :
  testPrefix timingHeaderRegex "" = false
  /\ testPrefix reflectionRegex "" = false
  /\ forall level, closesSection level "" = false.
Proof. repeat split. Qed.

End PatternFacts.

(** ** The section locator *)

Module Locator.
Import Text TimingSectionManager Spec Examples TextFacts ScanFacts PatternFacts.

Lemma nth_skipn {A} (n k : nat) (l : list A) (d : A) :
  nth k (skipn n l) d = nth (n + k) l d.
Proof.
  revert l; induction n as [|n IH]; intros l; [reflexivity|].
  destruct l as [|x l]; [now destruct k | apply IH].
Qed.

Lemma closesSection_spec (level : nat) (line : string) :
  closesSection level line = true <-> 1 <= leadingHashes line <= level.
Proof.
  unfold closesSection, headerMatch.
  destruct (leadingHashes line) as [|n]; [split; [discriminate | lia]|].
  rewrite Nat.leb_le. lia.
Qed.

(** What the scan for the end of a section computes. *)
Lemma sectionEnd_spec (level start : nat) (lines : list string) :
  start < length lines ->
  let stop := sectionEnd level start lines in
  start < stop <= length lines
  /\ (forall j, start < j < stop -> closesSection level (nth j lines "") = false)
  /\ (stop < length lines -> closesSection level (nth stop lines "") = true).
Proof.
  intros Hs. unfold sectionEnd.
  destruct (findFrom _ _ _) as [j|] eqn:E; cbn zeta.
  - destruct (findFrom_Some _ "" _ _ _ E) as (k & -> & Hk & Hp & Hm).
    rewrite length_skipn in Hk. rewrite nth_skipn in Hp.
    repeat split; [lia | lia | | now intros _].
    intros j Hj. specialize (Hm (j - S start)). rewrite nth_skipn in Hm.
    replace (S start + (j - S start)) with j in Hm by lia. apply Hm; lia.
  - apply findFrom_None in E. repeat split; [lia | lia | | lia].
    intros j Hj. rewrite List.Forall_forall in E. apply E.
    replace j with (S start + (j - S start)) by lia. rewrite <- nth_skipn.
    apply nth_In. rewrite length_skipn. lia.
Qed.

Lemma findTimingSection_found (content : string) (start : nat) :
  findFrom (testPrefix timingHeaderRegex) (split content) 0 = Some start ->
  findTimingSection content =
  let lines := split content in
  let level := leadingHashes (nth start lines "") in
  let stop := sectionEnd level start lines in
  {| exists_ := true; startLine := Z.of_nat start; endLine := Z.of_nat stop;
     content := join (slice start stop lines); headerLevel := level |}.
Proof.
  intros E. unfold findTimingSection. rewrite E. cbn zeta.
  destruct (findFrom_Some _ "" _ _ _ E) as (k & -> & _ & Hp & _). simpl in *.
  now rewrite (levelOf_timingHeader _ Hp).
Qed.

Lemma findTimingSection_exists (content : string) :
  exists_ (findTimingSection content) = true ->
  exists start, findFrom (testPrefix timingHeaderRegex) (split content) 0 = Some start.
Proof.
  unfold findTimingSection. destruct (findFrom _ _ 0) as [s|]; [eauto | discriminate].
Qed.

Lemma findTimingSection_missing (content : string) :
  exists_ (findTimingSection content) = false <->
  Forall (fun l => testPrefix timingHeaderRegex l = false) (split content).
Proof.
  rewrite <- (findFrom_None _ _ 0). unfold findTimingSection.
  destruct (findFrom _ _ 0); simpl; split; congruence.
Qed.



End Locator.

(** ** The reflection sub-section *)

Module Reflection.
Import Text DataTransformer TimingSectionManager Spec TextFacts ScanFacts PatternFacts Locator.
#[local] Arguments String.append : simpl nomatch.

Lemma findFrom_first (p : string -> bool) (lines : list string) (i : nat) :
  firstLine p lines i <-> findFrom p lines 0 = Some i.
Proof.
  split.
  - intros (Hi & Hp & Hm). revert i Hi Hp Hm.
    induction lines as [|x l IH]; intros i Hi Hp Hm; simpl in Hi; [lia|].
    simpl. destruct i as [|i].
    + simpl in Hp. now rewrite Hp.
    + pose proof (Hm 0 ltac:(lia)) as H0. simpl in H0. rewrite H0, findFrom_shift.
      rewrite (IH i); [reflexivity | lia | exact Hp |].
      intros m Hlt. apply (Hm (S m)). lia.
  - intros H. destruct (findFrom_Some _ "" _ _ _ H) as (k & -> & Hk & Hp & Hm).
    now repeat split.
Qed.

Lemma sectionEnd_unique (level start stop : nat) (lines : list string) :
  start < length lines ->
  endsSectionAt level start stop lines -> sectionEnd level start lines = stop.
Proof.
  intros Hs (Hb & Hin & Hat).
  destruct (sectionEnd_spec level start lines Hs) as (Hb' & Hin' & Hat').
  set (e := sectionEnd level start lines) in *.
  destruct (Nat.lt_trichotomy e stop) as [Hlt|[Heq|Hgt]]; [|exact Heq|].
  - exfalso. apply (Hin e); [lia|]. apply closesSection_spec. apply Hat'. lia.
  - exfalso. assert (closesSection level (nth stop lines "") = true) as Hc
      by (apply closesSection_spec, Hat; lia).
    rewrite Hin' in Hc by lia. discriminate.
Qed.

Lemma sectionEnd_endsSectionAt (level start : nat) (lines : list string) :
  start < length lines ->
  endsSectionAt level start (sectionEnd level start lines) lines.
Proof.
  intros Hs. destruct (sectionEnd_spec level start lines Hs) as (Hb & Hin & Hat).
  split; [exact Hb|]. split.
  - intros j Hj Hc. apply closesSection_spec in Hc. rewrite Hin in Hc; [discriminate | exact Hj].
  - intros H. apply closesSection_spec. auto.
Qed.

Lemma extractReflectionContent_found (section : string) (i : nat) :
  findFrom (testPrefix reflectionRegex) (split section) 0 = Some i ->
  extractReflectionContent section =
  let lines := split section in
  let stop := sectionEnd (leadingHashes (nth i lines "")) i lines in
  let text := trim (join (slice (S i) stop lines)) in
  if String.eqb text "" then None else Some text.
Proof.
  intros E. unfold extractReflectionContent. rewrite E. cbn zeta.
  destruct (findFrom_Some _ "" _ _ _ E) as (k & -> & _ & Hp & _). simpl in *.
  now rewrite (levelOf_reflectionHeader _ Hp).
Qed.

(** *** Blank texts *)

Lemma isBlank_String (c : ascii) (s : string) :
  isBlank (String c s) = isSpace c && isBlank s.
Proof. reflexivity. Qed.

Lemma isBlank_append (a b : string) : isBlank (a +:+ b) = isBlank a && isBlank b.
Proof.
  induction a as [|c a IH]; [reflexivity|].
  simpl append. rewrite !isBlank_String, IH. apply andb_assoc.
Qed.

Lemma isBlank_join (ls : list string) :
  Forall (fun l => isBlank l = true) ls -> isBlank (join ls) = true.
Proof.
  induction ls as [|l ls IH]; intros H; [reflexivity|]. inversion H; subst.
  destruct ls as [|l' ls]; [assumption|].
  rewrite join_cons by discriminate. rewrite isBlank_append, isBlank_String.
  rewrite H2, IH by assumption. reflexivity.
Qed.

Lemma trimStart_blank (s : string) : isBlank s = true -> trimStart s = "".
Proof.
  induction s as [|c s IH]; [reflexivity|]. rewrite isBlank_String.
  intros H. apply andb_true_iff in H as [Hc Hs]. simpl. now rewrite Hc, IH.
Qed.

Lemma trim_blank (s : string) : isBlank s = true -> trim s = "".
Proof. intros H. unfold trim. now rewrite trimStart_blank. Qed.

Lemma Forall_slice {A} (P : A -> Prop) (d : A) (a b : nat) (l : list A) :
  b <= length l -> (forall j, a <= j < b -> P (nth j l d)) -> Forall P (slice a b l).
Proof.
  intros Hb H. apply List.Forall_forall. intros x Hx.
  apply (In_nth _ _ d) in Hx as (m & Hlt & <-). unfold slice in *.
  rewrite length_firstn, length_skipn in Hlt.
  rewrite nth_firstn. destruct (Nat.ltb_spec m (b - a)); [|lia].
  rewrite nth_skipn. apply H. lia.
Qed.


(** *** Containment *)

Lemma prefix_append (x b : string) : String.prefix x (x +:+ b) = true.
Proof.
  induction x as [|c x IH]; [now destruct b|].
  simpl append. cbn [String.prefix]. destruct (ascii_dec c c); [exact IH | congruence].
Qed.

Lemma prefix_append_r (x s b : string) :
  String.prefix x s = true -> String.prefix x (s +:+ b) = true.
Proof.
  revert s; induction x as [|c x IH]; intros s; [now destruct (s +:+ b)|].
  destruct s as [|c' s]; cbn [String.prefix]; [discriminate|].
  simpl append. cbn [String.prefix]. destruct (ascii_dec c c'); [apply IH | discriminate].
Qed.

Lemma includes_append_l (a s x : string) :
  includes x s = true -> includes x (a +:+ s) = true.
Proof.
  intros H. induction a as [|c a IH]; [exact H|].
  simpl append. cbn [includes]. rewrite IH. apply orb_true_r.
Qed.

Lemma includes_append_r (s b x : string) :
  includes x s = true -> includes x (s +:+ b) = true.
Proof.
  induction s as [|c s IH]; cbn [includes]; intros H.
  - rewrite orb_false_r in H. destruct x; [|discriminate].
    simpl append. destruct b; reflexivity.
  - apply orb_true_iff in H as [H|H].
    + assert (String.prefix x (String c s +:+ b) = true) as Hp by now apply prefix_append_r.
      simpl append in *. cbn [includes]. now rewrite Hp.
    + simpl append. cbn [includes]. rewrite IH by assumption. apply orb_true_r.
Qed.

Lemma includes_middle (a x b : string) : includes x (a +:+ x +:+ b) = true.
Proof.
  apply includes_append_l. destruct (x +:+ b) eqn:E; cbn [includes].
  - rewrite <- E. now rewrite prefix_append.
  - rewrite <- E. now rewrite prefix_append.
Qed.

Lemma includes_join_middle (x body : string) (l1 l3 : list string) :
  includes x body = true ->
  includes x (join (l1 ++ split body ++ l3)) = true.
Proof.
  intros H. pose proof (split_not_nil body) as Hne.
  assert (includes x (join (split body ++ l3)) = true) as H'.
  { destruct l3 as [|y l3].
    - now rewrite app_nil_r, join_split.
    - rewrite join_app by (assumption || discriminate).
      rewrite join_split. now apply includes_append_r. }
  destruct l1 as [|y l1]; [exact H'|].
  rewrite join_app; [| discriminate | now destruct (split body)].
  apply includes_append_l. cbn [includes]. rewrite H'. apply orb_true_r.
Qed.

(** *** The rendered section *)

Section Rendered.
Variable settings : TimingPluginSettings.
Variable generateSummarySection : DailyTimeData -> string -> string.
Variable generateApplicationSection : DailyTimeData -> string -> string.
Variable generateCategorySection : DailyTimeData -> string -> string.
Variable generateTimelineSection : DailyTimeData -> string -> string.

Abbreviation generate :=
  (generateTimingContent settings generateSummarySection generateApplicationSection
     generateCategorySection generateTimelineSection).
Abbreviation stats :=
  (statistics settings generateSummarySection generateApplicationSection
     generateCategorySection generateTimelineSection).
Abbreviation update :=
  (updateTimingSection settings generateSummarySection generateApplicationSection
     generateCategorySection generateTimelineSection).

Lemma generateReflectionSection_block (r : option string) (level : nat) :
  generateReflectionSection r (repeat hash (level + 1)) =
  reflectionBlock level
    match r with
    | Some text => if String.eqb text "" then placeholder else text
    | None => placeholder
    end.
Proof.
  unfold generateReflectionSection, reflectionBlock.
  destruct r as [text|]; [destruct (String.eqb text "")|]; now rewrite !append_assoc.
Qed.

Lemma generateTimingContent_shape (data : DailyTimeData) (r : option string) (level : nat) :
  generate data r level =
  timingHeaderLine level +:+ NL +:+ NL +:+ stats data level
  +:+ (if includeReflection settings
       then generateReflectionSection r (repeat hash (level + 1)) else "").
Proof.
  unfold generateTimingContent, statistics, timingHeaderLine.
  destruct (groupBy settings), (includeTimeline settings), (includeReflection settings);
    now rewrite ?append_assoc, ?append_nil_r.
Qed.

Lemma update_replace (doc : string) (data : DailyTimeData) :
  exists_ (findTimingSection doc) = true ->
  update doc data =
  let info := findTimingSection doc in
  join (firstn (Z.to_nat (startLine info)) (split doc)
        ++ split (generate data (extractReflectionContent (content info)) (headerLevel info))
        ++ skipn (Z.to_nat (endLine info)) (split doc)).
Proof.
  intros H. unfold updateTimingSection. rewrite H.
  unfold replaceExistingSection, slice. now rewrite skipn_O, Nat.sub_0_r.
Qed.

End Rendered.

End Reflection.

(** ** Preservation of the reflection *)

Module Preservation.
Import Text DataTransformer TimingSectionManager Spec Examples.
Import TextFacts ScanFacts PatternFacts Locator Reflection.

Section Preserved.
Variable settings : TimingPluginSettings.
Variable generateSummarySection : DailyTimeData -> string -> string.
Variable generateApplicationSection : DailyTimeData -> string -> string.
Variable generateCategorySection : DailyTimeData -> string -> string.
Variable generateTimelineSection : DailyTimeData -> string -> string.

Abbreviation generate :=
  (generateTimingContent settings generateSummarySection generateApplicationSection
     generateCategorySection generateTimelineSection).
Abbreviation stats :=
  (statistics settings generateSummarySection generateApplicationSection
     generateCategorySection generateTimelineSection).
Abbreviation update :=
  (updateTimingSection settings generateSummarySection generateApplicationSection
     generateCategorySection generateTimelineSection).

Lemma extractReflectionContent_at (section : string) (i stop : nat) :
  firstLine (testPrefix reflectionRegex) (split section) i ->
  endsSectionAt (leadingHashes (nth i (split section) "")) i stop (split section) ->
  extractReflectionContent section =
  let text := trim (join (slice (S i) stop (split section))) in
  if String.eqb text "" then None else Some text.
Proof.
  intros Hi Hstop. pose proof Hi as (Hlt & _ & _).
  apply findFrom_first in Hi. rewrite (extractReflectionContent_found _ _ Hi).
  cbn zeta. now rewrite (sectionEnd_unique _ _ _ _ Hlt Hstop).
Qed.

Lemma includes_reflectionBlock (level : nat) (text : string) :
  includes text (reflectionBlock level text) = true.
Proof.
  unfold reflectionBlock. do 4 apply includes_append_l.
  apply (includes_middle "").
Qed.

Lemma preserved_in_update (doc : string) (data : DailyTimeData) (i stop : nat) :
  includeReflection settings = true ->
  exists_ (findTimingSection doc) = true ->
  let info := findTimingSection doc in
  let lines := split (content info) in
  firstLine (testPrefix reflectionRegex) lines i ->
  endsSectionAt (leadingHashes (nth i lines "")) i stop lines ->
  let text := trim (join (slice (S i) stop lines)) in
  includes text (update doc data) = true
  /\ (text <> "" ->
      update doc data =
      join (firstn (Z.to_nat (startLine info)) (split doc)
            ++ split (timingHeaderLine (headerLevel info) +:+ NL +:+ NL
                      +:+ stats data (headerLevel info)
                      +:+ reflectionBlock (headerLevel info) text)
            ++ skipn (Z.to_nat (endLine info)) (split doc))).
Proof.
  intros Hrefl Hex info lines Hi Hstop text.
  destruct (String.eqb_spec text "") as [E|E].
  - split; [|congruence]. rewrite E. unfold includes. now destruct (update doc data).
  - assert (update doc data =
            join (firstn (Z.to_nat (startLine info)) (split doc)
                  ++ split (timingHeaderLine (headerLevel info) +:+ NL +:+ NL
                            +:+ stats data (headerLevel info)
                            +:+ reflectionBlock (headerLevel info) text)
                  ++ skipn (Z.to_nat (endLine info)) (split doc))) as Hu.
    { rewrite update_replace by assumption. cbn zeta. fold info.
      rewrite (extractReflectionContent_at _ _ _ Hi Hstop). cbn zeta.
      fold lines. fold text. destruct (String.eqb_spec text ""); [contradiction|].
      rewrite generateTimingContent_shape, Hrefl, generateReflectionSection_block.
      destruct (String.eqb_spec text ""); [contradiction | reflexivity]. }
    split; [|intros _; exact Hu]. rewrite Hu. apply includes_join_middle.
    do 4 apply includes_append_l. apply includes_reflectionBlock.
Qed.

End Preserved.

(** C2, amended. When the reflection section is part of the rendering
    ([includeReflection]), a document whose Timing section has a Reflection
    sub-header keeps the trimmed text between that sub-header and the end
    of the sub-section: the result contains it, and when it is not empty the
    section is replaced by the header, the statistics and a Reflection
    sub-section that holds this text. *)
Theorem reflection_preserved_when_included :
  forall (settings : TimingPluginSettings)
         (summary applications categories timeline : DailyTimeData -> string -> string)
         (doc : string) (data : DailyTimeData) (i stop : nat),
    includeReflection settings = true ->
    exists_ (findTimingSection doc) = true ->
    let info := findTimingSection doc in
    let lines := split (content info) in
    firstLine (testPrefix reflectionRegex) lines i ->
    endsSectionAt (leadingHashes (nth i lines "")) i stop lines ->
    let text := trim (join (slice (S i) stop lines)) in
    let result :=
      updateTimingSection settings summary applications categories timeline doc data in
    includes text result = true
    /\ (text <> "" ->
        result =
        join (firstn (Z.to_nat (startLine info)) (split doc)
              ++ split (timingHeaderLine (headerLevel info) +:+ NL +:+ NL
                        +:+ statistics settings summary applications categories
                              timeline data (headerLevel info)
                        +:+ reflectionBlock (headerLevel info) text)
              ++ skipn (Z.to_nat (endLine info)) (split doc))).
Proof.
  intros settings summary applications categories timeline doc data i stop
         Hrefl Hex info lines Hi Hstop text result.
  now apply preserved_in_update.
Qed.


(** The preservation theorem at [notesDoc], whose reflection spans lines 3 to
    6 of the section. *)
Lemma reflection_preserved_witness :
  includes (join ["my notes "; "continued"])
           (syncEmptyDay (settingsAt Bottom true) notesDoc) = true.
Proof.
  refine (proj1 (reflection_preserved_when_included (settingsAt Bottom true)
            summaryOfEmptyDay applicationsOfEmptyDay categoriesOfEmptyDay
            timelineOfEmptyDay notesDoc emptyDay 2 7 eq_refl eq_refl _ _)).
  - apply findFrom_first. reflexivity.
  - exact (sectionEnd_endsSectionAt 3 2
             (split (content (findTimingSection notesDoc))) ltac:(vm_compute; lia)).
Defined.

(** C2 as stated fails: with [includeReflection] switched off, the section
    of [notesDoc] is rewritten without its reflection. *)
Lemma reflection_lost_when_excluded :
  exists_ (findTimingSection notesDoc) = true
  /\ firstLine (testPrefix reflectionRegex)
       (split (content (findTimingSection notesDoc))) 2
  /\ endsSectionAt 3 2 7 (split (content (findTimingSection notesDoc)))
  /\ trim (join (slice 3 7 (split (content (findTimingSection notesDoc)))))
     = join ["my notes "; "continued"]
  /\ includes (join ["my notes "; "continued"])
       (syncEmptyDay (settingsAt Bottom false) notesDoc) = false.
Proof.
  split; [reflexivity|]. split; [apply findFrom_first; reflexivity|].
  split; [|split; reflexivity].
  exact (sectionEnd_endsSectionAt 3 2
           (split (content (findTimingSection notesDoc))) ltac:(vm_compute; lia)).
Qed.

(** C10, amended. A Reflection sub-section whose lines are all blank is not
    preserved: the extraction returns nothing, and the Reflection
    sub-section is then generated around the placeholder comment, which is
    what the whole section ends with when the reflection is part of the
    rendering ([includeReflection]). An extracted text is never empty: it is
    the trimmed text of the sub-section. *)
Theorem blank_reflection_gives_placeholder :
  (forall (section : string) (i stop : nat),
      let lines := split section in
      firstLine (testPrefix reflectionRegex) lines i ->
      endsSectionAt (leadingHashes (nth i lines "")) i stop lines ->
      (forall j, i < j < stop -> isBlank (nth j lines "") = true) ->
      extractReflectionContent section = None)
  /\ (forall level : nat,
        generateReflectionSection None (repeat hash (level + 1))
        = reflectionBlock level placeholder)
  /\ (forall (settings : TimingPluginSettings)
             (summary applications categories timeline : DailyTimeData -> string -> string)
             (data : DailyTimeData) (level : nat),
        includeReflection settings = true ->
        generateTimingContent settings summary applications categories timeline
          data None level
        = timingHeaderLine level +:+ NL +:+ NL
          +:+ statistics settings summary applications categories timeline data level
          +:+ reflectionBlock level placeholder)
  /\ (forall (section text : string),
        extractReflectionContent section = Some text ->
        text <> ""
        /\ exists i stop,
            firstLine (testPrefix reflectionRegex) (split section) i
            /\ endsSectionAt (leadingHashes (nth i (split section) "")) i stop
                 (split section)
            /\ text = trim (join (slice (S i) stop (split section)))).
Proof.
  split; [|split; [|split]].
  - intros section i stop lines Hi Hstop Hblank.
    rewrite (extractReflectionContent_at _ _ _ Hi Hstop). cbn zeta.
    rewrite trim_blank; [reflexivity|]. apply isBlank_join.
    destruct Hstop as (Hb & _). subst lines.
    apply (Forall_slice _ ""); [lia|].
    intros j Hj. apply Hblank. lia.
  - intros level. apply (generateReflectionSection_block None).
  - intros settings summary applications categories timeline data level H.
    rewrite generateTimingContent_shape, H.
    now rewrite (generateReflectionSection_block None).
  - intros section text H. unfold extractReflectionContent in H.
    destruct (findFrom _ _ 0) as [i|] eqn:E; [|discriminate]. cbn zeta in H.
    pose proof E as Hi. apply findFrom_first in Hi. pose proof Hi as (Hlt & Hp & _).
    rewrite (levelOf_reflectionHeader _ Hp) in H.
    destruct (String.eqb_spec (trim (join (slice (S i)
               (sectionEnd (leadingHashes (nth i (split section) "")) i (split section))
               (split section)))) "") as [E0|E0]; [discriminate|].
    injection H as <-. split; [exact E0|].
    eexists i, _. split; [exact Hi|]. split; [|reflexivity].
    now apply sectionEnd_endsSectionAt.
Qed.

(** The blank reflection of [blankReflectionDoc] is given up. *)
Lemma blank_reflection_witness :
  extractReflectionContent (content (findTimingSection blankReflectionDoc)) = None.
Proof.
  refine (proj1 blank_reflection_gives_placeholder
            (content (findTimingSection blankReflectionDoc)) 1 4 _ _ _).
  - apply findFrom_first. reflexivity.
  - exact (sectionEnd_endsSectionAt 3 1
             (split (content (findTimingSection blankReflectionDoc)))
             ltac:(vm_compute; lia)).
  - intros j Hj. assert (j = 2 \/ j = 3) as [-> | ->] by lia; reflexivity.
Defined.


(** C10 as stated fails: with [includeReflection] switched off the blank
    reflection of [blankReflectionDoc] is given up as well, but the section
    is rewritten without a Reflection sub-section, hence without the
    placeholder. *)
Lemma placeholder_absent_when_excluded :
  firstLine (testPrefix reflectionRegex)
    (split (content (findTimingSection blankReflectionDoc))) 1
  /\ extractReflectionContent (content (findTimingSection blankReflectionDoc)) = None
  /\ includes placeholder (syncEmptyDay (settingsAt Bottom false) blankReflectionDoc)
     = false
  /\ includes placeholder (syncEmptyDay (settingsAt Bottom true) blankReflectionDoc)
     = true.
Proof.
  split; [apply findFrom_first; reflexivity|]. repeat split.
Qed.

End Preservation.

(** ** Insertion of a new section *)

Module Insertion.
Import Text DataTransformer TimingSectionManager Spec Examples.
Import TextFacts ScanFacts PatternFacts Locator Reflection.
#[local] Arguments String.append : simpl nomatch.

(** *** Where the insertion points fall *)

Lemma firstn_skipn_nonempty {A} (n : nat) (l : list A) :
  1 <= n < length l -> firstn n l <> [] /\ skipn n l <> [].
Proof.
  intros H. split; intros E.
  - apply (f_equal (@length A)) in E. rewrite length_firstn in E. simpl in E. lia.
  - apply (f_equal (@length A)) in E. rewrite length_skipn in E. simpl in E. lia.
Qed.

Lemma offsetAfter_inside (doc : string) (n : nat) :
  1 <= n < length (split doc) ->
  let p := offsetAfter n (split doc) in
  substringTo p doc = join (firstn n (split doc)) +:+ NL
  /\ substringFrom p doc = join (skipn n (split doc)).
Proof.
  intros Hn p. destruct (firstn_skipn_nonempty n (split doc) Hn) as [H1 H2].
  assert (doc = (join (firstn n (split doc)) +:+ NL) +:+ join (skipn n (split doc))) as E.
  { rewrite <- (join_split doc) at 1. rewrite <- (firstn_skipn n (split doc)) at 1.
    rewrite join_app by assumption. unfold NL. now rewrite append_assoc. }
  assert (p = String.length (join (firstn n (split doc)) +:+ NL)) as ->.
  { unfold p, offsetAfter, slice. rewrite skipn_O, Nat.sub_0_r, length_append. reflexivity. }
  split; rewrite E at 2.
  - apply substringTo_append.
  - apply substringFrom_append.
Qed.

Lemma offsetAfter_beyond (doc : string) (n : nat) :
  length (split doc) <= n ->
  let p := offsetAfter n (split doc) in
  substringTo p doc = doc /\ substringFrom p doc = "".
Proof.
  intros Hn p.
  assert (p = String.length doc + 1) as ->.
  { unfold p, offsetAfter, slice. rewrite skipn_O, Nat.sub_0_r.
    rewrite firstn_all2 by exact Hn. now rewrite join_split. }
  split; [apply substringTo_all | apply substringFrom_all]; lia.
Qed.






(** *** The lines of a document after an insertion *)

Lemma insertAtPosition_parts (doc : string) (p : nat) (body : string) :
  insertAtPosition doc p body =
  substringTo p doc +:+ spacingBefore (substringTo p doc) +:+ body
  +:+ spacingAfter (substringFrom p doc) +:+ substringFrom p doc.
Proof. reflexivity. Qed.

Lemma split_blank_line (a rest : string) :
  split (a +:+ String LF (String LF rest)) = (split a ++ [""]) ++ split rest.
Proof.
  rewrite split_append_LF. change (String LF rest) with ("" +:+ String LF rest).
  rewrite split_append_LF. change (split "") with [""]. now rewrite <- app_assoc.
Qed.





(** *** The named header *)

(** Without a line that matches the name the insertion point is the end
    of the document, as for the bottom placement. *)
Lemma findAfterSpecificHeader_fallback (doc name : string) :
  Forall (fun l => testWhole (afterHeaderRegex name) l = false) (split doc) ->
  findAfterSpecificHeader doc name = String.length doc.
Proof.
  intros H. unfold findAfterSpecificHeader.
  now rewrite (proj2 (findFrom_None _ _ 0) H).
Qed.

(** With a later header of at most the same depth, the insertion point is
    the start of that header's line. *)
Lemma findAfterSpecificHeader_before_next (doc name : string) (i j : nat) :
  firstLine (testWhole (afterHeaderRegex name)) (split doc) i ->
  endsSectionAt (levelOf (nth i (split doc) "")) i j (split doc) ->
  j < length (split doc) ->
  findAfterSpecificHeader doc name = offsetAfter j (split doc)
  /\ substringTo (offsetAfter j (split doc)) doc = join (firstn j (split doc)) +:+ NL
  /\ substringFrom (offsetAfter j (split doc)) doc = join (skipn j (split doc)).
Proof.
  intros Hi Hj Hlt. pose proof Hi as (Hil & _). pose proof Hj as ((Hij & _) & _).
  split; [|apply offsetAfter_inside; lia].
  apply findFrom_first in Hi. unfold findAfterSpecificHeader. rewrite Hi.
  pose proof (sectionEnd_unique _ _ _ _ Hil Hj) as E. unfold sectionEnd in E.
  replace (i + 1) with (S i) by lia.
  destruct (findFrom _ _ (S i)) as [j'|]; [now subst | lia].
Qed.

(** Without such a later header the insertion point is the offset after
    the header line itself, whatever follows it in its section. *)
Lemma findAfterSpecificHeader_without_next (doc name : string) (i : nat) :
  firstLine (testWhole (afterHeaderRegex name)) (split doc) i ->
  endsSectionAt (levelOf (nth i (split doc) "")) i (length (split doc)) (split doc) ->
  findAfterSpecificHeader doc name = offsetAfter (i + 1) (split doc).
Proof.
  intros Hi Hj. pose proof Hi as (Hil & _).
  apply findFrom_first in Hi. unfold findAfterSpecificHeader. rewrite Hi.
  pose proof (sectionEnd_unique _ _ _ _ Hil Hj) as E. unfold sectionEnd in E.
  replace (i + 1) with (S i) in * by lia.
  destruct (findFrom _ _ (S i)) as [j|] eqn:F; [|reflexivity].
  destruct (findFrom_Some _ "" _ _ _ F) as (k & -> & Hk & _).
  rewrite length_skipn in Hk. lia.
Qed.

Section Empty.
Variable settings : TimingPluginSettings.
Variable generateSummarySection : DailyTimeData -> string -> string.
Variable generateApplicationSection : DailyTimeData -> string -> string.
Variable generateCategorySection : DailyTimeData -> string -> string.
Variable generateTimelineSection : DailyTimeData -> string -> string.



End Empty.



(** C6 at [tasksDoc], whose Tasks section runs to the end of the document:
    the insertion point is the offset after the header line, not the end of
    the section, and the new section lands between the header and its
    items. *)
Lemma after_header_lands_inside_section :
  findAfterSpecificHeader tasksDoc "Tasks" = 9
  /\ String.length tasksDoc = 16
  /\ split (syncEmptyDay (settingsAt AfterHeader false) tasksDoc)
     = ["## Tasks"; "";
        "## Timing Tracking"; ""; "### Summary"; "";
        "- **Total tracked time**: 0s"; ""; "### By Application"; "";
        "*No application data available*"; ""; "### By Category"; "";
        "*No category data available*"; ""; "### Timeline"; "";
        "*No timeline data available*"; ""; "";
        "- a"; "- b"].
Proof. repeat split. Qed.

End Insertion.

(** ** Synchronisation of the section *)

Module Synchronisation.
Import Text DataTransformer TimingSectionManager Spec Examples.
Import TextFacts ScanFacts PatternFacts Locator Reflection Insertion.
#[local] Arguments String.append : simpl nomatch.

(** *** Lines of the generated section *)

Lemma noLF_repeat_hash (n : nat) (s : string) : noLF s -> noLF (repeat hash n +:+ s).
Proof.
  intros H. induction n as [|n IH]; [exact H|].
  cbn [repeat]. simpl append. apply noLF_cons; [discriminate | exact IH].
Qed.

Ltac plain_noLF := repeat (apply noLF_cons; [discriminate|]); apply noLF_nil.

Lemma split_timingHeaderLine (level : nat) :
  split (timingHeaderLine level) = [timingHeaderLine level].
Proof. apply split_one, noLF_repeat_hash. plain_noLF. Qed.

Lemma split_reflectionHeaderLine (level : nat) :
  split (reflectionHeaderLine level) = [reflectionHeaderLine level].
Proof. apply split_one, noLF_repeat_hash. plain_noLF. Qed.

Lemma split_reflectionBlock (level : nat) (text : string) :
  split (reflectionBlock level text) = blockLines level text.
Proof.
  unfold reflectionBlock, blockLines. fold (reflectionHeaderLine level).
  assert (reflectionHeaderLine level +:+ NL +:+ NL +:+ text +:+ NL +:+ NL
          = reflectionHeaderLine level
            +:+ String LF (String LF (text +:+ String LF (String LF "")))) as E
    by reflexivity.
  assert (repeat hash (level + 1) +:+ " Reflection" +:+ NL +:+ NL +:+ text +:+ NL +:+ NL
          = reflectionHeaderLine level +:+ NL +:+ NL +:+ text +:+ NL +:+ NL) as ->
    by (unfold reflectionHeaderLine; now rewrite append_assoc).
  rewrite E, split_blank_line, split_reflectionHeaderLine, split_blank_line.
  simpl. now rewrite <- !app_assoc.
Qed.

Section Sync.
Variable settings : TimingPluginSettings.
Variable generateSummarySection : DailyTimeData -> string -> string.
Variable generateApplicationSection : DailyTimeData -> string -> string.
Variable generateCategorySection : DailyTimeData -> string -> string.
Variable generateTimelineSection : DailyTimeData -> string -> string.
Variable data : DailyTimeData.

Abbreviation generate :=
  (generateTimingContent settings generateSummarySection generateApplicationSection
     generateCategorySection generateTimelineSection data).
Abbreviation stats :=
  (statistics settings generateSummarySection generateApplicationSection
     generateCategorySection generateTimelineSection data).
Abbreviation update :=
  (fun doc => updateTimingSection settings generateSummarySection
     generateApplicationSection generateCategorySection generateTimelineSection
     doc data).

Lemma generate_reflectionText (r r' : option string) (level : nat) :
  reflectionText r = reflectionText r' -> generate r level = generate r' level.
Proof.
  intros E. rewrite !generateTimingContent_shape, !generateReflectionSection_block.
  fold (reflectionText r) (reflectionText r'). now rewrite E.
Qed.

Lemma split_generate (r : option string) (level : nat) (body : string) :
  stats level = body +:+ NL ->
  split (generate r level) =
  timingHeaderLine level :: "" :: split body
  ++ (if includeReflection settings
      then blockLines level (reflectionText r) else [""]).
Proof.
  intros E. rewrite generateTimingContent_shape, generateReflectionSection_block, E.
  fold (reflectionText r).
  assert (forall tail, timingHeaderLine level +:+ NL +:+ NL +:+ (body +:+ NL) +:+ tail
                       = timingHeaderLine level
                         +:+ String LF (String LF (body +:+ String LF tail))) as E'.
  { intros tail. unfold NL. now rewrite !append_assoc. }
  rewrite E', split_blank_line, split_timingHeaderLine, split_append_LF.
  simpl. f_equal. f_equal. f_equal.
  destruct (includeReflection settings); [apply split_reflectionBlock | reflexivity].
Qed.


Lemma generate_tail (Q : string -> Prop) (r : option string) (level : nat) :
  (exists body, stats level = body +:+ NL) ->
  Forall Q (split (stats level)) -> Q "" ->
  (includeReflection settings = true ->
   Q (reflectionHeaderLine level) /\ Forall Q (split (reflectionText r))) ->
  exists rest,
    split (generate r level) = timingHeaderLine level :: rest /\ Forall Q rest.
Proof.
  intros [body E] Hstats H0 Hrefl. rewrite (split_generate r level body E).
  eexists; split; [reflexivity|].
  rewrite E in Hstats. unfold NL in Hstats. rewrite split_ends_LF in Hstats.
  apply Forall_app in Hstats as [Hbody _].
  constructor; [exact H0|]. apply Forall_app; split; [exact Hbody|].
  destruct (includeReflection settings).
  - destruct (Hrefl eq_refl) as [Hh Ht]. unfold blockLines.
    repeat (apply Forall_app; split); repeat constructor; assumption.
  - now constructor.
Qed.

End Sync.

(** *** Lines that are not headers of the section *)

Lemma closesSection_reflectionHeaderLine (level : nat) :
  closesSection level (reflectionHeaderLine level) = false.
Proof.
  unfold closesSection, headerMatch, reflectionHeaderLine.
  rewrite leadingHashes_repeat by discriminate.
  replace (level + 1) with (S level) by lia. apply Nat.leb_gt. lia.
Qed.


Lemma reflectionHeaderLine_matches (level : nat) :
  1 <= level <= 5 -> testPrefix reflectionRegex (reflectionHeaderLine level) = true.
Proof.
  intros H.
  assert (level = 1 \/ level = 2 \/ level = 3 \/ level = 4 \/ level = 5)
    as [->|[->|[->|[->| ->]]]] by lia; reflexivity.
Qed.

Lemma timingHeaderLine_not_reflection (level : nat) :
  1 <= level <= 6 -> testPrefix reflectionRegex (timingHeaderLine level) = false.
Proof.
  intros H.
  assert (level = 1 \/ level = 2 \/ level = 3 \/ level = 4 \/ level = 5 \/ level = 6)
    as [->|[->|[->|[->|[->| ->]]]]] by lia; reflexivity.
Qed.

(** *** Locating the section among given lines *)



Lemma locate_by_lines (doc : string) (pre tl : list string) (level : nat) :
  split doc = pre ++ timingHeaderLine level :: tl ->
  1 <= level <= 6 -> Forall notTitle pre ->
  findTimingSection doc =
  let stop := sectionEnd level (length pre) (split doc) in
  {| exists_ := true; startLine := Z.of_nat (length pre); endLine := Z.of_nat stop;
     content := join (slice (length pre) stop (split doc)); headerLevel := level |}.
Proof.
  intros E Hl Hpre. destruct (timingHeaderLine_matches level Hl) as [Hm Hh].
  assert (findFrom (testPrefix timingHeaderRegex) (split doc) 0 = Some (length pre)) as F.
  { rewrite E. now rewrite findFrom_hit. }
  rewrite (findTimingSection_found _ _ F). cbn zeta.
  assert (leadingHashes (nth (length pre) (split doc) "") = level) as ->
    by (rewrite E, nth_middle; exact Hh).
  reflexivity.
Qed.

Lemma sectionEnd_middle (level : nat) (pre rest post : list string) (h : string) :
  Forall (fun l => closesSection level l = false) rest ->
  (post = [] \/ exists x post', post = x :: post' /\ closesSection level x = true) ->
  sectionEnd level (length pre) (pre ++ h :: rest ++ post) = length pre + 1 + length rest.
Proof.
  intros Hrest Hpost. unfold sectionEnd.
  replace (skipn (S (length pre)) (pre ++ h :: rest ++ post)) with (rest ++ post).
  - rewrite findFrom_app by assumption.
    destruct Hpost as [->|(x & post' & -> & Hx)]; simpl.
    + rewrite length_app. simpl. rewrite length_app. simpl. lia.
    + rewrite Hx. f_equal. lia.
  - change (pre ++ h :: rest ++ post) with (pre ++ [h] ++ rest ++ post).
    rewrite app_assoc.
    replace (S (length pre)) with (length (pre ++ [h])) by (rewrite length_app; simpl; lia).
    now rewrite drop_app_length.
Qed.

Lemma slice_middle {A} (pre mid post : list A) :
  slice (length pre) (length pre + length mid) (pre ++ mid ++ post) = mid.
Proof.
  unfold slice. rewrite drop_app_length.
  replace (length pre + length mid - length pre) with (length mid) by lia.
  apply take_app_length.
Qed.


(** *** What is known of a located section *)

Lemma skipn_head_or_nil {A} (n : nat) (l : list A) (d : A) :
  n <= length l ->
  (n = length l /\ skipn n l = [])
  \/ (n < length l /\ skipn n l = nth n l d :: skipn (S n) l).
Proof.
  intros H. destruct (Nat.eq_dec n (length l)) as [->|Hne].
  - left. split; [reflexivity | apply skipn_all].
  - right. split; [lia|]. revert l H Hne. induction n as [|n IH]; intros [|x l] H Hne;
      simpl in *; try lia; try reflexivity.
    apply IH; lia.
Qed.

Lemma section_facts (doc : string) :
  exists_ (findTimingSection doc) = true ->
  exists start stop level,
    findTimingSection doc =
      {| exists_ := true; startLine := Z.of_nat start; endLine := Z.of_nat stop;
         content := join (slice start stop (split doc)); headerLevel := level |}
    /\ start < stop <= length (split doc)
    /\ 1 <= level <= 6
    /\ testPrefix timingHeaderRegex (nth start (split doc) "") = true
    /\ Forall notTitle (firstn start (split doc))
    /\ (skipn stop (split doc) = []
        \/ exists x post, skipn stop (split doc) = x :: post
                          /\ closesSection level x = true).
Proof.
  intros Hex. destruct (findTimingSection_exists _ Hex) as [start E].
  rewrite (findTimingSection_found _ _ E). cbn zeta.
  destruct (findFrom_Some _ "" _ _ _ E) as (k & -> & Hk & Hp & Hm). simpl in Hp, Hm.
  change (0 + k) with k in *.
  set (level := leadingHashes (nth k (split doc) "")).
  destruct (sectionEnd_spec level k (split doc) Hk) as (Hb & Hin & Hat).
  exists k, (sectionEnd level k (split doc)), level.
  split; [reflexivity|]. split; [exact Hb|].
  split; [exact (timingHeader_level _ Hp)|]. split; [exact Hp|].
  split; [exact (findFrom_firstn_miss _ "" _ _ E)|].
  destruct (skipn_head_or_nil (sectionEnd level k (split doc)) (split doc) "")
    as [[_ ->]|[Hlt ->]]; [lia | now left |].
  right. eexists _, _. split; [reflexivity | now apply Hat].
Qed.




(** *** The lines of a synchronised document *)

Section Paths.
Variable settings : TimingPluginSettings.
Variable generateSummarySection : DailyTimeData -> string -> string.
Variable generateApplicationSection : DailyTimeData -> string -> string.
Variable generateCategorySection : DailyTimeData -> string -> string.
Variable generateTimelineSection : DailyTimeData -> string -> string.
Variable data : DailyTimeData.

Abbreviation generate :=
  (generateTimingContent settings generateSummarySection generateApplicationSection
     generateCategorySection generateTimelineSection data).
Abbreviation stats :=
  (statistics settings generateSummarySection generateApplicationSection
     generateCategorySection generateTimelineSection data).
Abbreviation update :=
  (fun doc => updateTimingSection settings generateSummarySection
     generateApplicationSection generateCategorySection generateTimelineSection
     doc data).

Lemma update_lines_replace (doc : string) (start stop level : nat) (section : string) :
  findTimingSection doc =
    {| exists_ := true; startLine := Z.of_nat start; endLine := Z.of_nat stop;
       content := section; headerLevel := level |} ->
  update doc =
    join (firstn start (split doc)
          ++ split (generate (extractReflectionContent section) level)
          ++ skipn stop (split doc))
  /\ split (update doc) =
       firstn start (split doc)
       ++ split (generate (extractReflectionContent section) level)
       ++ skipn stop (split doc).
Proof.
  intros E.
  assert (update doc =
          join (firstn start (split doc)
                ++ split (generate (extractReflectionContent section) level)
                ++ skipn stop (split doc))) as Hu.
  { rewrite update_replace by now rewrite E. cbn zeta. rewrite E.
    cbn [startLine endLine content headerLevel]. now rewrite !Nat2Z.id. }
  split; [exact Hu|]. rewrite Hu. apply split_join.
  - intros H. apply app_eq_nil in H as [_ H]. apply app_eq_nil in H as [H _].
    now apply split_not_nil in H.
  - pose proof (split_noLF doc) as Hno.
    repeat (apply Forall_app; split);
      [now apply Forall_take | apply split_noLF | now apply Forall_drop].
Qed.



Lemma plain_placeholder :
  split placeholder = [placeholder]
  /\ notTitle placeholder
  /\ forall level, closesSection level placeholder = false.
Proof. repeat split. Qed.





(** *** Reading back the generated section *)

Lemma extract_none (section : string) :
  Forall (fun l => testPrefix reflectionRegex l = false) (split section) ->
  extractReflectionContent section = None.
Proof.
  intros H. unfold extractReflectionContent.
  now rewrite (proj2 (findFrom_None _ _ 0) H).
Qed.

Lemma extract_on_lines (section : string) (l1 l2 : list string) (hdr : string) :
  split section = l1 ++ hdr :: l2 ->
  Forall (fun l => testPrefix reflectionRegex l = false) l1 ->
  testPrefix reflectionRegex hdr = true ->
  Forall (fun l => closesSection (leadingHashes hdr) l = false) l2 ->
  extractReflectionContent section =
  let text := trim (join l2) in
  if String.eqb text "" then None else Some text.
Proof.
  intros E H1 Hh H2.
  assert (findFrom (testPrefix reflectionRegex) (split section) 0 = Some (length l1)) as F
    by (rewrite E; now rewrite findFrom_hit).
  rewrite (extractReflectionContent_found _ _ F). cbn zeta.
  rewrite E, nth_middle.
  assert (sectionEnd (leadingHashes hdr) (length l1) (l1 ++ hdr :: l2)
          = length l1 + 1 + length l2) as ->.
  { rewrite <- (app_nil_r l2) at 1. apply sectionEnd_middle; [exact H2 | now left]. }
  assert (slice (S (length l1)) (length l1 + 1 + length l2) (l1 ++ hdr :: l2) = l2) as ->.
  { pose proof (slice_middle (l1 ++ [hdr]) l2 []) as Hs.
    rewrite length_app, app_nil_r, <- app_assoc in Hs. simpl in Hs.
    replace (S (length l1)) with (length l1 + 1) by lia. exact Hs. }
  reflexivity.
Qed.

Lemma extract_generated (r : option string) (level : nat) :
  1 <= level <= 6 ->
  plainText level (stats level) ->
  reflectionText r = placeholder ->
  reflectionText (extractReflectionContent (generate r level)) = placeholder.
Proof.
  intros Hl [[body Hnl] Hplain] Hr.
  assert (Forall (fun l => testPrefix reflectionRegex l = false)
                 (timingHeaderLine level :: "" :: split body)) as Hhead.
  { constructor; [now apply timingHeaderLine_not_reflection|].
    constructor; [reflexivity|].
    rewrite Hnl in Hplain. unfold NL in Hplain. rewrite split_ends_LF in Hplain.
    apply Forall_app in Hplain as [Hplain _].
    eapply Forall_impl; [exact Hplain|]. now intros l (_ & _ & H). }
  pose proof (split_generate settings generateSummarySection generateApplicationSection
                generateCategorySection generateTimelineSection data r level body Hnl) as E.
  destruct (includeReflection settings).
  - rewrite Hr in E. unfold blockLines in E.
    change (split placeholder) with [placeholder] in E. simpl app in E.
    destruct (Nat.eq_dec level 6) as [->|Hne].
    + rewrite extract_none; [reflexivity|]. rewrite E.
      change (timingHeaderLine 6 :: "" :: split body
                ++ [reflectionHeaderLine 6; ""; placeholder; ""; ""])
        with ((timingHeaderLine 6 :: "" :: split body)
                ++ [reflectionHeaderLine 6; ""; placeholder; ""; ""]).
      apply Forall_app; split; [exact Hhead | now repeat constructor].
    + rewrite (extract_on_lines _ (timingHeaderLine level :: "" :: split body)
                 [""; placeholder; ""; ""] (reflectionHeaderLine level)).
      * reflexivity.
      * exact E.
      * exact Hhead.
      * apply reflectionHeaderLine_matches. lia.
      * now repeat constructor.
  - rewrite extract_none; [reflexivity|]. rewrite E.
    change (timingHeaderLine level :: "" :: split body ++ [""])
      with ((timingHeaderLine level :: "" :: split body) ++ [""]).
    apply Forall_app; split; [exact Hhead | now repeat constructor].
Qed.

(** *** A second synchronisation of a document that has the section *)

Lemma replace_idempotent (doc : string) :
  let info := findTimingSection doc in
  exists_ info = true ->
  reflectionText (extractReflectionContent (content info)) = placeholder ->
  plainText (headerLevel info) (stats (headerLevel info)) ->
  update (update doc) = update doc.
Proof.
  intros info Hex Hr Hplain. subst info.
  destruct (section_facts doc Hex) as (start & stop & level & E & Hb & Hl & Hp & Hpre & Hpost).
  rewrite E in Hr, Hplain. cbn [headerLevel content] in *.
  set (r := extractReflectionContent (join (slice start stop (split doc)))) in *.
  destruct (update_lines_replace doc _ _ _ _ E) as [Hu Hlines]. fold r in Hu, Hlines.
  destruct (generate_tail settings generateSummarySection generateApplicationSection
              generateCategorySection generateTimelineSection data
              (fun l => closesSection level l = false) r level)
    as (rest & Hgen & Hrest).
  { exact (proj1 Hplain). }
  { eapply Forall_impl; [exact (proj2 Hplain)|]. now intros l (H & _). }
  { reflexivity. }
  { intros _. split; [apply closesSection_reflectionHeaderLine|].
    rewrite Hr. now repeat constructor. }
  set (pre := firstn start (split doc)) in *.
  set (post := skipn stop (split doc)) in *.
  assert (split (update doc) = pre ++ timingHeaderLine level :: rest ++ post) as Hlines'
    by (rewrite Hlines, Hgen; reflexivity).
  pose proof (locate_by_lines _ _ _ _ Hlines' Hl Hpre) as Hfind. cbn zeta in Hfind.
  rewrite Hlines' in Hfind at 1 2.
  rewrite (sectionEnd_middle level pre rest post _ Hrest Hpost) in Hfind.
  destruct (update_lines_replace (update doc) _ _ _ _ Hfind) as [Hu2 _].
  rewrite Hu2, Hlines.
  assert (length pre + 1 + length rest = length pre + length (split (generate r level))) as ->
    by (rewrite Hgen; simpl; lia).
  rewrite slice_middle, join_split.
  rewrite (generate_reflectionText settings generateSummarySection
             generateApplicationSection generateCategorySection generateTimelineSection
             data (extractReflectionContent (generate r level)) r level)
    by (rewrite Hr; now apply extract_generated).
  rewrite take_app_length.
  replace (length pre + length (split (generate r level)))
    with (length (pre ++ split (generate r level))) by now rewrite length_app.
  rewrite (app_assoc pre _ post) at 1. rewrite drop_app_length.
  symmetry. exact Hu.
Qed.

End Paths.


(** A text passes as plain when it ends with a line feed and the test
    [plainLineb] accepts its lines. *)
Lemma plainText_check (level : nat) (text : string) :
  endsWith NL text = true ->
  forallb (plainLineb level) (split text) = true ->
  plainText level text.
Proof.
  intros He Hf. split; [now apply endsWith_inv|].
  apply List.Forall_forall. intros l Hl.
  apply (proj1 (List.forallb_forall _ _) Hf) in Hl. unfold plainLineb in Hl.
  apply negb_true_iff in Hl. apply orb_false_iff in Hl as [Hl H3].
  apply orb_false_iff in Hl as [H1 H2]. now repeat split.
Qed.

(** C1, amended. For a document that already has the Timing section, with
    no reflection to preserve (none, or the placeholder), and statistics
    rendered as plain lines, a second synchronisation with the same data
    leaves the result of the first unchanged. *)
Theorem update_idempotent_on_existing_section :
  forall (settings : TimingPluginSettings)
         (summary applications categories timeline : DailyTimeData -> string -> string)
         (data : DailyTimeData) (doc : string),
    let info := findTimingSection doc in
    let update := fun d =>
      updateTimingSection settings summary applications categories timeline d data in
    exists_ info = true ->
    (extractReflectionContent (content info) = None
     \/ extractReflectionContent (content info) = Some placeholder) ->
    plainText (headerLevel info)
      (statistics settings summary applications categories timeline data
         (headerLevel info)) ->
    update (update doc) = update doc.
Proof.
  intros settings summary applications categories timeline data doc info update
         Hex Hr Hplain.
  apply replace_idempotent; [exact Hex | | exact Hplain].
  fold info. now destruct Hr as [-> | ->].
Qed.

(** Idempotence at [depthBoundaryDoc], whose section has no reflection. *)
Lemma update_idempotent_witness :
  syncEmptyDay (settingsAt Bottom true)
    (syncEmptyDay (settingsAt Bottom true) depthBoundaryDoc)
  = syncEmptyDay (settingsAt Bottom true) depthBoundaryDoc.
Proof.
  refine (update_idempotent_on_existing_section (settingsAt Bottom true)
            summaryOfEmptyDay applicationsOfEmptyDay categoriesOfEmptyDay
            timelineOfEmptyDay emptyDay depthBoundaryDoc eq_refl (or_introl eq_refl) _).
  apply plainText_check; reflexivity.
Defined.

(** C1 as stated fails: the section inserted at the bottom of the empty
    document is followed by a line feed that the second synchronisation
    removes. No reflection is involved. *)
Lemma update_not_idempotent_on_insertion :
  includeReflection (settingsAt Bottom false) = false
  /\ syncEmptyDay (settingsAt Bottom false) (syncEmptyDay (settingsAt Bottom false) "")
     <> syncEmptyDay (settingsAt Bottom false) "".
Proof.
  split; [reflexivity|]. apply String.eqb_neq. vm_compute. reflexivity.
Qed.




End Synchronisation.

(** ** The data transformer *)

Module Transformer.
Import Text Js DataTransformer Spec Examples.

(** *** Reading fields *)

Lemma prop_field (v : value) (name : string) :
  truthy v = true -> prop v name = Ok (field v name).
Proof. destruct v; simpl; try discriminate; reflexivity. Qed.

Lemma prop_cases (v : value) (name : string) :
  (prop v name = Ok (field v name))
  \/ ((exists msg, prop v name = Throw msg) /\ forall n, field v n = VUndefined).
Proof. destruct v; simpl; eauto. Qed.

Ltac bind_step := unfold mbind, result_bind; cbn beta iota.

Section Host.
Variable toText : value -> string.
Variable dateIsValid : value -> bool.

Abbreviation validate := (validateRawData toText dateIsValid).
Abbreviation transform := (transformTimingData toText dateIsValid).
Abbreviation invalid := (structurallyInvalid toText dateIsValid).

(** *** The payload as a whole *)

Lemma validateRawData_spec (payload : value) :
  (validate payload = Ok tt /\ ~ invalid payload)
  \/ ((exists msg, validate payload = Throw msg) /\ invalid payload).
Proof.
  unfold validateRawData, structurallyInvalid.
  destruct (truthy payload) eqn:Hp; cbn [negb]; [|right; split; eauto].
  rewrite !(prop_field _ _ Hp). bind_step.
  destruct (truthy (field payload "date")) eqn:Hd; cbn [negb]; [|right; split; eauto].
  destruct (isValidDate toText dateIsValid (field payload "date")) eqn:Hv; cbn [negb];
    [|right; split; eauto].
  destruct (isArray (field payload "entries")) eqn:Ha; cbn [negb];
    [|right; split; eauto 6].
  left. split; [reflexivity|]. intros [H|[H|[H|H]]]; discriminate.
Qed.

Lemma transform_spec (payload : value) :
  (invalid payload /\ exists msg, transform payload = Throw msg)
  \/ (~ invalid payload
      /\ exists items,
          field payload "entries" = VArr items
          /\ transform payload =
             Ok {| date := field payload "date";
                   entries := transformEntries toText items;
                   summary := calculateSummary (transformEntries toText items) |}).
Proof.
  unfold transformTimingData.
  destruct (validateRawData_spec payload) as [[E Hok]|[[msg E] Hbad]]; rewrite E; bind_step.
  - right. split; [exact Hok|].
    assert (truthy payload = true) as Hp
      by (destruct (truthy payload) eqn:T; [reflexivity | exfalso; apply Hok; now left]).
    assert (isArray (field payload "entries") = true) as Ha.
    { destruct (isArray (field payload "entries")) eqn:T; [reflexivity|].
      exfalso; apply Hok. now do 3 right. }
    rewrite !(prop_field _ _ Hp). bind_step.
    destruct (field payload "entries") as [| | | | | items |] eqn:Ef; try discriminate.
    exists items. split; reflexivity.
  - left. split; [exact Hbad | eauto].
Qed.

End Host.

(** *** Single entries *)

Section Entries.
Variable toText : value -> string.

Lemma validateRawEntry_malformed (e : value) :
  malformed e -> exists msg, validateRawEntry e = Throw msg.
Proof.
  intros Hm. unfold validateRawEntry.
  destruct (prop_cases e "startTime") as [E|[[msg E] _]]; [|rewrite E; bind_step; eauto].
  assert (forall n, prop e n = Ok (field e n)) as Hprop.
  { intros n. destruct e; simpl in *; try discriminate; reflexivity. }
  rewrite !Hprop. bind_step.
  destruct (truthy (field e "startTime")) eqn:H1; cbn [negb orb]; [|eauto].
  destruct (truthy (field e "endTime")) eqn:H2; cbn [negb orb]; [|eauto].
  destruct (truthy (field e "application")) eqn:H3; cbn [negb]; [|eauto].
  destruct Hm as [H|[H|[H|[H|(q & Hq & Hlt)]]]]; try congruence.
  - destruct (field e "duration") as [| | |q| | |]; eauto. now destruct (H q).
  - rewrite Hq. destruct (Qle_bool 0 q) eqn:Hle; cbn [negb]; [|eauto].
    apply Qle_bool_iff in Hle. exfalso. now apply (Qlt_not_le _ _ Hlt).
Qed.

Lemma validateRawEntry_ok (e : value) :
  validateRawEntry e = Ok tt ->
  truthy (field e "startTime") = true /\ truthy (field e "endTime") = true
  /\ truthy (field e "application") = true
  /\ exists q, field e "duration" = VNum q /\ (0 <= q)%Q.
Proof.
  unfold validateRawEntry.
  destruct (prop_cases e "startTime") as [E|[[msg E] _]]; [|now rewrite E].
  assert (forall n, prop e n = Ok (field e n)) as Hprop.
  { intros n. destruct e; simpl in *; try discriminate; reflexivity. }
  rewrite !Hprop. bind_step.
  destruct (truthy (field e "startTime")); cbn [negb orb]; [|discriminate].
  destruct (truthy (field e "endTime")); cbn [negb orb]; [|discriminate].
  destruct (truthy (field e "application")); cbn [negb]; [|discriminate].
  destruct (field e "duration") as [| | |q| | |]; try discriminate.
  destruct (Qle_bool 0 q) eqn:Hle; cbn [negb]; [|discriminate].
  intros _. repeat split. exists q. split; [reflexivity | now apply Qle_bool_iff].
Qed.

Lemma transformEntry_malformed (e : value) :
  malformed e -> transformEntry toText e = None.
Proof.
  intros Hm. destruct (validateRawEntry_malformed e Hm) as [msg E].
  unfold transformEntry, buildEntry. rewrite E. reflexivity.
Qed.

Lemma round_nonneg (q : Q) : (0 <= q)%Q -> (0 <= round q)%Z.
Proof.
  intros H. unfold round. change 0%Z with (Qfloor 0).
  apply Qfloor_resp_le. apply Qle_trans with q; [exact H|].
  rewrite <- (Qplus_0_r q) at 1. apply Qplus_le_r. discriminate.
Qed.



(** Giving up an entry leaves the others as they are. *)
Lemma transformEntries_drop (before after : list value) (e : value) :
  transformEntry toText e = None ->
  transformEntries toText (before ++ e :: after)
  = transformEntries toText (before ++ after).
Proof.
  intros H. unfold transformEntries. rewrite !omap_app. cbn [omap list_omap].
  now rewrite H.
Qed.

(** *** The order of the entries *)

Lemma insertByStart_sorted (e : TimeEntry) (l : list TimeEntry) :
  sortedByStart l -> sortedByStart (insertByStart e l).
Proof.
  unfold sortedByStart. induction l as [|x l IH]; intros H; simpl.
  - repeat constructor.
  - unfold startsBefore. destruct (String.leb (startTime e) (startTime x)) eqn:E.
    + constructor; [exact H | now constructor].
    + inversion H as [|? ? Hs Hh]; subst. constructor; [now apply IH|].
      assert (String.leb (startTime x) (startTime e) = true) as Hx
        by (destruct (String.leb_total (startTime e) (startTime x)); congruence).
      destruct l as [|y l]; simpl; [now constructor|].
      unfold startsBefore. destruct (String.leb (startTime e) (startTime y));
        constructor; [exact Hx | now inversion Hh].
Qed.

Lemma sortByStart_sorted (es : list TimeEntry) : sortedByStart (sortByStart es).
Proof.
  induction es as [|e es IH]; [constructor | now apply insertByStart_sorted].
Qed.

Lemma insertByStart_perm (e : TimeEntry) (l : list TimeEntry) :
  Permutation (insertByStart e l) (e :: l).
Proof.
  induction l as [|x l IH]; simpl; [reflexivity|].
  destruct (startsBefore e x); [reflexivity|].
  rewrite IH. apply perm_swap.
Qed.

Lemma sortByStart_perm (es : list TimeEntry) : Permutation (sortByStart es) es.
Proof.
  induction es as [|e es IH]; [reflexivity|]. simpl.
  rewrite insertByStart_perm. now constructor.
Qed.

End Entries.


(** *** Aggregation *)



Section Accumulate.
Context `{Countable K}.
Variable key : TimeEntry -> option K.



End Accumulate.




(** *** The properties of the transformer *)

(** C7. The transform throws exactly for a payload that is missing, has no
    date, has a date that fails [isValidDate], or has entries that are not
    an array; otherwise it returns the date with the surviving entries in
    the order of their start times. A malformed entry (a missing start time,
    end time or application, a duration that is not a number or is
    negative) is given up, which leaves the other entries as they are. Of
    the three entries of [badDurationEntries], the second with the duration
    "abc", the other two are returned, sorted. *)
Theorem transform_failure_semantics :
  forall (toText : value -> string) (dateIsValid : value -> bool),
    (forall payload,
        (exists msg, transformTimingData toText dateIsValid payload = Throw msg)
        <-> structurallyInvalid toText dateIsValid payload)
    /\ (forall payload,
          ~ structurallyInvalid toText dateIsValid payload ->
          exists items,
            field payload "entries" = VArr items
            /\ transformTimingData toText dateIsValid payload
               = Ok {| date := field payload "date";
                       entries := transformEntries toText items;
                       summary := calculateSummary (transformEntries toText items) |}
            /\ sortedByStart (transformEntries toText items)
            /\ Permutation (transformEntries toText items)
                           (omap (transformEntry toText) items))
    /\ (forall e, malformed e -> transformEntry toText e = None)
    /\ (forall before e after,
          transformEntry toText e = None ->
          transformEntries toText (before ++ e :: after)
          = transformEntries toText (before ++ after))
    /\ (toText (VStr "2025-06-18") = "2025-06-18" ->
        dateIsValid (VStr "2025-06-18") = true ->
        exists summary,
          transformTimingData toText dateIsValid (rawDay badDurationEntries)
          = Ok {| date := VStr "2025-06-18";
                  entries := [entryOf "09:00:00" "09:30:00" 1800 "Xcode";
                              entryOf "10:00:00" "10:10:00" 600 "Mail"];
                  summary := summary |}).
Proof.
  intros toText dateIsValid. split; [|split; [|split; [|split]]].
  - intros payload. destruct (transform_spec toText dateIsValid payload)
      as [[Hbad [msg E]]|[Hok (items & _ & E)]]; rewrite E.
    + split; eauto.
    + split; [intros [msg H]; discriminate | contradiction].
  - intros payload Hok. destruct (transform_spec toText dateIsValid payload)
      as [[Hbad _]|[_ (items & Ef & E)]]; [contradiction|].
    exists items. split; [exact Ef|]. split; [exact E|]. split.
    + apply sortByStart_sorted.
    + apply sortByStart_perm.
  - apply transformEntry_malformed.
  - intros before e after. apply transformEntries_drop.
  - intros Ht Hd.
    destruct (transform_spec toText dateIsValid (rawDay badDurationEntries))
      as [[Hbad _]|[_ (items & Ef & E)]].
    + exfalso. destruct Hbad as [H|[H|[H|H]]]; try discriminate.
      change (field (rawDay badDurationEntries) "date") with (VStr "2025-06-18") in H.
      unfold isValidDate in H. rewrite Hd, Ht in H. discriminate.
    + injection Ef as <-. eexists. rewrite E. reflexivity.
Qed.

(** The sample host accepts the payload of the three entries. *)
Lemma transform_failure_witness :
  exists summary,
    transformTimingData sampleToText sampleDateIsValid (rawDay badDurationEntries)
    = Ok {| date := VStr "2025-06-18";
            entries := [entryOf "09:00:00" "09:30:00" 1800 "Xcode";
                        entryOf "10:00:00" "10:10:00" 600 "Mail"];
            summary := summary |}.
Proof.
  exact (proj2 (proj2 (proj2 (proj2
           (transform_failure_semantics sampleToText sampleDateIsValid))))
           eq_refl eq_refl).
Defined.





End Transformer.

(** ** The pattern engine *)

Module EngineFacts.
Import Text Spec TextFacts.
#[local] Arguments String.append : simpl nomatch.

(** A repetition accepts a text exactly when the text divides into a run of
    the class, of a length within the bounds, and a rest that the
    continuation accepts. *)
Lemma matchRep_spec (cls : ascii -> bool) (k : string -> bool) (s : string) :
  forall lo hi,
    matchRep cls lo hi k s = true <->
    exists a r, s = a +:+ r /\ lo <= String.length a <= hi
                /\ forallb cls (chars a) = true /\ k r = true.
Proof.
  induction s as [|c s IH]; intros lo hi; cbn [matchRep].
  - split.
    + intros H. destruct lo; [|destruct hi; discriminate].
      exists "", "". repeat split; simpl; try lia.
      destruct (k ""); [reflexivity | destruct hi; discriminate].
    + intros (a & r & E & Hl & _ & Hk). destruct a; [|discriminate].
      simpl in E. subst r. simpl in Hl. destruct lo; [|lia]. now rewrite Hk.
  - split.
    + intros H. apply orb_true_iff in H as [H|H].
      * destruct lo; [|discriminate]. exists "", (String c s).
        repeat split; simpl; try lia. exact H.
      * destruct hi as [|hi]; [discriminate|].
        apply andb_true_iff in H as [Hc H]. apply IH in H as (a & r & -> & Hl & Ha & Hk).
        exists (String c a), r. simpl. rewrite Hc, Ha. repeat split; try lia. exact Hk.
    + intros (a & r & E & Hl & Ha & Hk). destruct a as [|x a].
      * simpl in E. subst r. simpl in Hl. destruct lo; [|lia]. now rewrite Hk.
      * simpl in E. injection E as <- ->. simpl in Hl, Ha.
        apply andb_true_iff in Ha as [Hc Ha].
        destruct hi as [|hi]; [lia|]. rewrite Hc.
        assert (matchRep cls (pred lo) hi k (a +:+ r) = true) as ->;
          [|now rewrite orb_true_r].
        apply IH. exists a, r. repeat split; try lia; assumption.
Qed.

(** Between [lo] and [hi] characters of a class. *)
Lemma matchSeq_range (cls : ascii -> bool) (lo hi : nat) (rest : list atom)
      (final : string -> bool) (s : string) :
  matchSeq (Atom cls lo (Some hi) :: rest) final s = true <->
  exists a r, s = a +:+ r /\ lo <= String.length a <= hi
              /\ forallb cls (chars a) = true /\ matchSeq rest final r = true.
Proof. cbn [matchSeq Text.cls Text.lo Text.hi]. apply matchRep_spec. Qed.

(** Exactly [n] characters of a class. *)
Lemma matchSeq_exact (cls : ascii -> bool) (n : nat) (rest : list atom)
      (final : string -> bool) (s : string) :
  matchSeq (Atom cls n (Some n) :: rest) final s = true <->
  exists a r, s = a +:+ r /\ String.length a = n
              /\ forallb cls (chars a) = true /\ matchSeq rest final r = true.
Proof.
  rewrite matchSeq_range.
  split; intros (a & r & E & Hl & H); exists a, r; (split; [exact E|]);
    (split; [lia | exact H]).
Qed.

(** One given character. *)
Lemma matchSeq_char (c : ascii) (rest : list atom) (final : string -> bool) (s : string) :
  matchSeq (Atom (Ascii.eqb c) 1 (Some 1) :: rest) final s = true <->
  exists r, s = String c r /\ matchSeq rest final r = true.
Proof.
  rewrite matchSeq_exact. split.
  - intros (a & r & -> & Hl & Ha & H).
    destruct a as [|x [|y a]]; try discriminate. simpl in Ha.
    rewrite andb_true_r in Ha. apply Ascii.eqb_eq in Ha as <-. now exists r.
  - intros (r & -> & H). exists (String c ""), r. simpl.
    rewrite Ascii.eqb_refl. auto.
Qed.

End EngineFacts.

(** ** Further properties of the section manager *)

Module SectionFacts.
Import Text DataTransformer TimingSectionManager Spec Examples Samples.
Import TextFacts ScanFacts PatternFacts Locator Reflection Insertion Synchronisation.
#[local] Arguments String.append : simpl nomatch.

(** *** Patterns match by prefix *)

Lemma matchRep_extend (cls : ascii -> bool) (k k' : string -> bool) (t s : string) :
  (forall r, k r = true -> k' (r +:+ t) = true) ->
  forall lo hi hi', hi <= hi' ->
    matchRep cls lo hi k s = true -> matchRep cls lo hi' k' (s +:+ t) = true.
Proof.
  intros Hk. induction s as [|c s IH]; intros lo hi hi' Hle H.
  - assert (lo = 0 /\ k "" = true) as [-> H0].
    { destruct lo, hi; cbn in H; rewrite ?orb_false_r in H; try discriminate; auto. }
    apply Hk in H0. simpl append in *. destruct t; cbn; now rewrite H0.
  - simpl append. cbn [matchRep] in *. apply orb_true_iff in H as [H|H].
    + destruct lo; [|discriminate]. apply Hk in H. simpl append in H. now rewrite H.
    + destruct hi as [|hi]; [discriminate|]. destruct hi' as [|hi']; [lia|].
      apply andb_true_iff in H as [Hc H]. rewrite Hc.
      rewrite (IH _ hi hi') by (lia || assumption). apply orb_true_r.
Qed.

Lemma matchSeq_extend (re : list atom) (final final' : string -> bool) (t : string) :
  (forall r, final r = true -> final' (r +:+ t) = true) ->
  forall s, matchSeq re final s = true -> matchSeq re final' (s +:+ t) = true.
Proof.
  intros Hf. induction re as [|a re IH]; intros s; cbn [matchSeq]; [apply Hf|].
  apply matchRep_extend; [exact IH|].
  destruct (hi a); [lia | rewrite length_append; lia].
Qed.

Lemma testPrefix_extend (re : list atom) (s t : string) :
  testPrefix re s = true -> testPrefix re (s +:+ t) = true.
Proof. apply matchSeq_extend. reflexivity. Qed.


(** X1. The title pattern matches by prefix: a line that matches still
    matches when any text is appended, so every header line that starts
    with the title text (at a depth of 1 to 6) is a title line, and a
    document with such a line always has a located section. *)
Theorem title_pattern_matches_by_prefix :
  (forall line suffix,
      testPrefix timingHeaderRegex line = true ->
      testPrefix timingHeaderRegex (line +:+ suffix) = true)
  /\ (forall level suffix,
        1 <= level <= 6 ->
        testPrefix timingHeaderRegex (timingHeaderLine level +:+ suffix) = true)
  /\ (forall doc level suffix,
        1 <= level <= 6 ->
        In (timingHeaderLine level +:+ suffix) (split doc) ->
        exists_ (findTimingSection doc) = true).
Proof.
  assert (forall level suffix, 1 <= level <= 6 ->
            testPrefix timingHeaderRegex (timingHeaderLine level +:+ suffix) = true) as H2.
  { intros level suffix Hl. apply testPrefix_extend.
    now apply timingHeaderLine_matches. }
  split; [|split; [exact H2|]].
  - intros line suffix. apply testPrefix_extend.
  - intros doc level suffix Hl Hin.
    destruct (exists_ (findTimingSection doc)) eqn:E; [reflexivity|].
    apply findTimingSection_missing in E. rewrite List.Forall_forall in E.
    apply E in Hin. rewrite H2 in Hin by exact Hl. discriminate.
Qed.

(** A header that continues after the title text is located. *)
Lemma title_pattern_witness :
  exists_ (findTimingSection (join ["intro"; "### Timing Tracking Extended"; "x"])) = true.
Proof.
  refine (proj2 (proj2 title_pattern_matches_by_prefix)
            (join ["intro"; "### Timing Tracking Extended"; "x"]) 3 " Extended" _ _).
  - lia.
  - right. left. reflexivity.
Defined.

(** *** Replacement in place *)

Section InPlace.
Variable settings : TimingPluginSettings.
Variable generateSummarySection : DailyTimeData -> string -> string.
Variable generateApplicationSection : DailyTimeData -> string -> string.
Variable generateCategorySection : DailyTimeData -> string -> string.
Variable generateTimelineSection : DailyTimeData -> string -> string.
Variable data : DailyTimeData.

Abbreviation generate :=
  (generateTimingContent settings generateSummarySection generateApplicationSection
     generateCategorySection generateTimelineSection data).
Abbreviation stats :=
  (statistics settings generateSummarySection generateApplicationSection
     generateCategorySection generateTimelineSection data).
Abbreviation update :=
  (fun doc => updateTimingSection settings generateSummarySection
     generateApplicationSection generateCategorySection generateTimelineSection
     doc data).

Lemma located_after_replace (doc : string) (start stop level : nat) :
  findTimingSection doc =
    {| exists_ := true; startLine := Z.of_nat start; endLine := Z.of_nat stop;
       content := join (slice start stop (split doc)); headerLevel := level |} ->
  start < stop <= length (split doc) ->
  1 <= level <= 6 ->
  Forall notTitle (firstn start (split doc)) ->
  (skipn stop (split doc) = []
   \/ exists x post, skipn stop (split doc) = x :: post /\ closesSection level x = true) ->
  let r := extractReflectionContent (join (slice start stop (split doc))) in
  plainText level (stats level) ->
  Forall (fun l => closesSection level l = false) (split (reflectionText r)) ->
  findTimingSection (update doc) =
    {| exists_ := true; startLine := Z.of_nat start;
       endLine := Z.of_nat (start + length (split (generate r level)));
       content := generate r level; headerLevel := level |}.
Proof.
  intros E Hb Hl Hpre Hpost r Hplain Hr.
  destruct (update_lines_replace settings generateSummarySection
              generateApplicationSection generateCategorySection
              generateTimelineSection data doc _ _ _ _ E) as [_ Hlines].
  fold r in Hlines.
  destruct (generate_tail settings generateSummarySection generateApplicationSection
              generateCategorySection generateTimelineSection data
              (fun l => closesSection level l = false) r level)
    as (rest & Hgen & Hrest).
  { exact (proj1 Hplain). }
  { eapply Forall_impl; [exact (proj2 Hplain)|]. now intros l (H & _). }
  { reflexivity. }
  { intros _. split; [apply closesSection_reflectionHeaderLine | exact Hr]. }
  assert (length (firstn start (split doc)) = start) as Hlen
    by (rewrite length_firstn; lia).
  set (pre := firstn start (split doc)) in *.
  set (post := skipn stop (split doc)) in *.
  assert (split (update doc) = pre ++ timingHeaderLine level :: rest ++ post) as Hlines'
    by (rewrite Hlines, Hgen; reflexivity).
  pose proof (locate_by_lines _ _ _ _ Hlines' Hl Hpre) as Hfind. cbn zeta in Hfind.
  rewrite Hlines' in Hfind at 1 2.
  rewrite (sectionEnd_middle level pre rest post _ Hrest Hpost) in Hfind.
  assert (length pre + 1 + length rest = length pre + length (split (generate r level))) as Hn
    by (rewrite Hgen; simpl; lia).
  rewrite Hn, Hlines, slice_middle, join_split, Hlen in Hfind. exact Hfind.
Qed.

End InPlace.

(** X2. A replacement is made in place: the lines of the document before
    the section and from its end on are those of the result, around the
    lines of the generated content; and when the statistics are plain and no
    line of the carried-over reflection is a header of depth at most the
    section's, the locator finds in the result exactly the generated
    content, at the same line and level. *)
Theorem replacement_in_place :
  forall (settings : TimingPluginSettings)
         (summary applications categories timeline : DailyTimeData -> string -> string)
         (data : DailyTimeData) (doc : string),
    let info := findTimingSection doc in
    let level := headerLevel info in
    let reflection := extractReflectionContent (content info) in
    let new :=
      generateTimingContent settings summary applications categories timeline
        data reflection level in
    let result :=
      updateTimingSection settings summary applications categories timeline doc data in
    exists_ info = true ->
    split result =
      firstn (Z.to_nat (startLine info)) (split doc)
      ++ split new
      ++ skipn (Z.to_nat (endLine info)) (split doc)
    /\ (plainText level
          (statistics settings summary applications categories timeline data level) ->
        Forall (fun l => closesSection level l = false)
               (split (reflectionText reflection)) ->
        findTimingSection result =
          {| exists_ := true; startLine := startLine info;
             endLine := (startLine info + Z.of_nat (length (split new)))%Z;
             content := new; headerLevel := level |}).
Proof.
  intros settings summary applications categories timeline data doc
         info level reflection new result Hex.
  subst info level reflection new result.
  destruct (section_facts doc Hex) as (start & stop & level & E & Hb & Hl & Hp & Hpre & Hpost).
  rewrite E. cbn [startLine endLine content headerLevel]. rewrite !Nat2Z.id.
  split.
  - exact (proj2 (update_lines_replace settings summary applications categories
                    timeline data doc _ _ _ _ E)).
  - intros Hplain Hr. rewrite <- Nat2Z.inj_add.
    now apply located_after_replace.
Qed.

(** The replacement in [notesDoc], whose reflection is carried over. *)
Lemma replacement_in_place_witness :
  firstn 1 (split (syncEmptyDay (settingsAt Bottom true) notesDoc))
  = ["## Timing Tracking"]
  /\ content (findTimingSection (syncEmptyDay (settingsAt Bottom true) notesDoc))
     = renderEmptyDay (settingsAt Bottom true)
         (Some (join ["my notes "; "continued"])) 2.
Proof.
  destruct (replacement_in_place (settingsAt Bottom true) summaryOfEmptyDay
              applicationsOfEmptyDay categoriesOfEmptyDay timelineOfEmptyDay
              emptyDay notesDoc eq_refl) as [H1 H2].
  split.
  - unfold syncEmptyDay. rewrite H1. reflexivity.
  - unfold syncEmptyDay. rewrite H2; [reflexivity | |].
    + apply plainText_check; reflexivity.
    + repeat constructor.
Defined.




(** *** Placement at the top *)

Lemma endsWith_LF_last (lines : list string) :
  lines <> [] -> Forall noLF lines ->
  endsWith NL (join lines) = true -> nth (length lines - 1) lines "" = "".
Proof.
  intros Hne Hno H. apply endsWith_inv in H as [a E].
  apply (f_equal split) in E. unfold NL in E.
  rewrite split_join, split_ends_LF in E by assumption. subst lines.
  rewrite length_app. simpl.
  rewrite app_nth2 by lia.
  now replace (length (split a) + 1 - 1 - length (split a)) with 0 by lia.
Qed.

Lemma endsWith_blank_last (lines : list string) :
  lines <> [] -> Forall noLF lines ->
  endsWith (NL +:+ NL) (join lines +:+ NL) = true ->
  nth (length lines - 1) lines "" = "".
Proof.
  intros Hne Hno H. apply endsWith_LF_last; try assumption.
  apply endsWith_inv in H as [a E]. rewrite <- append_assoc in E.
  assert (join lines = a +:+ NL) as ->; [|apply endsWith_append].
  apply (f_equal (fun s => join (removelast (split s)))) in E.
  unfold NL in E. rewrite !split_ends_LF, !removelast_last, !join_split in E.
  rewrite <- split_ends_LF, join_split in E. exact E.
Qed.

Lemma title_is_last (lines : list string) (i : nat) :
  i < length lines -> startsWith "# " (nth i lines "") = true ->
  firstn (i + 1) lines <> []
  /\ nth (length (firstn (i + 1) lines) - 1) (firstn (i + 1) lines) "" <> "".
Proof.
  intros Hi Ht. split.
  - intros E. apply (f_equal (@length string)) in E.
    rewrite length_firstn in E. simpl in E. lia.
  - rewrite length_firstn.
    replace (Nat.min (i + 1) (length lines) - 1) with i by lia.
    rewrite nth_firstn. destruct (Nat.ltb_spec i (i + 1)); [|lia].
    intros E. rewrite E in Ht. discriminate.
Qed.

(** X4. Placement at the top, for a document without the section: the
    section goes directly after the first line that starts with "# ",
    separated from it by exactly one empty line, whatever follows the title
    (nothing of the text after the title is skipped); after a title that is
    the last line it ends the document; in a document with no such line it
    goes to the very start, after two line feeds. *)
Theorem top_placement_follows_first_title :
  forall (settings : TimingPluginSettings)
         (summary applications categories timeline : DailyTimeData -> string -> string)
         (data : DailyTimeData) (doc : string),
    let lines := split doc in
    let body :=
      generateTimingContent settings summary applications categories timeline
        data None 2 in
    let result :=
      updateTimingSection settings summary applications categories timeline doc data in
    timingSectionLocation settings = Top ->
    exists_ (findTimingSection doc) = false ->
    (forall i, firstLine (startsWith "# ") lines i -> i + 1 < length lines ->
       result = join (firstn (i + 1) lines) +:+ NL +:+ NL +:+ body
                +:+ spacingAfter (join (skipn (i + 1) lines))
                +:+ join (skipn (i + 1) lines))
    /\ (forall i, firstLine (startsWith "# ") lines i -> i + 1 = length lines ->
         result = doc +:+ NL +:+ NL +:+ body +:+ NL)
    /\ (Forall (fun l => startsWith "# " l = false) lines ->
         result = NL +:+ NL +:+ body +:+ spacingAfter doc +:+ doc).
Proof.
  intros settings summary applications categories timeline data doc
         lines body result Htop Hex.
  assert (result = insertAtPosition doc (findAfterTitle doc) body) as ->.
  { unfold result, updateTimingSection. rewrite Hex.
    unfold insertNewSection, findInsertionPoint. now rewrite Htop. }
  subst lines. generalize body. clear body. intros body.
  rewrite insertAtPosition_parts.
  split; [|split].
  - intros i Hi Hlt. pose proof Hi as (Hil & Ht & _).
    apply findFrom_first in Hi. unfold findAfterTitle. rewrite Hi.
    destruct (offsetAfter_inside doc (i + 1)) as [-> ->]; [lia|].
    destruct (title_is_last (split doc) i Hil Ht) as [Hne Hlast].
    assert (Forall noLF (firstn (i + 1) (split doc))) as Hno
      by (apply Forall_take, split_noLF).
    unfold spacingBefore at 1.
    destruct (endsWith (NL +:+ NL) (join (firstn (i + 1) (split doc)) +:+ NL)) eqn:E2.
    { now apply endsWith_blank_last in E2. }
    rewrite endsWith_append. now rewrite !append_assoc.
  - intros i Hi Hlen. pose proof Hi as (Hil & Ht & _).
    apply findFrom_first in Hi. unfold findAfterTitle. rewrite Hi.
    destruct (offsetAfter_beyond doc (i + 1)) as [-> ->]; [lia|].
    destruct (title_is_last (split doc) i Hil Ht) as [Hne Hlast].
    rewrite firstn_all2 in Hlast by lia.
    assert (endsWith NL doc = false) as E1.
    { destruct (endsWith NL doc) eqn:E; [|reflexivity].
      rewrite <- (join_split doc) in E.
      apply endsWith_LF_last in E; [contradiction | | apply split_noLF].
      apply split_not_nil. }
    assert (endsWith (NL +:+ NL) doc = false) as E2.
    { destruct (endsWith (NL +:+ NL) doc) eqn:E; [|reflexivity].
      apply endsWith_inv in E as [a ->]. rewrite <- append_assoc in E1.
      now rewrite endsWith_append in E1. }
    unfold spacingBefore, spacingAfter. rewrite E1, E2.
    change (startsWith NL "") with false. cbn iota.
    now rewrite !append_assoc, append_nil_r.
  - intros Hnone. unfold findAfterTitle.
    rewrite (proj2 (findFrom_None _ _ 0) Hnone).
    assert (substringTo 0 doc = "" /\ substringFrom 0 doc = doc) as [-> ->]
      by (destruct doc; split; reflexivity).
    reflexivity.
Qed.

(** The three cases at sample documents. *)
Lemma top_placement_witness :
  syncEmptyDay (settingsAt Top false) titledDoc
  = join ["intro"; "# 2025-06-18"] +:+ NL +:+ NL
    +:+ renderEmptyDay (settingsAt Top false) None 2
    +:+ NL +:+ join ["first"; "second"]
  /\ syncEmptyDay (settingsAt Top false) titleOnlyDoc
     = titleOnlyDoc +:+ NL +:+ NL
       +:+ renderEmptyDay (settingsAt Top false) None 2 +:+ NL
  /\ syncEmptyDay (settingsAt Top false) tasksDoc
     = NL +:+ NL +:+ renderEmptyDay (settingsAt Top false) None 2
       +:+ NL +:+ tasksDoc.
Proof.
  split; [|split].
  - refine (proj1 (top_placement_follows_first_title (settingsAt Top false)
              summaryOfEmptyDay applicationsOfEmptyDay categoriesOfEmptyDay
              timelineOfEmptyDay emptyDay titledDoc eq_refl eq_refl) 1 _ _).
    + apply findFrom_first. reflexivity.
    + vm_compute. lia.
  - refine (proj1 (proj2 (top_placement_follows_first_title (settingsAt Top false)
              summaryOfEmptyDay applicationsOfEmptyDay categoriesOfEmptyDay
              timelineOfEmptyDay emptyDay titleOnlyDoc eq_refl eq_refl)) 1 _ _).
    + apply findFrom_first. reflexivity.
    + reflexivity.
  - refine (proj2 (proj2 (top_placement_follows_first_title (settingsAt Top false)
              summaryOfEmptyDay applicationsOfEmptyDay categoriesOfEmptyDay
              timelineOfEmptyDay emptyDay tasksDoc eq_refl eq_refl)) _).
    repeat constructor.
Defined.

End SectionFacts.

(** ** Further properties of the transformer *)

Module TransformerFacts.
Import Text Js Numbers DataTransformer DataTransformerViews Spec Examples Shapes Samples.
Import TextFacts EngineFacts Transformer.
#[local] Arguments String.append : simpl nomatch.
#[local] Open Scope Z_scope.

(** *** Digits *)

Lemma digit_facts (c : ascii) :
  isDigit c = true ->
  isSpace c = false /\ Ascii.eqb c ":" = false
  /\ 0 <= Z.of_N (N_of_ascii c) - 48 <= 9.
Proof.
  destruct c as [[] [] [] [] [] [] [] []]; intros H; vm_compute in H;
    try discriminate H; (split; [reflexivity|]); (split; [reflexivity|]);
    vm_compute; split; discriminate.
Qed.

Lemma parseInt_digit (c : ascii) (r : string) :
  isDigit c = true -> parseInt (String c r) = Some (digitsValue 0 (String c r)).
Proof.
  destruct c as [[] [] [] [] [] [] [] []]; intros H; vm_compute in H;
    try discriminate H; reflexivity.
Qed.

Lemma parseInt_two_digits (s : string) :
  String.length s = 2%nat -> allDigits s = true ->
  exists h, parseInt s = Some h /\ 0 <= h <= 99.
Proof.
  destruct s as [|a [|b [|]]]; try discriminate. intros _ H.
  unfold allDigits in H. simpl in H.
  apply andb_true_iff in H as [Ha H]. apply andb_true_iff in H as [Hb _].
  rewrite (parseInt_digit a _ Ha). eexists. split; [reflexivity|].
  cbn [digitsValue]. rewrite Ha, Hb.
  destruct (digit_facts a Ha) as (_ & _ & Hra), (digit_facts b Hb) as (_ & _ & Hrb).
  lia.
Qed.

Lemma allDigits_without (s : string) : allDigits s = true -> without ":" s = true.
Proof.
  unfold allDigits, without. induction s as [|c s IH]; [reflexivity|]. simpl.
  intros H. apply andb_true_iff in H as [Hc H].
  destruct (digit_facts c Hc) as (_ & -> & _). now rewrite IH.
Qed.

(** *** Pieces of a text *)

Lemma splitOn_without (sep : ascii) (a : string) :
  without sep a = true -> splitOn sep a = [a].
Proof.
  unfold without. induction a as [|c a IH]; [reflexivity|]. simpl.
  intros H. apply andb_true_iff in H as [Hc H]. apply negb_true_iff in Hc.
  now rewrite Hc, (IH H).
Qed.

Lemma splitOn_append (sep : ascii) (a b : string) :
  without sep a = true -> splitOn sep (a +:+ String sep b) = a :: splitOn sep b.
Proof.
  unfold without. induction a as [|c a IH]; simpl.
  - now rewrite Ascii.eqb_refl.
  - intros H. apply andb_true_iff in H as [Hc H]. apply negb_true_iff in Hc.
    now rewrite Hc, (IH H).
Qed.

Lemma splitOn_clockText (h m s : string) :
  allDigits h = true -> allDigits m = true -> allDigits s = true ->
  splitOn ":" (clockText h m s) = [h; m; s].
Proof.
  intros Hh Hm Hs. unfold clockText.
  change (h +:+ ":" +:+ m +:+ ":" +:+ s)
    with (h +:+ String ":" (m +:+ String ":" s)).
  rewrite !splitOn_append, splitOn_without by now apply allDigits_without.
  reflexivity.
Qed.

(** *** The pattern of times *)

Lemma timePattern_shape (t : string) :
  testWhole timePattern t = true <->
  exists h m s,
    t = clockText h m s
    /\ (1 <= String.length h <= 2)%nat
    /\ String.length m = 2%nat /\ String.length s = 2%nat
    /\ allDigits h = true /\ allDigits m = true /\ allDigits s = true.
Proof.
  unfold testWhole, timePattern, digits.
  change (lit ":") with [Atom (Ascii.eqb ":") 1%nat (Some 1%nat)]. cbn [app].
  split.
  - intros H.
    apply matchSeq_range in H as (h & r & -> & Hlh & Hh & H).
    apply matchSeq_char in H as (r1 & -> & H).
    apply matchSeq_exact in H as (m & r & -> & Hlm & Hm & H).
    apply matchSeq_char in H as (r2 & -> & H).
    apply matchSeq_exact in H as (s & r & -> & Hls & Hs & H).
    cbn [matchSeq] in H. apply String.eqb_eq in H as ->.
    exists h, m, s. rewrite append_nil_r. repeat split; try assumption; lia.
  - intros (h & m & s & -> & Hlh & Hlm & Hls & Hh & Hm & Hs).
    apply matchSeq_range.
    exists h, (String ":" (m +:+ String ":" s)). repeat split; try assumption; try lia.
    apply matchSeq_char. eexists. split; [reflexivity|].
    apply matchSeq_exact. exists m, (String ":" s). repeat split; try assumption.
    apply matchSeq_char. eexists. split; [reflexivity|].
    apply matchSeq_exact. exists s, "". rewrite append_nil_r. repeat split; assumption.
Qed.

Lemma padStart2_digits (h : string) :
  (1 <= String.length h <= 2)%nat -> allDigits h = true ->
  String.length (padStart2 h) = 2%nat /\ allDigits (padStart2 h) = true
  /\ (String.length h = 2%nat -> padStart2 h = h)
  /\ (String.length h = 1%nat -> padStart2 h = "0" +:+ h).
Proof.
  intros Hl Hh. destruct h as [|a [|b [|]]]; simpl in Hl; try lia.
  - repeat split; try discriminate. unfold allDigits in *. simpl in *.
    exact Hh.
  - repeat split; try discriminate. exact Hh.
Qed.

Lemma length_clockText (h m s : string) :
  String.length (clockText h m s)
  = (String.length h + String.length m + String.length s + 2)%nat.
Proof.
  unfold clockText.
  change (h +:+ ":" +:+ m +:+ ":" +:+ s)
    with (h +:+ String ":" (m +:+ String ":" s)).
  rewrite length_append. simpl. rewrite length_append. simpl. lia.
Qed.

Lemma normalizeTime_shape (s t : string) :
  normalizeTime (VStr s) = Ok t ->
  exists h m sec,
    s = clockText h m sec /\ t = clockText (padStart2 h) m sec
    /\ (1 <= String.length h <= 2)%nat
    /\ String.length m = 2%nat /\ String.length sec = 2%nat
    /\ allDigits h = true /\ allDigits m = true /\ allDigits sec = true.
Proof.
  cbn [normalizeTime]. destruct (testWhole timePattern s) eqn:E; [|discriminate].
  apply timePattern_shape in E as (h & m & sec & -> & Hlh & Hlm & Hls & Hh & Hm & Hs).
  rewrite splitOn_clockText by assumption. cbn [nth]. intros [= <-].
  exists h, m, sec. repeat split; try assumption; lia.
Qed.

(** X5. [normalizeTime] returns a text of exactly eight characters that
    matches the pattern of times; the text is the argument itself when that
    has two hour digits and the argument after a "0" when it has one; and
    the result is a fixed point: normalising it again returns it. *)
Theorem normalizeTime_pads_the_hour :
  forall (s t : string),
    normalizeTime (VStr s) = Ok t ->
    String.length t = 8%nat
    /\ testWhole timePattern t = true
    /\ normalizeTime (VStr t) = Ok t
    /\ (String.length s = 8%nat /\ t = s
        \/ String.length s = 7%nat /\ t = "0" +:+ s).
Proof.
  intros s t H.
  destruct (normalizeTime_shape s t H)
    as (h & m & sec & -> & -> & Hlh & Hlm & Hls & Hh & Hm & Hs).
  destruct (padStart2_digits h Hlh Hh) as (Hl2 & Hd2 & Hsame & Hpad).
  assert (testWhole timePattern (clockText (padStart2 h) m sec) = true) as Hp.
  { apply timePattern_shape. exists (padStart2 h), m, sec.
    repeat split; try assumption; lia. }
  split; [rewrite length_clockText; lia|]. split; [exact Hp|]. split.
  - cbn [normalizeTime]. rewrite Hp, splitOn_clockText by assumption. cbn [nth].
    destruct (padStart2_digits (padStart2 h)) as (_ & _ & -> & _);
      try assumption; try lia. reflexivity.
  - rewrite length_clockText.
    destruct (Nat.eq_dec (String.length h) 2%nat) as [E|E]; [left | right].
    + rewrite (Hsame E). split; [lia | reflexivity].
    + rewrite Hpad by lia. split; [lia | reflexivity].
Qed.

(** A time with one hour digit. *)
Lemma normalizeTime_witness :
  String.length "09:05:00" = 8%nat
  /\ normalizeTime (VStr "09:05:00") = Ok "09:05:00"
  /\ "09:05:00" = "0" +:+ "9:05:00".
Proof.
  destruct (normalizeTime_pads_the_hour "9:05:00" "09:05:00" eq_refl)
    as (H1 & _ & H3 & _).
  split; [exact H1|]. split; [exact H3 | reflexivity].
Defined.


(** *** Entries that survive *)

Section Survivors.
Variable toText : value -> string.

Lemma transformEntry_fields (raw : value) (e : TimeEntry) :
  transformEntry toText raw = Some e ->
  exists s1 s2 q,
    field raw "startTime" = VStr s1 /\ normalizeTime (VStr s1) = Ok (startTime e)
    /\ field raw "endTime" = VStr s2 /\ normalizeTime (VStr s2) = Ok (endTime e)
    /\ field raw "duration" = VNum q /\ (0 <= q)%Q /\ duration e = round q
    /\ application e = sanitizeString toText (field raw "application")
    /\ category e = optional (field raw "category") (sanitizeString toText)
    /\ title e = optional (field raw "title") (sanitizeString toText)
    /\ productivity e =
         (if truthy (field raw "productivity")
          then parseProductivity (field raw "productivity") else None).
Proof.
  unfold transformEntry, buildEntry.
  destruct (validateRawEntry raw) as [[]|msg] eqn:Hv; bind_step; [|discriminate].
  destruct (validateRawEntry_ok raw Hv) as (_ & _ & _ & q & Hq & Hle).
  assert (forall n, prop raw n = Ok (field raw n)) as Hprop.
  { intros n. destruct raw; simpl in *; try discriminate; reflexivity. }
  rewrite !Hprop. bind_step.
  destruct (normalizeTime (field raw "startTime")) as [t1|] eqn:E1; bind_step;
    [|discriminate].
  destruct (normalizeTime (field raw "endTime")) as [t2|] eqn:E2; bind_step;
    [|discriminate].
  rewrite Hq. cbn [parseDuration]. bind_step. intros [= <-].
  cbn [startTime endTime duration application category title productivity].
  destruct (field raw "startTime") as [| | | |s1| |]; try discriminate.
  destruct (field raw "endTime") as [| | | |s2| |]; try discriminate.
  exists s1, s2, q. pose proof (round_nonneg q Hle).
  repeat split; try assumption; try reflexivity. lia.
Qed.

Lemma clock_of_normalizeTime (s t : string) :
  normalizeTime (VStr s) = Ok t ->
  String.length t = 8%nat /\ testWhole timePattern t = true
  /\ exists h, extractHour t = Some h /\ 0 <= h <= 99.
Proof.
  intros H.
  destruct (normalizeTime_shape s t H)
    as (h & m & sec & -> & -> & Hlh & Hlm & Hls & Hh & Hm & Hs).
  destruct (padStart2_digits h Hlh Hh) as (Hl2 & Hd2 & _).
  split; [rewrite length_clockText; lia|]. split.
  - apply timePattern_shape. exists (padStart2 h), m, sec.
    repeat split; try assumption; lia.
  - unfold extractHour. rewrite splitOn_clockText by assumption. cbn [hd].
    now apply parseInt_two_digits.
Qed.


End Survivors.

(** X6. Every entry that survives the transformation has a start and an
    end time of exactly eight characters of the form of two digits, colon,
    two digits, colon, two digits, and its hour is a number from 0 to 99:
    the hour of an entry of transformed data is never NaN, but nothing
    bounds it by 23 (nor the minutes and seconds by 59). *)
Theorem surviving_entry_has_clock_times :
  forall (toText : value -> string) (raw : value) (e : TimeEntry),
    transformEntry toText raw = Some e ->
    (String.length (startTime e) = 8%nat /\ testWhole timePattern (startTime e) = true)
    /\ (String.length (endTime e) = 8%nat /\ testWhole timePattern (endTime e) = true)
    /\ exists h, extractHour (startTime e) = Some h /\ 0 <= h <= 99.
Proof.
  intros toText raw e H.
  destruct (transformEntry_fields toText raw e H)
    as (s1 & s2 & q & _ & N1 & _ & N2 & _).
  destruct (clock_of_normalizeTime _ _ N1) as (L1 & P1 & Hh).
  destruct (clock_of_normalizeTime _ _ N2) as (L2 & P2 & _).
  auto.
Qed.

(** An entry that starts at "99:99:99" survives, in hour 99. *)
Lemma surviving_entry_witness :
  exists e,
    transformEntry sampleToText (rawEntry "99:99:99" "1:00:00" (VNum 60) "A") = Some e
    /\ startTime e = "99:99:99" /\ endTime e = "01:00:00"
    /\ exists h, extractHour (startTime e) = Some h /\ 0 <= h <= 99.
Proof.
  eexists. split; [reflexivity|]. split; [reflexivity|]. split; [reflexivity|].
  exact (proj2 (proj2 (surviving_entry_has_clock_times sampleToText
           (rawEntry "99:99:99" "1:00:00" (VNum 60) "A") _ eq_refl))).
Defined.

(** X7. The productivity of a surviving entry, when it has one, is a
    whole number from 0 to 5: a number is rounded and clamped to that
    scale; and a raw productivity that is falsy (absent, null, 0, the empty
    text) leaves the entry without productivity. *)
Theorem productivity_is_clamped :
  forall (toText : value -> string) (raw : value) (e : TimeEntry),
    transformEntry toText raw = Some e ->
    (forall p, productivity e = Some p -> 0 <= p <= 5)
    /\ (truthy (field raw "productivity") = false -> productivity e = None)
    /\ (forall q, field raw "productivity" = VNum q -> truthy (VNum q) = true ->
                  productivity e = Some (Z.max 0 (Z.min 5 (round q)))).
Proof.
  intros toText raw e H.
  destruct (transformEntry_fields toText raw e H)
    as (s1 & s2 & q0 & _ & _ & _ & _ & _ & _ & _ & _ & _ & _ & Hp).
  split; [|split].
  - intros p. rewrite Hp. destruct (truthy _); [|discriminate].
    destruct (field raw "productivity") as [| | |q|s| |]; cbn [parseProductivity];
      try discriminate.
    + intros [= <-]. lia.
    + destruct (parseInt s) as [v|]; cbn; [|discriminate]. intros [= <-]. lia.
  - intros Hf. now rewrite Hp, Hf.
  - intros q Hq Ht. now rewrite Hp, Hq, Ht.
Qed.

(** A productivity of 7 is recorded as 5. *)
Lemma productivity_witness :
  exists e,
    transformEntry sampleToText ratedEntry = Some e /\ productivity e = Some 5.
Proof.
  eexists. split; [reflexivity|].
  exact (proj2 (proj2 (productivity_is_clamped sampleToText ratedEntry _ eq_refl))
           (inject_Z 7) eq_refl eq_refl).
Defined.

(** *** The keys and values of the summary *)







(** *** Sums over the maps *)


Section Sums.
Context `{Countable K}.





End Sums.



(** *** Sanitised texts *)

Lemma length_substringTo (n : nat) (s : string) :
  (String.length (substringTo n s) <= n)%nat.
Proof.
  revert s. induction n as [|n IH]; intros [|c s]; simpl; try lia.
  specialize (IH s). lia.
Qed.

Lemma singleSpaced_substringTo (n : nat) (s : string) :
  singleSpaced s = true -> singleSpaced (substringTo n s) = true.
Proof.
  revert s. induction n as [|n IH]; intros [|c s]; try reflexivity.
  cbn [singleSpaced substringTo]. intros H.
  apply andb_true_iff in H as [H Hs]. apply andb_true_iff in H as [Hc Hadj].
  rewrite Hc, (IH s Hs), andb_true_r. cbn [andb].
  destruct n, s; try reflexivity. exact Hadj.
Qed.

Lemma startsPlain_substringTo (n : nat) (s : string) :
  startsPlain s = true -> startsPlain (substringTo n s) = true.
Proof. destruct n, s; simpl; auto. Qed.

Lemma collapseSpaces_singleSpaced (s : string) :
  singleSpaced (collapseSpaces false s) = true
  /\ singleSpaced (collapseSpaces true s) = true
  /\ startsPlain (collapseSpaces true s) = true.
Proof.
  induction s as [|c s (IH1 & IH2 & IH3)]; [repeat split|].
  cbn [collapseSpaces]. destruct (isSpace c) eqn:Hc.
  - split; [|split; assumption].
    cbn [singleSpaced]. rewrite IH2, andb_true_r. cbn [orb andb negb].
    unfold startsPlain in IH3. destruct (collapseSpaces true s); [reflexivity|].
    apply negb_true_iff in IH3. rewrite IH3. now rewrite andb_false_r.
  - assert (singleSpaced (String c (collapseSpaces false s)) = true) as Hs.
    { cbn [singleSpaced]. rewrite Hc, IH1. cbn [negb orb andb].
      now destruct (collapseSpaces false s). }
    split; [exact Hs|]. split; [exact Hs|]. cbn [startsPlain]. now rewrite Hc.
Qed.

Lemma startsPlain_trimStart (s : string) : startsPlain (trimStart s) = true.
Proof.
  induction s as [|c s IH]; [reflexivity|]. cbn [trimStart].
  destruct (isSpace c) eqn:Hc; [exact IH|]. cbn [startsPlain]. now rewrite Hc.
Qed.

Lemma startsPlain_trimEnd (s : string) :
  startsPlain s = true -> startsPlain (trimEnd s) = true.
Proof.
  destruct s as [|c s]; [reflexivity|]. cbn [startsPlain trimEnd]. intros Hc.
  destruct (trimEnd s); [|exact Hc].
  apply negb_true_iff in Hc. rewrite Hc. cbn [startsPlain]. now rewrite Hc.
Qed.

Lemma isSpace_control (c : ascii) :
  isSpace c = false -> existsb (Ascii.eqb c) ["013"; "010"; "009"]%char = false.
Proof.
  destruct c as [[] [] [] [] [] [] [] []]; intros H; vm_compute in H;
    try discriminate H; reflexivity.
Qed.

Lemma startsPlain_collapse (s : string) :
  startsPlain s = true -> startsPlain (collapseSpaces false (replaceControl s)) = true.
Proof.
  destruct s as [|c s]; [reflexivity|]. cbn [startsPlain replaceControl]. intros Hc.
  apply negb_true_iff in Hc. rewrite (isSpace_control c Hc).
  cbn [collapseSpaces]. rewrite Hc. cbn [startsPlain]. now rewrite Hc.
Qed.

Lemma singleSpaced_control (c : ascii) :
  negb (isSpace c) || Ascii.eqb c " " = true ->
  existsb (Ascii.eqb c) ["013"; "010"; "009"]%char = false.
Proof.
  destruct c as [[] [] [] [] [] [] [] []]; intros H; vm_compute in H;
    try discriminate H; reflexivity.
Qed.

Lemma replaceControl_clean (s : string) :
  singleSpaced s = true -> replaceControl s = s.
Proof.
  induction s as [|c s IH]; [reflexivity|]. cbn [singleSpaced replaceControl].
  intros H. apply andb_true_iff in H as [H Hs]. apply andb_true_iff in H as [Hc _].
  now rewrite (singleSpaced_control c Hc), (IH Hs).
Qed.

Lemma collapseSpaces_clean (s : string) :
  singleSpaced s = true ->
  collapseSpaces false s = s
  /\ (startsPlain s = true -> collapseSpaces true s = s).
Proof.
  induction s as [|c s IH]; [split; reflexivity|].
  cbn [singleSpaced collapseSpaces startsPlain].
  intros H. apply andb_true_iff in H as [H Hs]. apply andb_true_iff in H as [Hc Hadj].
  destruct (IH Hs) as [IH1 IH2]. destruct (isSpace c) eqn:E.
  - split; [|discriminate]. cbn [negb orb] in Hc. apply Ascii.eqb_eq in Hc as ->.
    f_equal. apply IH2.
    destruct s as [|d s]; [reflexivity|]. cbn [startsPlain].
    cbn [andb] in Hadj. exact Hadj.
  - split; [now rewrite IH1 | intros _; now rewrite IH1].
Qed.

(** X10. A text that [sanitizeString] returns has at most 200 characters,
    does not start with white space, and contains no white space but single
    plain spaces (so no tab, line feed or carriage return, and no two
    adjacent spaces); a text that is trimmed, has this form and at most 200
    characters is returned as it is. *)
Theorem sanitizeString_of_text :
  forall (toText : value -> string) (s : string),
    (String.length (sanitizeString toText (VStr s)) <= 200)%nat
    /\ singleSpaced (sanitizeString toText (VStr s)) = true
    /\ startsPlain (sanitizeString toText (VStr s)) = true
    /\ (trim s = s -> singleSpaced s = true -> (String.length s <= 200)%nat ->
        sanitizeString toText (VStr s) = s).
Proof.
  intros toText s. cbn [sanitizeString].
  split; [apply length_substringTo|]. split; [|split].
  - apply singleSpaced_substringTo, collapseSpaces_singleSpaced.
  - apply startsPlain_substringTo, startsPlain_collapse.
    unfold trim. apply startsPlain_trimEnd, startsPlain_trimStart.
  - intros -> Hs Hl. rewrite (replaceControl_clean s Hs).
    rewrite (proj1 (collapseSpaces_clean s Hs)). now apply substringTo_all.
Qed.

(** A name that is clean, and one that is not. *)
Lemma sanitizeString_witness :
  sanitizeString sampleToText (VStr "Visual Studio") = "Visual Studio"
  /\ singleSpaced (sanitizeString sampleToText (VStr "  a   b  ")) = true.
Proof.
  split.
  - apply (proj2 (proj2 (proj2
      (sanitizeString_of_text sampleToText "Visual Studio")))); try reflexivity.
    vm_compute. lia.
  - exact (proj1 (proj2 (sanitizeString_of_text sampleToText "  a   b  "))).
Defined.


(** *** Groups of entries *)










(** *** The greatest time of a map *)

Lemma pickMax_fold {K} (l : list (K * Z)) :
  forall init,
    let r := fold_left pickMax l init in
    snd init <= snd r
    /\ (forall x, In x l -> snd x <= snd r)
    /\ (r = init \/ In r l /\ snd init < snd r).
Proof.
  induction l as [|x l IH]; intros init; cbn [fold_left].
  - cbn zeta. split; [lia|]. split; [intros x []|]. now left.
  - destruct (IH (pickMax init x)) as (H1 & H2 & H3). cbn zeta in *.
    set (r := fold_left pickMax l (pickMax init x)) in *.
    assert (snd init <= snd (pickMax init x) /\ snd x <= snd (pickMax init x)
            /\ (pickMax init x = init
                \/ pickMax init x = x /\ snd init < snd x)) as (Ha & Hb & Hc).
    { unfold pickMax. destruct (Z.ltb_spec (snd init) (snd x)).
      - split; [lia|]. split; [lia|]. right. split; [reflexivity | lia].
      - split; [lia|]. split; [lia|]. now left. }
    split; [lia|]. split.
    + intros y [<-|Hy]; [lia | now apply H2].
    + destruct H3 as [E|[Hin Hlt]].
      * destruct Hc as [Hc|[Hc Hlt]].
        -- left. now rewrite E.
        -- right. split; [left; now rewrite E | rewrite E, Hc; lia].
      * right. split; [now right | lia].
Qed.

Lemma In_order `{Countable K} (order : list (K * Z)) (m : gmap K Z) (k : K) (v : Z) :
  Permutation order (map_to_list m) ->
  In (k, v) order <-> m !! k = Some v.
Proof.
  intros Hp. rewrite <- elem_of_map_to_list, list_elem_of_In.
  split; apply Permutation_in; [exact Hp | now symmetry].
Qed.

Lemma greatest_of_map `{Countable K} (order : list (K * Z)) (m : gmap K Z) (k0 k : K)
      (time : Z) :
  Permutation order (map_to_list m) ->
  fold_left pickMax order (k0, 0) = (k, time) ->
  0 <= time
  /\ (forall a v, m !! a = Some v -> v <= time)
  /\ (m !! k = Some time /\ 0 < time \/ k = k0 /\ time = 0).
Proof.
  intros Hp E. destruct (pickMax_fold order (k0, 0)) as (H1 & H2 & H3).
  cbn zeta in *. rewrite E in *. cbn [snd] in *.
  split; [exact H1|]. split.
  - intros a v Hv. apply (In_order order m a v Hp) in Hv. exact (H2 _ Hv).
  - destruct H3 as [[= -> ->]|[Hin Hlt]]; [now right|].
    left. split; [now apply (In_order order m k time Hp) | exact Hlt].
Qed.

(** X13. Given that the host iterates over the entries of a map (in any
    order), [getMostUsedApplication] returns null exactly for an empty map;
    otherwise its time is the greatest time of the map, or 0 when no time
    is positive, and its name is an application with that time, or the
    empty text when no time is positive. [getMostProductiveHour] does the
    same over the hours, with the hour 0 when no time is positive. *)
Theorem most_used_is_greatest :
  forall (applicationOrder : gmap string Z -> list (string * Z))
         (hourOrder : gmap (option Z) Z -> list (option Z * Z))
         (s : TimeSummary),
    Permutation (applicationOrder (byApplication s)) (map_to_list (byApplication s)) ->
    Permutation (hourOrder (byHour s)) (map_to_list (byHour s)) ->
    (getMostUsedApplication applicationOrder s = None <-> byApplication s = ∅)
    /\ (forall name time,
          getMostUsedApplication applicationOrder s = Some (name, time) ->
          0 <= time
          /\ (forall a v, byApplication s !! a = Some v -> v <= time)
          /\ (byApplication s !! name = Some time /\ 0 < time
              \/ name = "" /\ time = 0))
    /\ (getMostProductiveHour hourOrder s = None <-> byHour s = ∅)
    /\ (forall hour time,
          getMostProductiveHour hourOrder s = Some (hour, time) ->
          0 <= time
          /\ (forall h v, byHour s !! h = Some v -> v <= time)
          /\ (byHour s !! hour = Some time /\ 0 < time
              \/ hour = Some 0 /\ time = 0)).
Proof.
  intros applicationOrder hourOrder s Ha Hh.
  unfold getMostUsedApplication, getMostProductiveHour.
  split; [|split; [|split]].
  - destruct (Nat.eqb_spec (size (byApplication s)) 0) as [E|E].
    + split; [intros _; now apply map_size_empty_iff | reflexivity].
    + split; [discriminate | intros E'; now apply map_size_empty_iff in E'].
  - intros name time. destruct (size (byApplication s) =? 0)%nat; [discriminate|].
    intros [= E]. exact (greatest_of_map _ _ _ _ _ Ha E).
  - destruct (Nat.eqb_spec (size (byHour s)) 0) as [E|E].
    + split; [intros _; now apply map_size_empty_iff | reflexivity].
    + split; [discriminate | intros E'; now apply map_size_empty_iff in E'].
  - intros hour time. destruct (size (byHour s) =? 0)%nat; [discriminate|].
    intros [= E]. exact (greatest_of_map _ _ _ _ _ Hh E).
Qed.

(** The summary of two entries of no duration: the name is the empty text. *)
Lemma most_used_witness :
  getMostUsedApplication map_to_list
    (calculateSummary [entryOf "09:00:00" "09:00:00" 0 "A";
                       entryOf "10:00:00" "10:00:00" 0 "B"])
  = Some ("", 0)
  /\ (forall a v,
        byApplication
          (calculateSummary [entryOf "09:00:00" "09:00:00" 0 "A";
                             entryOf "10:00:00" "10:00:00" 0 "B"]) !! a = Some v ->
        v <= 0).
Proof.
  assert (getMostUsedApplication map_to_list
            (calculateSummary [entryOf "09:00:00" "09:00:00" 0 "A";
                               entryOf "10:00:00" "10:00:00" 0 "B"])
          = Some ("", 0)) as E by (vm_compute; reflexivity).
  split; [exact E|].
  exact (proj1 (proj2 (proj1 (proj2 (most_used_is_greatest map_to_list map_to_list
           (calculateSummary [entryOf "09:00:00" "09:00:00" 0 "A";
                              entryOf "10:00:00" "10:00:00" 0 "B"])
           (Permutation_refl _) (Permutation_refl _))) "" 0 E))).
Defined.


(** *** Durations and times as texts *)

(** X14. A duration of a minute or more is shown in whole minutes: the
    seconds beyond the last whole minute are dropped, never rounded, so the
    text of [s] seconds is that of [s - s mod 60] seconds; and the text of
    a whole number of hours names the hours only. *)
Theorem formatDuration_drops_seconds :
  forall (s : Z),
    60 <= s ->
    formatDuration s = formatDuration (s - s mod 60)
    /\ (3600 <= s -> (s / 60) mod 60 = 0 ->
        formatDuration s = decimal (s / 3600) +:+ "h").
Proof.
  intros s Hs.
  assert (s - s mod 60 = (s / 60) * 60) as E
    by (pose proof (Z.div_mod s 60); lia).
  assert (1 <= s / 60) as Hm by (apply Z.div_le_lower_bound; lia).
  split.
  - unfold formatDuration. rewrite E, Z.div_mul by lia.
    destruct (Z.ltb_spec s 60); [lia|].
    destruct (Z.ltb_spec (s / 60 * 60) 60); [lia | reflexivity].
  - intros Hh Hz. unfold formatDuration.
    destruct (Z.ltb_spec s 60); [lia|].
    assert (60 <= s / 60) as Hm' by (apply Z.div_le_lower_bound; lia).
    destruct (Z.ltb_spec (s / 60) 60); [lia|].
    rewrite Hz. cbn [Z.eqb]. now rewrite Z.div_div by lia.
Qed.

(** 3599 seconds are 59 minutes, 7200 seconds two hours. *)
Lemma formatDuration_witness :
  formatDuration 3599 = formatDuration 3540 /\ formatDuration 7259 = "2h".
Proof.
  split.
  - apply (formatDuration_drops_seconds 3599). lia.
  - apply (formatDuration_drops_seconds 7259); [lia | lia | reflexivity].
Defined.

Lemma parseInt_hour (h : string) :
  (1 <= String.length h <= 2)%nat -> allDigits h = true ->
  exists v, parseInt h = Some v /\ 0 <= v <= 99.
Proof.
  intros Hl Hd. destruct (Nat.eq_dec (String.length h) 2%nat) as [E|E];
    [now apply parseInt_two_digits|].
  destruct h as [|a [|b h]]; simpl in Hl, E; try lia.
  unfold allDigits in Hd. simpl in Hd. rewrite andb_true_r in Hd.
  rewrite (parseInt_digit a _ Hd). eexists. split; [reflexivity|].
  cbn [digitsValue]. rewrite Hd. destruct (digit_facts a Hd) as (_ & _ & Hr). lia.
Qed.

(** X15. For a text that matches the pattern of times, the 12-hour form
    is the hour number without a leading zero, the two minute digits and AM
    or PM; the seconds are dropped. Hour 0 is shown as 12 AM and hour 12 as
    12 PM; for the hours up to 23 the number shown is between 1 and 12. The
    24-hour form is the text itself. *)
Theorem formatTime_of_clock_text :
  forall (t : string),
    testWhole timePattern t = true ->
    formatTime t H24 = t
    /\ exists h m sec v,
         t = clockText h m sec /\ parseInt h = Some v /\ 0 <= v <= 99
         /\ formatTime t H12
            = decimal (if v =? 0 then 12 else if v >? 12 then v - 12 else v)
              +:+ ":" +:+ m +:+ " " +:+ (if v <? 12 then "AM" else "PM")
         /\ (v <= 23 ->
             1 <= (if v =? 0 then 12 else if v >? 12 then v - 12 else v) <= 12).
Proof.
  intros t Ht. split; [reflexivity|].
  apply timePattern_shape in Ht as (h & m & sec & -> & Hlh & Hlm & Hls & Hh & Hm & Hs).
  destruct (parseInt_hour h Hlh Hh) as (v & Hv & Hr).
  exists h, m, sec, v. split; [reflexivity|]. split; [exact Hv|]. split; [exact Hr|].
  split.
  - unfold formatTime. rewrite splitOn_clockText by assumption. cbn [hd].
    rewrite Hv. unfold numberToText.
    destruct (v =? 0); [reflexivity|]. destruct (v >? 12); reflexivity.
  - intros H23. destruct (Z.eqb_spec v 0); [lia|].
    destruct (Z.gtb_spec v 12); lia.
Qed.

(** A quarter to two in the afternoon. *)
Lemma formatTime_witness :
  exists h m sec v,
    "13:45:10" = clockText h m sec /\ parseInt h = Some v /\ 0 <= v <= 99
    /\ formatTime "13:45:10" H12
       = decimal (if v =? 0 then 12 else if v >? 12 then v - 12 else v)
         +:+ ":" +:+ m +:+ " " +:+ (if v <? 12 then "AM" else "PM")
    /\ (v <= 23 ->
        1 <= (if v =? 0 then 12 else if v >? 12 then v - 12 else v) <= 12).
Proof.
  exact (proj2 (formatTime_of_clock_text "13:45:10" eq_refl)).
Defined.

(** *** Filtering *)






(** *** The empty day *)

(** X17. The data of an empty day is what the transformation returns for
    a payload with that date, when the date is valid, and no entries. *)
Theorem empty_day_is_transform_of_no_entries :
  forall (toText : value -> string) (dateIsValid : value -> bool) (date : value),
    truthy date = true ->
    isValidDate toText dateIsValid date = true ->
    transformTimingData toText dateIsValid
      (VObj [("date", date); ("entries", VArr [])])
    = Ok (createEmptyDailyData date).
Proof.
  intros toText dateIsValid date Ht Hv.
  unfold transformTimingData, validateRawData.
  cbn [truthy negb prop lookupField String.eqb Ascii.eqb Bool.eqb]. bind_step.
  rewrite Ht, Hv. cbn [negb isArray]. bind_step. reflexivity.
Qed.

(** The empty day of the sample date. *)
Lemma empty_day_witness :
  transformTimingData sampleToText sampleDateIsValid (rawDay [])
  = Ok (createEmptyDailyData (VStr "2025-06-18")).
Proof.
  apply (empty_day_is_transform_of_no_entries sampleToText sampleDateIsValid
           (VStr "2025-06-18")); reflexivity.
Defined.

End TransformerFacts.

(** ** Properties of the daily note manager *)

Module NoteFacts.
Import Text Js Numbers DataTransformer TimingSectionManager DailyNoteManager.
Import Spec Examples Shapes Samples.
Import TextFacts ScanFacts PatternFacts EngineFacts Locator Reflection Insertion.
Import Synchronisation.
#[local] Arguments String.append : simpl nomatch.

(** *** The texts of years, months and days *)

Lemma forallb_zrange (p : Z -> bool) (lo len z : Z) :
  forallb p (zrange lo len) = true -> (lo <= z < lo + len)%Z -> p z = true.
Proof.
  intros H Hz. rewrite forallb_forall in H. apply H. unfold zrange.
  apply in_map_iff. exists (Z.to_nat (z - lo)). split; [lia|]. apply in_seq. lia.
Qed.

Lemma year_text (y : Z) :
  (1000 <= y <= 9999)%Z -> fourDigits (decimal y) y = true.
Proof.
  intros Hy.
  apply (forallb_zrange (fun n => fourDigits (decimal n) n) 1000 9000); [|lia].
  vm_compute. reflexivity.
Qed.

Lemma month_text (m : Z) :
  (0 <= m <= 11)%Z -> twoDigits (padStart2 (decimal (m + 1))) (m + 1) = true.
Proof.
  intros Hm.
  apply (forallb_zrange (fun n => twoDigits (padStart2 (decimal (n + 1))) (n + 1)) 0 12);
    [|lia].
  vm_compute. reflexivity.
Qed.

Lemma day_text (d : Z) :
  (1 <= d <= 31)%Z -> twoDigits (padStart2 (decimal d)) d = true.
Proof.
  intros Hd.
  apply (forallb_zrange (fun n => twoDigits (padStart2 (decimal n)) n) 1 31); [|lia].
  vm_compute. reflexivity.
Qed.

Lemma digit_not_separator (c : ascii) :
  isDigit c = true -> Ascii.eqb "-" c = false /\ Ascii.eqb "/" c = false.
Proof.
  destruct c as [[] [] [] [] [] [] [] []]; intros H; vm_compute in H;
    try discriminate H; split; reflexivity.
Qed.

Lemma fourDigits_inv (t : string) (n : Z) :
  fourDigits t n = true ->
  exists a b c d,
    t = String a (String b (String c (String d "")))
    /\ (isDigit a = true /\ isDigit b = true /\ isDigit c = true /\ isDigit d = true)
    /\ parseInt t = Some n.
Proof.
  unfold fourDigits, reads. destruct t as [|a [|b [|c [|d [|]]]]]; try discriminate.
  intros H. apply andb_true_iff in H as [H Hr]. apply andb_true_iff in H as [H Hd].
  apply andb_true_iff in H as [H Hc]. apply andb_true_iff in H as [Ha Hb].
  exists a, b, c, d. split; [reflexivity|]. split; [auto|].
  destruct (parseInt _) as [v|]; [|discriminate]. f_equal. now apply Z.eqb_eq.
Qed.

Lemma twoDigits_inv (t : string) (n : Z) :
  twoDigits t n = true ->
  exists a b,
    t = String a (String b "")
    /\ (isDigit a = true /\ isDigit b = true)
    /\ parseInt t = Some n.
Proof.
  unfold twoDigits, reads. destruct t as [|a [|b [|]]]; try discriminate.
  intros H. apply andb_true_iff in H as [H Hr]. apply andb_true_iff in H as [Ha Hb].
  exists a, b. split; [reflexivity|]. split; [auto|].
  destruct (parseInt _) as [v|]; [|discriminate]. f_equal. now apply Z.eqb_eq.
Qed.

Ltac use_digit_facts :=
  repeat match goal with
         | H : isDigit _ = true |- _ => rewrite !H
         | H : Ascii.eqb _ _ = false |- _ => rewrite !H
         end.

(** *** Names of notes *)

Section Names.
Variable Date : Type.
Variable getFullYear : Date -> Z.
Variable getMonth : Date -> Z.
Variable getDate : Date -> Z.
Variable getTime : Date -> Z.
Variable newDate : Z -> Z -> Z -> Date.

Abbreviation formats := (supportedFormats Date getFullYear getMonth getDate newDate).
Abbreviation normalize := (normalizeDate Date getFullYear getMonth getDate newDate).

Lemma parser_of_formatter (date : Date) (f g : DateFormat Date) :
  In f formats -> In g formats ->
  (1000 <= getFullYear date <= 9999)%Z ->
  (0 <= getMonth date <= 11)%Z ->
  (1 <= getDate date <= 31)%Z ->
  parser _ g (formatter _ f date)
  = if String.eqb (formatString _ f) (formatString _ g)
    then Some (normalize date) else None.
Proof.
  intros Hf Hg Hy Hm Hd.
  destruct (fourDigits_inv _ _ (year_text _ Hy))
    as (y1 & y2 & y3 & y4 & EY & (Hy1 & Hy2 & Hy3 & Hy4) & PY).
  destruct (twoDigits_inv _ _ (month_text _ Hm)) as (m1 & m2 & EM & (Hm1 & Hm2) & PM).
  destruct (twoDigits_inv _ _ (day_text _ Hd)) as (d1 & d2 & ED & (Hd1 & Hd2) & PD).
  destruct (digit_not_separator _ Hy1), (digit_not_separator _ Hy2),
    (digit_not_separator _ Hy3), (digit_not_separator _ Hy4),
    (digit_not_separator _ Hm1), (digit_not_separator _ Hm2),
    (digit_not_separator _ Hd1), (digit_not_separator _ Hd2).
  rewrite EY in PY. rewrite EM in PM. rewrite ED in PD.
  unfold normalizeDate.
  destruct Hf as [<-|[<-|[<-|[]]]]; destruct Hg as [<-|[<-|[<-|[]]]];
    cbn [parser formatter formatString]; unfold yearText, monthText, dayText;
    rewrite EY, EM, ED;
    unfold testPrefix, ymd, dmy, digits, substring;
    cbn -[isDigit Ascii.eqb parseInt Z.sub Z.add]; use_digit_facts;
    cbn -[parseInt Z.sub Z.add]; try reflexivity;
    unfold dateOfGroups; rewrite PY, PM, PD; cbn -[Z.sub Z.add];
    do 2 f_equal; lia.
Qed.

Lemma matchesDate_formatted (date : Date) (f : DateFormat Date) (file : TFile) :
  In f formats ->
  (1000 <= getFullYear date <= 9999)%Z ->
  (0 <= getMonth date <= 11)%Z ->
  (1 <= getDate date <= 31)%Z ->
  normalize (normalize date) = normalize date ->
  basename file = formatter _ f date ->
  matchesDate Date getFullYear getMonth getDate getTime newDate (normalize date) file
  = true.
Proof.
  intros Hf Hy Hm Hd Hn Hb. unfold matchesDate. apply existsb_exists.
  exists f. split; [exact Hf|]. rewrite Hb.
  rewrite (parser_of_formatter date f f Hf Hf Hy Hm Hd), String.eqb_refl, Hn.
  apply Z.eqb_refl.
Qed.

End Names.

(** X18. For a date with a year of four digits, the name that the
    formatter of a supported format gives is read back by the parser of
    that format as the date at midnight of the same day, month and year,
    and the parsers of the other two formats do not read it. *)
Theorem formatted_name_is_read_by_its_format_only :
  forall (Date : Type) (getFullYear getMonth getDate : Date -> Z)
         (newDate : Z -> Z -> Z -> Date) (date : Date) (f g : DateFormat Date),
    In f (supportedFormats Date getFullYear getMonth getDate newDate) ->
    In g (supportedFormats Date getFullYear getMonth getDate newDate) ->
    (1000 <= getFullYear date <= 9999)%Z ->
    (0 <= getMonth date <= 11)%Z ->
    (1 <= getDate date <= 31)%Z ->
    parser _ g (formatter _ f date)
    = if String.eqb (formatString _ f) (formatString _ g)
      then Some (normalizeDate Date getFullYear getMonth getDate newDate date)
      else None.
Proof. intros. now apply parser_of_formatter. Qed.

(** The 18th of June 2025 in the third format, read by the third and by
    the first. *)
Lemma formatted_name_witness :
  formatter _ dmyFormat sampleDay18 = "18-06-2025"
  /\ parser _ dmyFormat (formatter _ dmyFormat sampleDay18) = Some sampleDay18
  /\ parser _ ymdFormat (formatter _ dmyFormat sampleDay18) = None.
Proof.
  split; [reflexivity|]. split.
  - refine (formatted_name_is_read_by_its_format_only SampleDate sampleYear
              sampleMonth sampleDay sampleNewDate sampleDay18 dmyFormat dmyFormat
              _ _ _ _ _).
    + right. right. left. reflexivity.
    + right. right. left. reflexivity.
    + vm_compute. split; discriminate.
    + vm_compute. split; discriminate.
    + vm_compute. split; discriminate.
  - refine (formatted_name_is_read_by_its_format_only SampleDate sampleYear
              sampleMonth sampleDay sampleNewDate sampleDay18 dmyFormat ymdFormat
              _ _ _ _ _).
    + right. right. left. reflexivity.
    + left. reflexivity.
    + vm_compute. split; discriminate.
    + vm_compute. split; discriminate.
    + vm_compute. split; discriminate.
Defined.

(** X19. [formatDate] and the formatter of the format that
    [getFormatForSettings] chooses give the same text for every format
    text and date: for one of the three supported format texts it is that
    format, and for any other text both fall back to the first format,
    YYYY-MM-DD. *)
Theorem formatDate_agrees_with_formatter :
  forall (Date : Type) (getFullYear getMonth getDate : Date -> Z)
         (newDate : Z -> Z -> Z -> Date) (dateFormat : string) (date : Date),
    exists f,
      getFormatForSettings Date getFullYear getMonth getDate newDate dateFormat = Some f
      /\ In f (supportedFormats Date getFullYear getMonth getDate newDate)
      /\ formatter _ f date
         = formatDate Date getFullYear getMonth getDate date dateFormat
      /\ (formatString _ f = dateFormat
          \/ formatString _ f = "YYYY-MM-DD"
             /\ Forall (fun g => formatString _ g <> dateFormat)
                       (supportedFormats Date getFullYear getMonth getDate newDate)).
Proof.
  intros Date getFullYear getMonth getDate newDate dateFormat date.
  unfold getFormatForSettings, formatDate.
  cbn [List.find supportedFormats formatString hd_error].
  destruct (String.eqb_spec "YYYY-MM-DD" dateFormat) as [<-|N1].
  { eexists. split; [reflexivity|]. split; [now left|]. split; [reflexivity | now left]. }
  destruct (String.eqb_spec "YYYY/MM/DD" dateFormat) as [<-|N2].
  { eexists. split; [reflexivity|]. split; [right; now left|].
    split; [reflexivity | now left]. }
  destruct (String.eqb_spec "DD-MM-YYYY" dateFormat) as [<-|N3].
  { eexists. split; [reflexivity|]. split; [right; right; now left|].
    split; [reflexivity | now left]. }
  eexists. split; [reflexivity|]. split; [now left|]. split.
  - cbn [formatter].
    destruct (String.eqb_spec dateFormat "YYYY/MM/DD"); [congruence|].
    destruct (String.eqb_spec dateFormat "DD-MM-YYYY"); [congruence|]. reflexivity.
  - right. split; [reflexivity|]. repeat constructor; assumption.
Qed.

(** X20. The search over all files finds a note whose name is the date
    in one of the supported formats: when some file has such a name, for a
    date with a year of four digits whose day, month and year the host
    gives back from the date built of them, the search returns a file of
    the list whose name one of the formats reads as the date. *)
Theorem fuzzy_search_finds_formatted_name :
  forall (Date : Type) (getFullYear getMonth getDate getTime : Date -> Z)
         (newDate : Z -> Z -> Z -> Date)
         (allFiles : list TFile) (date : Date) (f : DateFormat Date) (file : TFile),
    (1000 <= getFullYear date <= 9999)%Z ->
    (0 <= getMonth date <= 11)%Z ->
    (1 <= getDate date <= 31)%Z ->
    getFullYear (newDate (getFullYear date) (getMonth date) (getDate date))
    = getFullYear date ->
    getMonth (newDate (getFullYear date) (getMonth date) (getDate date))
    = getMonth date ->
    getDate (newDate (getFullYear date) (getMonth date) (getDate date))
    = getDate date ->
    In f (supportedFormats Date getFullYear getMonth getDate newDate) ->
    In file allFiles ->
    basename file = formatter _ f date ->
    exists found,
      fuzzySearchDailyNote Date getFullYear getMonth getDate getTime newDate
        allFiles date = Some found
      /\ In found allFiles
      /\ matchesDate Date getFullYear getMonth getDate getTime newDate
           (normalizeDate Date getFullYear getMonth getDate newDate date) found = true.
Proof.
  intros Date getFullYear getMonth getDate getTime newDate allFiles date f file
         Hy Hm Hd Gy Gm Gd Hf Hin Hb.
  assert (matchesDate Date getFullYear getMonth getDate getTime newDate
            (normalizeDate Date getFullYear getMonth getDate newDate
               (normalizeDate Date getFullYear getMonth getDate newDate date)) file
          = true) as Hmatch.
  { assert (normalizeDate Date getFullYear getMonth getDate newDate
              (normalizeDate Date getFullYear getMonth getDate newDate date)
            = normalizeDate Date getFullYear getMonth getDate newDate date) as Hn
      by (unfold normalizeDate; now rewrite Gy, Gm, Gd).
    rewrite Hn. now apply (matchesDate_formatted _ _ _ _ _ _ date f). }
  unfold fuzzySearchDailyNote.
  assert (normalizeDate Date getFullYear getMonth getDate newDate
            (normalizeDate Date getFullYear getMonth getDate newDate date)
          = normalizeDate Date getFullYear getMonth getDate newDate date) as Hn
    by (unfold normalizeDate; now rewrite Gy, Gm, Gd).
  rewrite Hn in Hmatch.
  destruct (List.find _ allFiles) as [found|] eqn:E.
  - apply find_some in E as [Hfound Hm']. exists found. auto.
  - apply (find_none _ _ E) in Hin. congruence.
Qed.

(** The search among three files, the second and third named by the date. *)
Lemma fuzzy_search_witness :
  exists found,
    fuzzySearchDailyNote SampleDate sampleYear sampleMonth sampleDay sampleTime
      sampleNewDate sampleFiles sampleDay18 = Some found
    /\ In found sampleFiles.
Proof.
  destruct (fuzzy_search_finds_formatted_name SampleDate sampleYear sampleMonth
              sampleDay sampleTime sampleNewDate sampleFiles sampleDay18 ymdFormat
              (Build_TFile "2025-06-18.md" "2025-06-18"))
    as (found & H1 & H2 & _).
  - vm_compute. split; discriminate.
  - vm_compute. split; discriminate.
  - vm_compute. split; discriminate.
  - reflexivity.
  - reflexivity.
  - reflexivity.
  - left. reflexivity.
  - right. right. left. reflexivity.
  - reflexivity.
  - exists found. split; assumption.
Defined.


(** *** Paths *)

Lemma without_append (sep : ascii) (a b : string) :
  without sep (a +:+ b) = (without sep a && without sep b)%bool.
Proof.
  unfold without. induction a as [|c a IH]; [reflexivity|]. simpl.
  now rewrite IH, andb_assoc.
Qed.

Lemma lastIndexOf_without (sep : ascii) (s : string) :
  without sep s = true -> lastIndexOf sep s = None.
Proof.
  unfold without. induction s as [|c s IH]; [reflexivity|]. simpl.
  intros H. apply andb_true_iff in H as [Hc H]. rewrite (IH H).
  apply negb_true_iff in Hc. now rewrite Hc.
Qed.

Lemma lastIndexOf_append (sep : ascii) (a b : string) :
  without sep b = true ->
  lastIndexOf sep (a +:+ String sep b) = Some (String.length a).
Proof.
  intros Hb. induction a as [|c a IH]; simpl.
  - now rewrite (lastIndexOf_without sep b Hb), Ascii.eqb_refl.
  - now rewrite IH.
Qed.

Lemma getDirectoryPath_append (a b : string) :
  without "/" b = true -> getDirectoryPath (a +:+ "/" +:+ b) = a.
Proof.
  intros Hb. unfold getDirectoryPath.
  change (a +:+ "/" +:+ b) with (a +:+ String "/" b).
  rewrite (lastIndexOf_append "/" a b Hb). unfold substring.
  rewrite Nat.sub_0_r.
  assert (forall s, substringFrom 0 s = s) as -> by (now intros []).
  apply substringTo_append.
Qed.

Lemma replaceAll_without (pat rep s : string) :
  without "{" s = true -> replaceAll (String "{" pat) rep s = s.
Proof.
  unfold replaceAll, without, chars. induction s as [|c s IH]; [reflexivity|].
  cbn [replaceFrom forallb list_ascii_of_string String.prefix].
  intros H. apply andb_true_iff in H as [Hc H]. apply negb_true_iff in Hc.
  destruct (ascii_dec "{" c) as [<-|_]; [discriminate|]. now rewrite (IH H).
Qed.

(** X21. The directory of a path is its part before the last slash, and
    the empty text for a path without a slash. For a folder without
    placeholders the path of a note is the folder without its final slash,
    a slash, the name of the note and ".md"; so, when the name has no
    slash, the directory that [createDailyNote] ensures is that folder. *)
Theorem directory_of_note_path :
  forall (Date : Type) (getFullYear getMonth getDate : Date -> Z)
         (folderTemplate : string) (date : Date) (dateStr : string),
    (forall a b, without "/" b = true -> getDirectoryPath (a +:+ "/" +:+ b) = a)
    /\ (without "/" dateStr = true -> getDirectoryPath (dateStr +:+ ".md") = "")
    /\ (without "{" folderTemplate = true ->
        buildNestedPath Date getFullYear getMonth getDate folderTemplate date dateStr
        = stripTrailingSlash folderTemplate +:+ "/" +:+ dateStr +:+ ".md"
        /\ (without "/" dateStr = true ->
            getDirectoryPath
              (buildNestedPath Date getFullYear getMonth getDate folderTemplate
                 date dateStr)
            = stripTrailingSlash folderTemplate)).
Proof.
  intros Date getFullYear getMonth getDate folderTemplate date dateStr.
  split; [exact getDirectoryPath_append|]. split.
  - intros Hd. unfold getDirectoryPath. rewrite lastIndexOf_without; [reflexivity|].
    rewrite without_append, Hd. reflexivity.
  - intros Hf.
    assert (buildNestedPath Date getFullYear getMonth getDate folderTemplate date dateStr
            = stripTrailingSlash folderTemplate +:+ "/" +:+ dateStr +:+ ".md") as E.
    { unfold buildNestedPath. cbn zeta.
      now rewrite !(replaceAll_without _ _ folderTemplate Hf). }
    split; [exact E|]. intros Hd. rewrite E. apply getDirectoryPath_append.
    rewrite without_append, Hd. reflexivity.
Qed.

(** The note of the sample day in the folder "Daily/". *)
Lemma directory_witness :
  getDirectoryPath
    (buildNestedPath SampleDate sampleYear sampleMonth sampleDay "Daily/"
       sampleDay18 "2025-06-18")
  = "Daily".
Proof.
  apply (proj2 (proj2 (directory_of_note_path SampleDate sampleYear sampleMonth
           sampleDay "Daily/" sampleDay18 "2025-06-18"))); reflexivity.
Defined.

(** *** Folders *)

Lemma createMissing_fold (parts : list string) :
  forall (current : string) (vault : gset string),
    let r := fold_left createMissing parts (current, vault) in
    fst r = fold_left extendPath parts current
    /\ forall p, p ∈ snd r <->
         p ∈ vault
         \/ exists k, 1 <= k <= length parts
                      /\ p = fold_left extendPath (firstn k parts) current.
Proof.
  induction parts as [|part parts IH]; intros current vault; cbn zeta.
  - split; [reflexivity|]. intros p. split; [now left|].
    intros [H|(k & Hk & _)]; [exact H | simpl in Hk; lia].
  - cbn [fold_left]. unfold createMissing at 2 4. cbn [fst snd].
    fold (extendPath current part).
    destruct (IH (extendPath current part)
                 (if decide (extendPath current part ∈ vault) then vault
                  else {[extendPath current part]} ∪ vault)) as [H1 H2].
    cbn zeta in H1, H2. split; [exact H1|]. intros p. rewrite H2.
    assert (p ∈ (if decide (extendPath current part ∈ vault) then vault
                 else {[extendPath current part]} ∪ vault)
            <-> p ∈ vault \/ p = extendPath current part) as ->.
    { destruct (decide (extendPath current part ∈ vault)) as [Hin|Hin].
      - split; [now left | intros [H | ->]; assumption].
      - rewrite elem_of_union, elem_of_singleton. tauto. }
    split.
    + intros [[H | ->] | (k & Hk & ->)].
      * now left.
      * right. exists 1. split; [simpl; lia | reflexivity].
      * right. exists (S k). split; [simpl; lia | reflexivity].
    + intros [H | (k & Hk & ->)]; [left; now left|].
      destruct k as [|[|k]]; [lia | left; now right |].
      right. exists (S k). split; [simpl in Hk; lia | reflexivity].
Qed.

Lemma extendPath_nonempty (current part : string) :
  part <> "" -> extendPath current part <> "".
Proof.
  unfold extendPath. destruct (String.eqb_spec current "") as [->|Hc]; [auto|].
  intros _. destruct current; [congruence | discriminate].
Qed.

Lemma pathOf_join (parts : list string) (current : string) :
  current <> "" -> Forall (fun p => p <> "") parts ->
  fold_left extendPath parts current
  = joinWith "/" (current :: parts).
Proof.
  revert current. induction parts as [|part parts IH]; intros current Hc Hp;
    [reflexivity|].
  inversion Hp as [|? ? Hpart Hrest]; subst. cbn [fold_left].
  rewrite IH; [|now apply extendPath_nonempty | exact Hrest].
  unfold extendPath. destruct (String.eqb_spec current ""); [contradiction|].
  destruct parts; cbn [joinWith]; [reflexivity|]. now rewrite append_assoc.
Qed.

Lemma joinWith_splitOn (sep : ascii) (s : string) : joinWith sep (splitOn sep s) = s.
Proof.
  induction s as [|c s IH]; [reflexivity|]. cbn [splitOn].
  destruct (Ascii.eqb_spec c sep) as [->|Hc].
  - destruct (splitOn sep s) as [|l ls] eqn:E; [now destruct s|].
    cbn [joinWith] in *. now rewrite IH.
  - destruct (splitOn sep s) as [|l ls] eqn:E; cbn [consHead joinWith].
    + now destruct s; [|destruct (Ascii.eqb a sep), (splitOn sep s)].
    + destruct ls; cbn [joinWith] in *; now rewrite <- IH.
Qed.


Lemma folders_nonempty (dirPath : string) : Forall (fun p => p <> "") (folders dirPath).
Proof.
  unfold folders. apply List.Forall_forall. intros p Hp.
  apply filter_In in Hp as [_ Hp]. intros ->. discriminate.
Qed.

Lemma folders_all (dirPath : string) :
  Forall (fun p => p <> "") (splitOn "/" dirPath) ->
  folders dirPath = splitOn "/" dirPath.
Proof.
  intros H. unfold folders. apply forallb_filter_id, forallb_forall.
  intros p Hp. rewrite List.Forall_forall in H. specialize (H p Hp).
  destruct p; [congruence | reflexivity].
Qed.

Lemma pathOf_firstn (parts : list string) (k : nat) :
  Forall (fun p => p <> "") parts -> 1 <= k ->  parts <> [] ->
  fold_left extendPath (firstn k parts) "" = joinWith "/" (firstn k parts).
Proof.
  intros Hp Hk Hne. destruct parts as [|x parts]; [congruence|].
  destruct k as [|k]; [lia|]. cbn [firstn fold_left].
  inversion Hp as [|? ? Hx Hrest]; subst.
  change (extendPath "" x) with x.
  apply pathOf_join; [exact Hx|]. now apply Forall_take.
Qed.

Lemma splitOn_not_nil (sep : ascii) (s : string) : splitOn sep s <> [].
Proof.
  destruct s as [|c s]; cbn [splitOn]; [discriminate|].
  destruct (Ascii.eqb c sep); [discriminate|]. now destruct (splitOn sep s).
Qed.

Lemma ensureDirectoryExists_members (vault : gset string) (dirPath : string) :
  dirPath <> "" -> dirPath ∉ vault ->
  forall p,
    p ∈ ensureDirectoryExists vault dirPath <->
    p ∈ vault
    \/ exists k, 1 <= k <= length (folders dirPath)
                 /\ p = joinWith "/" (firstn k (folders dirPath)).
Proof.
  intros Hne Hnot p. unfold ensureDirectoryExists.
  destruct (String.eqb_spec dirPath ""); [contradiction|].
  destruct (decide (dirPath ∈ vault)); [contradiction|].
  fold (folders dirPath).
  destruct (createMissing_fold (folders dirPath) "" vault) as [_ H]. cbn zeta in H.
  rewrite H. split; (intros [Hv | (k & Hk & ->)]; [now left | right]);
    exists k; (split; [exact Hk|]).
  - apply pathOf_firstn; [apply folders_nonempty | lia |].
    intros E. rewrite E in Hk. simpl in Hk. lia.
  - symmetry. apply pathOf_firstn; [apply folders_nonempty | lia |].
    intros E. rewrite E in Hk. simpl in Hk. lia.
Qed.

(** X22. [ensureDirectoryExists] removes nothing from the vault; for a
    path that the vault does not hold it adds exactly the chain of folders
    made of the non-empty pieces of the path, each folder inside the one
    before, and nothing else; so the path itself exists afterwards whenever
    none of its pieces is empty (it has no leading, final or double
    slash). *)
Theorem ensureDirectoryExists_adds_the_chain :
  forall (vault : gset string) (dirPath : string),
    (forall p, p ∈ vault -> p ∈ ensureDirectoryExists vault dirPath)
    /\ (dirPath <> "" -> dirPath ∉ vault ->
        forall p,
          p ∈ ensureDirectoryExists vault dirPath <->
          p ∈ vault
          \/ exists k, 1 <= k <= length (folders dirPath)
                       /\ p = joinWith "/" (firstn k (folders dirPath)))
    /\ (dirPath <> "" -> Forall (fun part => part <> "") (splitOn "/" dirPath) ->
        dirPath ∈ ensureDirectoryExists vault dirPath).
Proof.
  intros vault dirPath.
  assert (dirPath = "" \/ dirPath ∈ vault ->
          ensureDirectoryExists vault dirPath = vault) as Hsame.
  { unfold ensureDirectoryExists. intros [-> | Hin]; [reflexivity|].
    destruct (String.eqb dirPath ""); [reflexivity|].
    now destruct (decide (dirPath ∈ vault)). }
  split; [|split].
  - intros p Hp. destruct (String.eqb_spec dirPath "") as [E|E];
      [now rewrite Hsame by now left|].
    destruct (decide (dirPath ∈ vault)) as [Hin|Hin]; [now rewrite Hsame by now right|].
    apply ensureDirectoryExists_members; auto.
  - apply ensureDirectoryExists_members.
  - intros Hne Hparts.
    destruct (decide (dirPath ∈ vault)) as [Hin|Hin]; [now rewrite Hsame by now right|].
    apply ensureDirectoryExists_members; [assumption | assumption|].
    right. exists (length (folders dirPath)).
    rewrite firstn_all, (folders_all dirPath Hparts), joinWith_splitOn.
    split; [|reflexivity].
    pose proof (splitOn_not_nil "/" dirPath) as Hnil.
    destruct (splitOn "/" dirPath); [congruence | simpl; lia].
Qed.

(** The folders of "Daily/2025/06" in an empty vault, and a path with a
    leading slash, which is not created itself. *)
Lemma ensureDirectoryExists_witness :
  "Daily/2025/06" ∈ ensureDirectoryExists ∅ "Daily/2025/06"
  /\ "Daily/2025" ∈ ensureDirectoryExists ∅ "Daily/2025/06"
  /\ ensureDirectoryExists ∅ "/notes" = {["notes"]}.
Proof.
  split; [|split].
  - apply (proj2 (proj2 (ensureDirectoryExists_adds_the_chain ∅ "Daily/2025/06"))).
    + discriminate.
    + repeat constructor; discriminate.
  - apply (proj1 (proj2 (ensureDirectoryExists_adds_the_chain ∅ "Daily/2025/06"))).
    + discriminate.
    + apply not_elem_of_empty.
    + right. exists 2. split; [simpl; lia | reflexivity].
  - apply set_eq. intros p.
    rewrite (proj1 (proj2 (ensureDirectoryExists_adds_the_chain ∅ "/notes")));
      [|discriminate | apply not_elem_of_empty].
    rewrite elem_of_singleton. split.
    + intros [H | (k & Hk & ->)]; [now apply not_elem_of_empty in H|].
      change (folders "/notes") with ["notes"] in *. simpl in Hk.
      assert (k = 1) as -> by lia. reflexivity.
    + intros ->. right. exists 1. split; [simpl; lia | reflexivity].
Defined.


(** *** The default template *)

Lemma split_title (dateStr rest : string) :
  noLF dateStr ->
  split ("# " +:+ (dateStr +:+ (NL +:+ rest))) = ("# " +:+ dateStr) :: split rest.
Proof.
  intros Hd.
  assert ("# " +:+ (dateStr +:+ (NL +:+ rest)) = ("# " +:+ dateStr) +:+ String LF rest)
    as -> by (unfold NL; now rewrite append_assoc).
  rewrite split_append_LF, split_one; [reflexivity|].
  change ("# " +:+ dateStr) with (String "#" (String " " dateStr)).
  apply noLF_cons; [discriminate|]. apply noLF_cons; [discriminate | exact Hd].
Qed.

Lemma template_lines (settings : TimingPluginSettings) (dateStr : string) :
  noLF dateStr ->
  split (generateDefaultTemplate settings dateStr) = templateLines settings dateStr.
Proof.
  intros Hd. destruct settings as [loc name tl refl gb].
  unfold generateDefaultTemplate, templateLines, templateEnd.
  cbn [timingSectionLocation includeReflection].
  destruct loc, refl; cbn zeta iota; rewrite !append_assoc, (split_title _ _ Hd);
    reflexivity.
Qed.

Lemma stub_without_reflection (tail : list string) :
  tail = [] \/ tail = [""] ->
  extractReflectionContent (join (sectionStub ++ tail)) = None.
Proof. intros [-> | ->]; reflexivity. Qed.

Section Template.
Variable settings : TimingPluginSettings.
Variable dateStr : string.
Hypothesis plainDate : noLF dateStr.
Hypothesis dateNotTitle : notTitle ("# " +:+ dateStr).

Lemma template_section :
  findTimingSection (generateDefaultTemplate settings dateStr) =
  match timingSectionLocation settings with
  | Top =>
      {| exists_ := true; startLine := 2; endLine := 5;
         content := join sectionStub; headerLevel := 2 |}
  | Bottom =>
      if includeReflection settings
      then {| exists_ := true; startLine := 6; endLine := 9;
              content := join sectionStub; headerLevel := 2 |}
      else {| exists_ := true; startLine := 6; endLine := 10;
              content := join (sectionStub ++ [""]); headerLevel := 2 |}
  | _ =>
      {| exists_ := false; startLine := -1; endLine := -1;
         content := ""; headerLevel := 0 |}
  end.
Proof.
  pose proof (template_lines settings dateStr plainDate) as Hlines.
  destruct settings as [loc name tl refl gb].
  unfold templateLines, templateEnd in Hlines.
  cbn [timingSectionLocation includeReflection] in *.
  assert (forall pre rest doc,
            split doc = pre ++ timingHeaderLine 2 :: rest ->
            Forall notTitle pre ->
            findTimingSection doc =
            {| exists_ := true; startLine := Z.of_nat (length pre);
               endLine := Z.of_nat (sectionEnd 2 (length pre) (split doc));
               content := join (slice (length pre)
                                  (sectionEnd 2 (length pre) (split doc)) (split doc));
               headerLevel := 2 |}) as Hlocate.
  { intros pre rest doc E Hpre. apply (locate_by_lines doc pre rest 2 E); [lia | exact Hpre]. }
  assert (Forall notTitle (templateHead dateStr)) as Hhead
    by (constructor; [exact dateNotTitle | repeat constructor]).
  assert (Forall notTitle (templateHead dateStr ++ templateBody)) as Hbody
    by (apply Forall_app; split; [exact Hhead | repeat constructor]).
  destruct loc, refl.
  - rewrite (Hlocate (templateHead dateStr)
               (tail sectionStub ++ templateBody ++ ["## Reflection"; ""; ""]) _
               Hlines Hhead), Hlines. reflexivity.
  - rewrite (Hlocate (templateHead dateStr)
               (tail sectionStub ++ templateBody ++ [""]) _ Hlines Hhead), Hlines.
    reflexivity.
  - rewrite (Hlocate (templateHead dateStr ++ templateBody)
               (tail sectionStub ++ ["## Reflection"; ""; ""]) _ Hlines Hbody), Hlines.
    reflexivity.
  - rewrite (Hlocate (templateHead dateStr ++ templateBody)
               (tail sectionStub ++ [""]) _ Hlines Hbody), Hlines.
    reflexivity.
  - unfold findTimingSection. rewrite Hlines.
    cbn [app templateHead templateBody findFrom]. unfold notTitle in dateNotTitle.
    now rewrite dateNotTitle.
  - unfold findTimingSection. rewrite Hlines.
    cbn [app templateHead templateBody findFrom]. unfold notTitle in dateNotTitle.
    now rewrite dateNotTitle.
  - unfold findTimingSection. rewrite Hlines.
    cbn [app templateHead templateBody findFrom]. unfold notTitle in dateNotTitle.
    now rewrite dateNotTitle.
  - unfold findTimingSection. rewrite Hlines.
    cbn [app templateHead templateBody findFrom]. unfold notTitle in dateNotTitle.
    now rewrite dateNotTitle.
Qed.

End Template.

(** X23. In the default template, for a date text without line feed that
    does not make its title line a Timing title: with the placement at the
    top the locator finds the stub of the Timing section at lines 2 to 5,
    with the placement at the bottom at lines 6 to 9, or 6 to 10 (the end
    of the note) when the template has no Reflection header; with the other
    placements the template has no Timing section. The stub has level 2 and
    holds no reflection: the Reflection header of the template is outside
    of it. *)
Theorem default_template_section :
  forall (settings : TimingPluginSettings) (dateStr : string),
    noLF dateStr ->
    notTitle ("# " +:+ dateStr) ->
    split (generateDefaultTemplate settings dateStr) = templateLines settings dateStr
    /\ findTimingSection (generateDefaultTemplate settings dateStr) =
       match timingSectionLocation settings with
       | Top =>
           {| exists_ := true; startLine := 2; endLine := 5;
              content := join sectionStub; headerLevel := 2 |}
       | Bottom =>
           if includeReflection settings
           then {| exists_ := true; startLine := 6; endLine := 9;
                   content := join sectionStub; headerLevel := 2 |}
           else {| exists_ := true; startLine := 6; endLine := 10;
                   content := join (sectionStub ++ [""]); headerLevel := 2 |}
       | _ =>
           {| exists_ := false; startLine := -1; endLine := -1;
              content := ""; headerLevel := 0 |}
       end
    /\ extractReflectionContent
         (content (findTimingSection (generateDefaultTemplate settings dateStr)))
       = None.
Proof.
  intros settings dateStr Hd Ht.
  split; [now apply template_lines|].
  rewrite (template_section settings dateStr Hd Ht).
  split; [reflexivity|].
  destruct (timingSectionLocation settings); try reflexivity.
  now destruct (includeReflection settings).
Qed.

(** The template of the sample day with the section at the bottom. *)
Lemma default_template_witness :
  findTimingSection (generateDefaultTemplate (settingsAt Bottom true) "2025-06-18")
  = {| exists_ := true; startLine := 6; endLine := 9;
       content := join sectionStub; headerLevel := 2 |}.
Proof.
  refine (proj1 (proj2 (default_template_section (settingsAt Bottom true)
                          "2025-06-18" _ _))).
  - plain_noLF.
  - reflexivity.
Defined.


(** X24. The first synchronisation of a note created from the default
    template replaces the stub in place: with the placement at the top the
    generated section stands between the title and the fixed headers, with
    the placement at the bottom after them, followed by the Reflection
    header of the template when there is one (next to the Reflection
    sub-section of the generated section). With plain statistics a second
    synchronisation with the same data leaves the note as it is. *)
Theorem first_sync_of_default_template :
  forall (settings : TimingPluginSettings)
         (summary applications categories timeline : DailyTimeData -> string -> string)
         (data : DailyTimeData) (dateStr : string),
    let template := generateDefaultTemplate settings dateStr in
    let section :=
      split (generateTimingContent settings summary applications categories timeline
               data None 2) in
    let sync := fun doc =>
      updateTimingSection settings summary applications categories timeline doc data in
    noLF dateStr ->
    notTitle ("# " +:+ dateStr) ->
    (timingSectionLocation settings = Top ->
     split (sync template)
     = templateHead dateStr ++ section ++ templateBody ++ templateEnd settings)
    /\ (timingSectionLocation settings = Bottom ->
        split (sync template)
        = templateHead dateStr ++ templateBody ++ section
          ++ (if includeReflection settings then templateEnd settings else []))
    /\ (timingSectionLocation settings = Top \/ timingSectionLocation settings = Bottom ->
        plainText 2 (statistics settings summary applications categories timeline data 2) ->
        sync (sync template) = sync template).
Proof.
  intros settings summary applications categories timeline data dateStr
         template section sync Hd Ht.
  pose proof (template_section settings dateStr Hd Ht) as Hfind.
  pose proof (template_lines settings dateStr Hd) as Hlines.
  fold template in Hfind, Hlines. unfold templateLines in Hlines.
  split; [|split].
  - intros Hloc. rewrite Hloc in Hfind, Hlines.
    destruct (update_lines_replace settings summary applications categories timeline
                data template 2 5 2 (join sectionStub) Hfind) as [_ E].
    unfold sync. rewrite E, Hlines. reflexivity.
  - intros Hloc. rewrite Hloc in Hfind, Hlines. unfold templateEnd in *.
    destruct (includeReflection settings).
    + destruct (update_lines_replace settings summary applications categories timeline
                  data template 6 9 2 (join sectionStub) Hfind) as [_ E].
      unfold sync. rewrite E, Hlines. reflexivity.
    + destruct (update_lines_replace settings summary applications categories timeline
                  data template 6 10 2 (join (sectionStub ++ [""])) Hfind) as [_ E].
      unfold sync. rewrite E, Hlines. reflexivity.
  - intros Hloc Hplain. unfold sync.
    apply replace_idempotent; fold template; rewrite Hfind.
    + destruct Hloc as [-> | ->]; [reflexivity|].
      now destruct (includeReflection settings).
    + destruct Hloc as [-> | ->]; [reflexivity|].
      now destruct (includeReflection settings).
    + destruct Hloc as [-> | ->]; [exact Hplain|].
      now destruct (includeReflection settings).
Qed.

(** The note of the sample day, with the section at the bottom. *)
Lemma first_sync_witness :
  syncEmptyDay (settingsAt Bottom true)
    (syncEmptyDay (settingsAt Bottom true)
       (generateDefaultTemplate (settingsAt Bottom true) "2025-06-18"))
  = syncEmptyDay (settingsAt Bottom true)
      (generateDefaultTemplate (settingsAt Bottom true) "2025-06-18").
Proof.
  refine (proj2 (proj2 (first_sync_of_default_template (settingsAt Bottom true)
            summaryOfEmptyDay applicationsOfEmptyDay categoriesOfEmptyDay
            timelineOfEmptyDay emptyDay "2025-06-18" _ _)) _ _).
  - plain_noLF.
  - reflexivity.
  - right. reflexivity.
  - apply plainText_check; reflexivity.
Defined.

End NoteFacts.

(** ** Properties of the renderers of the summary and of the timeline *)

Module RenderFacts.
Import Text Js Numbers DataTransformer DataTransformerViews TimingSectionManager.
Import Renderers Spec Examples Shapes Samples.
Import TextFacts ScanFacts PatternFacts EngineFacts Synchronisation TransformerFacts.
Import NoteFacts.
#[local] Arguments String.append : simpl nomatch.

(** *** Texts without line feed *)

Lemma without_noLF (s : string) : without LF s = true <-> noLF s.
Proof.
  unfold without, chars. induction s as [|c s IH]; cbn [list_ascii_of_string forallb].
  - split; [intros _; apply noLF_nil | reflexivity].
  - split.
    + intros H. apply andb_true_iff in H as [Hc Hs]. apply negb_true_iff in Hc.
      apply noLF_cons; [|now apply IH]. intros ->. now rewrite Ascii.eqb_refl in Hc.
    + intros H. apply noLF_cons_inv in H as [Hc Hs].
      apply andb_true_iff. split; [|now apply IH].
      apply negb_true_iff. now apply Ascii.eqb_neq.
Qed.

Lemma isDigit_of_N (n : N) : (n < 10)%N -> isDigit (ascii_of_N (48 + n)) = true.
Proof.
  intros H. unfold isDigit. rewrite N_ascii_embedding by lia.
  apply andb_true_iff; split; apply N.leb_le; lia.
Qed.

Lemma digitsOf_digits (fuel : nat) :
  forall n acc, allDigits acc = true -> allDigits (digitsOf fuel n acc) = true.
Proof.
  induction fuel as [|fuel IH]; intros n acc H; cbn [digitsOf]; [exact H|].
  assert (allDigits (String (ascii_of_N (48 + n mod 10)) acc) = true) as H'.
  { unfold allDigits, chars in *. cbn [list_ascii_of_string forallb].
    rewrite isDigit_of_N by (apply N.mod_lt; lia). exact H. }
  cbn zeta. destruct (n / 10 =? 0)%N; [exact H' | now apply IH].
Qed.

Lemma digit_not_LF (c : ascii) : isDigit c = true -> Ascii.eqb c LF = false.
Proof.
  destruct c as [[] [] [] [] [] [] [] []]; intros H; vm_compute in H;
    try discriminate H; reflexivity.
Qed.

Lemma allDigits_plain (s : string) : allDigits s = true -> without LF s = true.
Proof.
  unfold allDigits, without, chars. induction s as [|c s IH]; [reflexivity|].
  cbn [list_ascii_of_string forallb]. intros H. apply andb_true_iff in H as [Hc H].
  now rewrite (digit_not_LF c Hc), (IH H).
Qed.

Lemma decimal_plain (z : Z) : without LF (decimal z) = true.
Proof.
  assert (forall n, without LF (decimalN n) = true) as Hn
    by (intros n; apply allDigits_plain, digitsOf_digits; reflexivity).
  destruct z; cbn [decimal]; apply Hn.
Qed.

Ltac plain :=
  repeat (rewrite without_append; apply andb_true_iff; split);
  try reflexivity; try assumption; try apply decimal_plain.

Lemma formatDuration_plain (s : Z) : without LF (formatDuration s) = true.
Proof.
  unfold formatDuration. destruct (s <? 60)%Z; [plain|]. cbn zeta.
  destruct (s / 60 <? 60)%Z; [plain|]. destruct (_ =? 0)%Z; plain.
Qed.

Lemma numberToText_plain (n : option Z) : without LF (numberToText n) = true.
Proof. destruct n; [apply decimal_plain | reflexivity]. Qed.

Lemma padStart2_plain (s : string) :
  without LF s = true -> without LF (padStart2 s) = true.
Proof.
  intros H. unfold padStart2. rewrite without_append, H, andb_true_r.
  generalize (2 - String.length s). intros k. induction k as [|k IH]; [reflexivity|].
  exact IH.
Qed.

Lemma splitOn_plain (sep : ascii) (t : string) :
  without LF t = true -> Forall (fun p => without LF p = true) (splitOn sep t).
Proof.
  unfold without, chars. induction t as [|c t IH]; [repeat constructor|].
  cbn [list_ascii_of_string forallb splitOn]. intros H.
  apply andb_true_iff in H as [Hc H]. specialize (IH H).
  destruct (Ascii.eqb c sep); [constructor; [reflexivity | exact IH]|].
  destruct (splitOn sep t) as [|p ps]; cbn [consHead].
  - repeat constructor. cbn [list_ascii_of_string forallb]. now rewrite Hc.
  - inversion IH; subst. constructor; [|assumption].
    cbn [list_ascii_of_string forallb]. now rewrite Hc.
Qed.

Lemma formatTime_plain (t : string) (format : TimeFormat) :
  without LF t = true -> without LF (formatTime t format) = true.
Proof.
  intros H. destruct format; [|exact H]. unfold formatTime. cbn zeta.
  pose proof (splitOn_plain ":" t H) as Hp.
  assert (without LF match splitOn ":" t with
                     | _ :: m :: _ => m
                     | _ => "undefined"
                     end = true) as Hm.
  { destruct (splitOn ":" t) as [|a [|m ps]]; try reflexivity.
    inversion Hp as [|? ? _ Hp']; subst. now inversion Hp'. }
  plain.
  - apply numberToText_plain.
  - destruct (parseInt _) as [h|]; [|reflexivity]. now destruct (h <? 12)%Z.
Qed.


(** *** Lines of a sub-section *)

Lemma timelineEntry_plain (timeFormat : TimeFormat) (e : TimeEntry) :
  plainEntry e = true ->
  without LF (timelineEntry timeFormat e) = true
  /\ exists rest, timelineEntry timeFormat e = "- **" +:+ rest.
Proof.
  unfold plainEntry. intros H.
  apply andb_true_iff in H as [H Ht]. apply andb_true_iff in H as [H Hc].
  apply andb_true_iff in H as [H Ha]. apply andb_true_iff in H as [Hs He].
  pose proof (formatTime_plain _ timeFormat Hs) as Hs'.
  pose proof (formatTime_plain _ timeFormat He) as He'.
  pose proof (formatDuration_plain (duration e)) as Hd.
  unfold timelineEntry. cbn zeta.
  destruct (category e) as [c|], (title e) as [t|]; cbn [from_option] in Hc, Ht;
    try destruct (String.eqb c ""); try destruct (String.eqb t "");
    (split; [plain | rewrite ?append_assoc; eexists; reflexivity]).
Qed.

Lemma dash_line_plain (level : nat) (rest : string) :
  plainLine level ("- **" +:+ rest).
Proof. repeat split. Qed.

Lemma subheader_plain (level : nat) (name : string) :
  1 <= level <= 6 -> name = " Summary" \/ name = " Timeline" ->
  plainLine level (repeat hash (level + 1) +:+ name)
  /\ noLF (repeat hash (level + 1) +:+ name).
Proof.
  intros H Hname. split.
  - assert (level = 1 \/ level = 2 \/ level = 3 \/ level = 4 \/ level = 5 \/ level = 6)
      as [->|[->|[->|[->|[->| ->]]]]] by lia;
      destruct Hname as [-> | ->]; repeat split.
  - apply noLF_repeat_hash. destruct Hname as [-> | ->]; plain_noLF.
Qed.

Lemma fold_lines {A} (f : A -> string) (xs : list A) :
  forall pre, pre <> [] ->
    fold_left (fun content x => content +:+ f x +:+ NL) xs (join (pre ++ [""]))
    = join (pre ++ map f xs ++ [""]).
Proof.
  induction xs as [|x xs IH]; intros pre Hpre; [reflexivity|].
  cbn [fold_left map].
  assert (join (pre ++ [""]) +:+ f x +:+ NL = join ((pre ++ [f x]) ++ [""])) as ->.
  { rewrite !join_app by (try discriminate; try assumption; now destruct pre).
    cbn [join]. unfold NL. rewrite ?append_assoc; reflexivity. }
  rewrite IH by now destruct pre. now rewrite <- app_assoc.
Qed.

Lemma section_of_lines (hdr : string) (lines : list string) :
  join (hdr :: "" :: lines ++ [""; ""])
  = (hdr +:+ NL +:+ NL) +:+ join (lines ++ [""]) +:+ NL.
Proof.
  change (hdr :: "" :: lines ++ [""; ""]) with ([hdr; ""] ++ lines ++ [""; ""]).
  rewrite join_app by (try discriminate; now destruct lines).
  change (lines ++ [""; ""]) with (lines ++ [""] ++ [""]). rewrite app_assoc.
  rewrite (join_app (lines ++ [""])) by (try discriminate; now destruct lines).
  cbn [join]. unfold NL. rewrite ?append_assoc; reflexivity.
Qed.

Lemma plain_section (level : nat) (hdr : string) (lines : list string) :
  plainLine level hdr -> noLF hdr ->
  Forall (fun l => plainLine level l /\ noLF l) lines ->
  split (join (hdr :: "" :: lines ++ [""; ""])) = hdr :: "" :: lines ++ [""; ""]
  /\ plainText level (join (hdr :: "" :: lines ++ [""; ""])).
Proof.
  intros Hh Hn Hl.
  assert (split (join (hdr :: "" :: lines ++ [""; ""])) = hdr :: "" :: lines ++ [""; ""])
    as E.
  { apply split_join; [discriminate|].
    constructor; [exact Hn|]. constructor; [apply noLF_nil|].
    apply Forall_app. split.
    - eapply Forall_impl; [exact Hl|]. now intros l [_ H].
    - repeat constructor; apply noLF_nil. }
  split; [exact E|]. split.
  - rewrite section_of_lines. eexists. unfold NL. rewrite <- !append_assoc. reflexivity.
  - rewrite E. constructor; [exact Hh|]. constructor; [repeat split|].
    apply Forall_app. split.
    + eapply Forall_impl; [exact Hl|]. now intros l [H _].
    + repeat constructor.
Qed.

Section Sections.
Variable timeFormat : TimeFormat.
Variable minimumDuration : Z.
Variable applicationOrder : gmap string Z -> list (string * Z).
Variable hourOrder : gmap (option Z) Z -> list (option Z * Z).

Lemma timeline_as_lines (timingData : DailyTimeData) (h2 : string) :
  generateTimelineSection timeFormat minimumDuration timingData h2
  = join ((h2 +:+ " Timeline") :: ""
          :: timelineLines timeFormat minimumDuration timingData ++ [""; ""]).
Proof.
  unfold generateTimelineSection, timelineLines. cbn zeta.
  assert (h2 +:+ " Timeline" +:+ NL +:+ NL = (h2 +:+ " Timeline") +:+ NL +:+ NL) as E
    by (rewrite ?append_assoc; reflexivity).
  destruct (entries timingData) as [|e es] eqn:Ee; cbn [length Nat.eqb].
  - rewrite section_of_lines, E. cbn [app join]. unfold NL.
    rewrite ?append_assoc; reflexivity.
  - destruct (filterEntriesByMinimumDuration (e :: es) minimumDuration) as [|x xs] eqn:Ef;
      cbn [length Nat.eqb].
    + rewrite section_of_lines, E. cbn [app join]. unfold NL.
      rewrite ?append_assoc; reflexivity.
    + set (lines := map (timelineEntry timeFormat) (x :: xs)).
      assert (h2 +:+ " Timeline" +:+ NL +:+ NL = join ([h2 +:+ " Timeline"; ""] ++ [""]))
        as -> by (cbn [app join]; unfold NL; rewrite ?append_assoc; reflexivity).
      rewrite fold_lines by discriminate. fold lines.
      replace ((h2 +:+ " Timeline") :: "" :: lines ++ [""; ""])
        with (([h2 +:+ " Timeline"; ""] ++ lines ++ [""]) ++ [""])
        by (now rewrite <- !app_assoc).
      now rewrite (join_app _ [""]) by discriminate.
Qed.

Lemma summary_as_lines (timingData : DailyTimeData) (h2 : string) :
  generateSummarySection timeFormat applicationOrder hourOrder timingData h2
  = join ((h2 +:+ " Summary") :: ""
          :: summaryLines timeFormat applicationOrder hourOrder timingData ++ [""; ""]).
Proof.
  rewrite section_of_lines. unfold generateSummarySection, summaryLines. cbn zeta.
  destruct (getMostUsedApplication _ _) as [[name time]|];
    destruct (getMostProductiveHour _ _) as [[hour htime]|];
    cbn [app join]; unfold NL;
    repeat (progress (rewrite ?append_assoc; cbn [String.append])); reflexivity.
Qed.

Lemma timelineLines_plain (timingData : DailyTimeData) (level : nat) :
  forallb plainEntry (entries timingData) = true ->
  Forall (fun l => plainLine level l /\ noLF l)
         (timelineLines timeFormat minimumDuration timingData).
Proof.
  intros H. unfold timelineLines.
  destruct (entries timingData) as [|e es] eqn:Ee.
  { constructor; [split; [repeat split | plain_noLF] | constructor]. }
  destruct (filterEntriesByMinimumDuration (e :: es) minimumDuration) as [|x xs] eqn:Ef.
  { constructor; [split; [repeat split | plain_noLF] | constructor]. }
  rewrite <- Ef. apply List.Forall_forall. intros l Hl.
  apply in_map_iff in Hl as (entry & <- & Hin).
  apply filter_In in Hin as [Hin _].
  rewrite forallb_forall in H.
  destruct (timelineEntry_plain timeFormat entry (H entry Hin)) as [Hp (rest & E)].
  split; [rewrite E; apply dash_line_plain | apply (proj1 (without_noLF _)); exact Hp].
Qed.

Lemma summaryLines_plain (timingData : DailyTimeData) (level : nat) :
  Permutation (applicationOrder (byApplication (summary timingData)))
              (map_to_list (byApplication (summary timingData))) ->
  (forall a v, byApplication (summary timingData) !! a = Some v -> without LF a = true) ->
  Forall (fun l => plainLine level l /\ noLF l)
         (summaryLines timeFormat applicationOrder hourOrder timingData).
Proof.
  intros Hp Hkeys. unfold summaryLines.
  apply Forall_app. split; [|apply Forall_app; split].
  - constructor; [split|constructor]; [apply dash_line_plain|].
    apply (proj1 (without_noLF _)). plain. apply formatDuration_plain.
  - destruct (getMostUsedApplication _ _) as [[name time]|] eqn:E; [|constructor].
    constructor; [split|constructor]; [apply dash_line_plain|].
    assert (without LF name = true) as Hname.
    { unfold getMostUsedApplication in E.
      destruct (size _ =? 0)%nat; [discriminate|]. injection E as E.
      destruct (greatest_of_map _ _ _ _ _ Hp E) as (_ & _ & [[Hk _] | [-> _]]);
        [exact (Hkeys _ _ Hk) | reflexivity]. }
    apply (proj1 (without_noLF _)). plain. apply formatDuration_plain.
  - destruct (getMostProductiveHour _ _) as [[hour htime]|]; [|constructor].
    constructor; [split|constructor]; [apply dash_line_plain|].
    apply (proj1 (without_noLF _)). plain; [|apply formatDuration_plain].
    apply formatTime_plain. rewrite without_append.
    now rewrite (padStart2_plain _ (numberToText_plain hour)).
Qed.

End Sections.


(** X25. For entries whose texts have no line feed, the timeline that is
    rendered under a sub-header is that sub-header, an empty line, one line
    for each entry of at least the minimum duration, in the order of the
    entries (or one line in italics when there is no entry, or none of that
    duration), and two empty pieces; each line of an entry starts with
    "- **", and no line is a header of the depth of the section or above, a
    Timing title or a Reflection header. *)
Theorem timeline_section_lines :
  forall (timeFormat : TimeFormat) (minimumDuration : Z)
         (timingData : DailyTimeData) (level : nat),
    1 <= level <= 6 ->
    forallb plainEntry (entries timingData) = true ->
    split (generateTimelineSection timeFormat minimumDuration timingData
             (repeat hash (level + 1)))
    = (repeat hash (level + 1) +:+ " Timeline") :: ""
      :: timelineLines timeFormat minimumDuration timingData ++ [""; ""]
    /\ plainText level
         (generateTimelineSection timeFormat minimumDuration timingData
            (repeat hash (level + 1))).
Proof.
  intros timeFormat minimumDuration timingData level Hl He.
  rewrite timeline_as_lines.
  destruct (subheader_plain level " Timeline" Hl) as [Hh Hn]; [now right|].
  apply plain_section; try assumption. now apply timelineLines_plain.
Qed.

(** The timeline of the sample day in the 12-hour form, for entries of a
    minute or more. *)
Lemma timeline_section_witness :
  split (generateTimelineSection H12 60 sampleData "###")
  = ["### Timeline"; "";
     "- **12:10 AM - 1:15 AM** (1h 5m): Safari";
     "- **9:00 AM - 9:30 AM** (30m): Xcode (Dev) - main.swift"; ""; ""]
  /\ plainText 2 (generateTimelineSection H12 60 sampleData "###").
Proof.
  destruct (timeline_section_lines H12 60 sampleData 2) as [H1 H2];
    [lia | reflexivity |].
  change (repeat hash (2 + 1)) with "###" in H1, H2.
  split; [rewrite H1; reflexivity | exact H2].
Defined.

(** X26. When no name of an application has a line feed, the summary
    that is rendered under a sub-header is that sub-header, an empty line,
    the line of the total time, the line of the most used application and
    the line of the most productive hour when the maps are not empty, and
    two empty pieces; no line is a header of the depth of the section or
    above, a Timing title or a Reflection header. *)
Theorem summary_section_lines :
  forall (timeFormat : TimeFormat)
         (applicationOrder : gmap string Z -> list (string * Z))
         (hourOrder : gmap (option Z) Z -> list (option Z * Z))
         (timingData : DailyTimeData) (level : nat),
    1 <= level <= 6 ->
    Permutation (applicationOrder (byApplication (summary timingData)))
                (map_to_list (byApplication (summary timingData))) ->
    (forall a v, byApplication (summary timingData) !! a = Some v ->
                 without LF a = true) ->
    split (generateSummarySection timeFormat applicationOrder hourOrder timingData
             (repeat hash (level + 1)))
    = (repeat hash (level + 1) +:+ " Summary") :: ""
      :: summaryLines timeFormat applicationOrder hourOrder timingData ++ [""; ""]
    /\ plainText level
         (generateSummarySection timeFormat applicationOrder hourOrder timingData
            (repeat hash (level + 1))).
Proof.
  intros timeFormat applicationOrder hourOrder timingData level Hl Hp Hkeys.
  rewrite summary_as_lines.
  destruct (subheader_plain level " Summary" Hl) as [Hh Hn]; [now left|].
  apply plain_section; try assumption. now apply summaryLines_plain.
Qed.

(** The summary of the sample day. *)
Lemma summary_section_witness :
  split (generateSummarySection H24 map_to_list map_to_list sampleData "###")
  = ["### Summary"; ""; "- **Total tracked time**: 1h 35m";
     "- **Most used app**: Safari (1h 5m)";
     "- **Most productive hour**: 00:00:00 (1h 5m)"; ""; ""]
  /\ plainText 2 (generateSummarySection H24 map_to_list map_to_list sampleData "###").
Proof.
  destruct (summary_section_lines H24 map_to_list map_to_list sampleData 2) as [H1 H2].
  - lia.
  - reflexivity.
  - intros a v Hv.
    assert (a = "Safari" \/ a = "Xcode" \/ a = "Mail") as [-> | [-> | ->]];
      try reflexivity.
    destruct (decide (a = "Safari")) as [|N1]; [now left|].
    destruct (decide (a = "Xcode")) as [|N2]; [right; now left|].
    destruct (decide (a = "Mail")) as [|N3]; [right; now right|].
    exfalso. unfold sampleData, sampleEntries, calculateSummary in Hv.
    cbn [summary fold_left addEntry byApplication application duration emptySummary]
      in Hv.
    unfold accumulate in Hv.
    rewrite !lookup_insert_ne, lookup_empty in Hv by congruence. discriminate.
  - change (repeat hash (2 + 1)) with "###" in H1, H2.
    split; [rewrite H1; vm_compute; reflexivity | exact H2].
Defined.

Section Statistics.
Variable settings : TimingPluginSettings.
Variable timeFormat : TimeFormat.
Variable minimumDuration : Z.
Variable applicationOrder : gmap string Z -> list (string * Z).
Variable hourOrder : gmap (option Z) Z -> list (option Z * Z).
Variable generateApplicationSection : DailyTimeData -> string -> string.
Variable generateCategorySection : DailyTimeData -> string -> string.
Variable timingData : DailyTimeData.


End Statistics.





End RenderFacts.
